(** * Graphite key helpers: paint-effect trees to key blocks and uniform data

    A shallow embedding of [src/gpu/graphite/KeyHelpers.cpp]: the block
    writers ([XxxBlock::BeginBlock]), the blend conveniences and the
    [AddToKey] dispatchers for blenders and color filters, together with the
    properties of the key and uniform streams they produce. *)

From Stdlib Require Import ZArith List Bool Lia SpecFloat.
Import ListNotations.
Local Open Scope Z_scope.

(* ================================================================== *)
(** ** Scalars *)

(** C++ [float] is IEEE binary32: 24 bits of precision, [emax = 128]. *)
Definition float : Type := spec_float.
Definition f32_prec : Z := 24.
Definition f32_emax : Z := 128.

(** [SkIntToFloat(i)], i.e. [static_cast<float>(i)]. *)
Definition SkIntToFloat (i : Z) : float :=
  binary_normalize f32_prec f32_emax i 0 false.

Definition f32_div (x y : float) : float := SFdiv f32_prec f32_emax x y.

Definition f32_0 : float := S754_zero false.
Definition f32_1 : float := Eval vm_compute in SkIntToFloat 1.

(* ================================================================== *)
(** ** Plain data carried by the effects *)

Record SkPoint := { fX : float; fY : float }.
Record SkPoint3 := { p3X : float; p3Y : float; p3Z : float }.
Record SkIPoint := { ipX : Z; ipY : Z }.
Record SkISize := { fWidth : Z; fHeight : Z }.
Record SkRect := { fLeft : float; fTop : float; fRight : float; fBottom : float }.
Record SkV4 := { v4x : float; v4y : float; v4z : float; v4w : float }.

(** [SkRGBA4f]: both [SkColor4f] and [SkPMColor4f] are four floats. *)
Record SkColor4f := { fR : float; fG : float; fB : float; fA : float }.
Definition SkPMColor4f : Type := SkColor4f.

(** Matrices are kept as their flat coefficient buffers (16 and 9 floats). *)
Definition SkM44 : Type := list float.
Definition SkMatrix : Type := list float.

(** [SkM44::setIdentity]. *)
Definition SkM44_setIdentity : SkM44 :=
  [f32_1; f32_0; f32_0; f32_0;
   f32_0; f32_1; f32_0; f32_0;
   f32_0; f32_0; f32_1; f32_0;
   f32_0; f32_0; f32_0; f32_1].

(** [SkMatrix::set9(buffer)] overwrites all nine coefficients. *)
Definition SkMatrix_set9 (_ : SkMatrix) (buffer : list float) : SkMatrix := buffer.

Inductive SkTileMode := kClamp | kRepeat | kMirror | kDecal.
Inductive SkFilterMode := kNearest | kLinear.
Inductive SkMipmapMode := kNone_Mipmap | kNearest_Mipmap | kLinear_Mipmap.
Inductive SkAlphaType :=
  kUnknown_SkAlphaType | kOpaque_SkAlphaType | kPremul_SkAlphaType | kUnpremul_SkAlphaType.

(** Enumerator values follow the order of declaration of the enums. *)
Definition SkTileMode_to_int (tm : SkTileMode) : Z :=
  match tm with kClamp => 0 | kRepeat => 1 | kMirror => 2 | kDecal => 3 end.
Definition SkFilterMode_to_int (fm : SkFilterMode) : Z :=
  match fm with kNearest => 0 | kLinear => 1 end.

(** [SkBlendMode] and [ReadSwizzle] values are only ever forwarded
    ([SkTo<int>]); they are kept as their underlying integers. *)
Definition SkBlendMode : Type := Z.
Definition ReadSwizzle : Type := Z.

Definition bool_to_int (b : bool) : Z := if b then 1 else 0.

Record SkCubicResampler := { cubicB : float; cubicC : float }.

Record SkSamplingOptions := {
  useCubic : bool;
  cubic : SkCubicResampler;
  filter : SkFilterMode;
  mipmap : SkMipmapMode
}.

(** [SkSamplingOptions(filter, mipmap)]. *)
Definition SkSamplingOptions_make (fm : SkFilterMode) (mm : SkMipmapMode) : SkSamplingOptions :=
  {| useCubic := false; cubic := {| cubicB := f32_0; cubicC := f32_0 |};
     filter := fm; mipmap := mm |}.

(** [SkSamplingOptions()] and [SkSamplingOptions(SkFilterMode)]. *)
Definition SkSamplingOptions_default : SkSamplingOptions :=
  SkSamplingOptions_make kNearest kNone_Mipmap.
Definition SkSamplingOptions_of_filter (fm : SkFilterMode) : SkSamplingOptions :=
  SkSamplingOptions_make fm kNone_Mipmap.

(** A texture proxy is looked at only through [dimensions()]. *)
Record TextureProxy := { proxyID : Z; dimensions : SkISize }.

(** [sk_sp<T>] and raw [T*]: a possibly-null reference. *)
Definition sk_sp (T : Type) : Type := option T.
Definition is_null {T : Type} (p : option T) : bool :=
  match p with None => true | Some _ => false end.

Record SkBitmap := { bitmapID : Z; bitmapSize : SkISize; pixels : list Z }.

(** [skcms_TransferFunction]: seven coefficients laid out as [g a b c d e f]. *)
Record skcms_TransferFunction := {
  tf_g : float; tf_a : float; tf_b : float; tf_c : float;
  tf_d : float; tf_e : float; tf_f : float
}.

Inductive skcms_TFType :=
| skcms_TFType_Invalid
| skcms_TFType_sRGBish
| skcms_TFType_PQish
| skcms_TFType_HLGish
| skcms_TFType_HLGinvish.

Definition skcms_TFType_to_int (t : skcms_TFType) : Z :=
  match t with
  | skcms_TFType_Invalid => 0
  | skcms_TFType_sRGBish => 1
  | skcms_TFType_PQish => 2
  | skcms_TFType_HLGish => 3
  | skcms_TFType_HLGinvish => 4
  end.

Record SkColorSpace := { fTransferFn : skcms_TransferFunction; fToXYZD50 : list float }.

(** [SkColorSpaceXformSteps]: the five flags, the two transfer functions and
    the gamut matrix. *)
Record XformFlags := {
  unpremul : bool;
  linearize : bool;
  gamut_transform : bool;
  encode : bool;
  premul : bool
}.

Record SkColorSpaceXformSteps := {
  flags : XformFlags;
  srcTF : skcms_TransferFunction;
  dstTFInv : skcms_TransferFunction;
  src_to_dst_matrix : list float
}.

(** The span [{&tf.g, kNumXferFnCoeffs}] over a transfer function. *)
Definition kNumXferFnCoeffs : nat := 7.
Definition tf_span (tf : skcms_TransferFunction) : list float :=
  [tf_g tf; tf_a tf; tf_b tf; tf_c tf; tf_d tf; tf_e tf; tf_f tf].

(** [static constexpr float kEmptyXferFn[kNumXferFnCoeffs] = {}]. *)
Definition kEmptyXferFn : list float := repeat f32_0 kNumXferFnCoeffs.

(** [constexpr SkPMColor4f kErrorColor = { 1, 0, 0, 1 }]. *)
Definition kErrorColor : SkPMColor4f :=
  {| fR := f32_1; fG := f32_0; fB := f32_0; fA := f32_1 |}.

(* ================================================================== *)
(** ** Snippet identifiers *)

Inductive BuiltInCodeSnippetID :=
| kPriorOutput
| kSolidColorShader
| kDstReadSample
| kDstReadFetch
| kLinearGradientShader4 | kLinearGradientShader8 | kLinearGradientShaderTexture
| kRadialGradientShader4 | kRadialGradientShader8 | kRadialGradientShaderTexture
| kSweepGradientShader4 | kSweepGradientShader8 | kSweepGradientShaderTexture
| kConicalGradientShader4 | kConicalGradientShader8 | kConicalGradientShaderTexture
| kLocalMatrixShader
| kImageShader
| kYUVImageShader
| kCoordClampShader
| kDitherShader
| kPerlinNoiseShader
| kBlendShader
| kBlendModeBlender
| kCoeffBlender
| kDstColor
| kPrimitiveColor
| kColorFilterShader
| kMatrixColorFilter
| kComposeColorFilter
| kGaussianColorFilter
| kTableColorFilter
| kColorSpaceXformColorFilter.

(** [beginBlock] takes either a built-in identifier or the integer handed
    out by the dictionary for a runtime effect. *)
Inductive CodeSnippetID :=
| BuiltIn (id : BuiltInCodeSnippetID)
| RuntimeID (id : Z).

Coercion BuiltIn : BuiltInCodeSnippetID >-> CodeSnippetID.

(* ================================================================== *)
(** ** Runtime effects and the dictionary *)

Inductive SkSLType :=
| kFloat | kFloat2 | kFloat3 | kFloat4 | kFloat4x4
| kHalf | kHalf4 | kHalf3x3 | kHalf4x4
| kInt.

(** A graphite [Uniform] declaration. *)
Record Uniform := { uniformType : SkSLType; uniformCount : Z }.

(** An [SkRuntimeEffect::Uniform]; only its byte offset is read here. *)
Record RTUniform := { offset : Z }.

Inductive ChildType := ChildType_kShader | ChildType_kColorFilter | ChildType_kBlender.

Record SkRuntimeEffect := {
  effectID : Z;
  rt_uniforms : list RTUniform;
  rt_children : list ChildType
}.

Definition SkData : Type := list Z.

Record ShaderSnippet := { fUniforms : list Uniform }.

Record ShaderCodeDictionary := {
  findOrCreateRuntimeEffectSnippet : sk_sp SkRuntimeEffect -> Z;
  getEntry : Z -> option ShaderSnippet
}.

Record Recorder := { CreateCachedProxy : SkBitmap -> sk_sp TextureProxy }.

Record SkColorInfo := { colorSpace : sk_sp SkColorSpace; alphaType : SkAlphaType }.

Record KeyContext := {
  dict : ShaderCodeDictionary;
  recorder : Recorder;
  dstColorInfo : SkColorInfo
}.

(* ================================================================== *)
(** ** The key builder and the gatherer *)

(** Modelled from the spec: [PaintParamsKeyBuilder] is declared in
    [PaintParamsKey.h], which is not part of the sources at hand.  It is a
    bracket-matching recorder, so the model keeps the sequence of
    [beginBlock] / [endBlock] calls issued on it, oldest first. *)
Inductive BuilderCall :=
| beginBlock_call (id : CodeSnippetID)
| endBlock_call.

Definition PaintParamsKeyBuilder : Type := list BuilderCall.

(** Modelled from the spec: [PipelineDataGatherer] is declared in
    [PipelineData.h], which is not part of the sources at hand.  It is an
    append-only writer with typed [write] operations and a list of resource
    bindings; the model keeps the calls issued on it, oldest first, one
    constructor per overload used by the block writers. *)
Inductive GathererCall :=
| write_SkPMColor4f (c : SkPMColor4f)
| write_SkV4 (v : SkV4)
| write_SkPoint (p : SkPoint)
| write_SkPoint3 (p : SkPoint3)
| write_SkISize (s : SkISize)
| write_SkRect (r : SkRect)
| write_SkM44 (m : SkM44)
| write_float (f : float)
| write_int (i : Z)
| write_typed (t : SkSLType) (src : list float)
| write_uniform (u : Uniform) (src : list Z)
| writeArray_SkPMColor4f (span : list SkPMColor4f)
| writeArray_typed (t : SkSLType) (src : list float) (count : Z)
| writeHalf_float (f : float)
| writeHalf_SkColor4f (c : SkColor4f)
| writeHalf_SkMatrix (m : SkMatrix)
| writeHalf_SkM44 (m : SkM44)
| writeHalfArray (span : list float)
| add_texture (sampling : SkSamplingOptions) (tileModes : SkTileMode * SkTileMode)
              (proxy : sk_sp TextureProxy).

Definition PipelineDataGatherer : Type := list GathererCall.

(** A [PipelineDataGatherer*] argument: null (key-only mode) or the address
    of the gatherer of the conversion in progress. *)
Inductive GathererPtr := nullptr | gatherer_ptr.

Definition gatherer_present (g : GathererPtr) : bool :=
  match g with nullptr => false | gatherer_ptr => true end.

(** What a conversion mutates: the builder, the gatherer and the
    runtime-effect dictionary reached through [keyContext.rtEffectDict()]. *)
Record Env := {
  builder : PaintParamsKeyBuilder;
  gatherer : PipelineDataGatherer;
  rtEffectDict : list (Z * sk_sp SkRuntimeEffect)
}.

(* ================================================================== *)
(** ** The emission monad

    State passing over [Env]; [None] is a protocol violation (a failed
    [SkASSERT], [SkUNREACHABLE], a null dereference): fatal in checked
    builds, undefined otherwise. *)

Definition Emit (A : Type) : Type := Env -> option (A * Env).

Definition ret {A : Type} (a : A) : Emit A := fun env => Some (a, env).

Definition bind {A B : Type} (m : Emit A) (k : A -> Emit B) : Emit B :=
  fun env => match m env with
             | Some (a, env') => k a env'
             | None => None
             end.

Definition fail {A : Type} : Emit A := fun _ => None.

Declare Scope emit_scope.
Delimit Scope emit_scope with emit.
Notation "x <- m ;; k" := (bind m (fun x => k))
  (at level 61, m at next level, right associativity) : emit_scope.
Notation "m ;; k" := (bind m (fun _ => k))
  (at level 61, right associativity) : emit_scope.
Local Open Scope emit_scope.

Definition SkASSERT (cond : bool) : Emit unit :=
  if cond then ret tt else fail.

Definition SkUNREACHABLE {A : Type} : Emit A := fail.
Definition SkDEBUGFAIL : Emit unit := fail.

(** [*p] for a possibly-null pointer. *)
Definition deref {T : Type} (p : option T) : Emit T :=
  match p with Some v => ret v | None => fail end.

(** [builder->beginBlock(id)] and [builder->endBlock()]. *)
Definition beginBlock (id : CodeSnippetID) : Emit unit :=
  fun env => Some (tt, {| builder := builder env ++ [beginBlock_call id];
                          gatherer := gatherer env;
                          rtEffectDict := rtEffectDict env |}).

Definition endBlock : Emit unit :=
  fun env => Some (tt, {| builder := builder env ++ [endBlock_call];
                          gatherer := gatherer env;
                          rtEffectDict := rtEffectDict env |}).

(** One call on the gatherer ([gatherer->write(...)], [gatherer->add(...)]). *)
Definition on_gatherer (c : GathererCall) : Emit unit :=
  fun env => Some (tt, {| builder := builder env;
                          gatherer := gatherer env ++ [c];
                          rtEffectDict := rtEffectDict env |}).

(** [RuntimeEffectDictionary] is declared in [RuntimeEffectDictionary.h],
    which is not part of the sources at hand; the code uses it through
    [set] only.  It is taken as a map from snippet identifiers to effects,
    kept as an association list with at most one entry per identifier, the
    most recently set first: setting an identifier again replaces its
    effect. *)
Definition RuntimeEffectDictionary_set (id : Z) (effect : sk_sp SkRuntimeEffect)
    (d : list (Z * sk_sp SkRuntimeEffect)) : list (Z * sk_sp SkRuntimeEffect) :=
  (id, effect) :: List.filter (fun entry => negb (fst entry =? id)) d.

Fixpoint RuntimeEffectDictionary_find (id : Z) (d : list (Z * sk_sp SkRuntimeEffect))
  : option (sk_sp SkRuntimeEffect) :=
  match d with
  | [] => None
  | (k, effect) :: d' => if k =? id then Some effect else RuntimeEffectDictionary_find id d'
  end.

(** The dictionary after the sets [ds], the most recent first. *)
Definition RuntimeEffectDictionary_sets (ds d : list (Z * sk_sp SkRuntimeEffect))
  : list (Z * sk_sp SkRuntimeEffect) :=
  fold_right (fun entry d' => RuntimeEffectDictionary_set (fst entry) (snd entry) d') d ds.

(** [keyContext.rtEffectDict()->set(id, effect)]. *)
Definition rtEffectDict_set (id : Z) (effect : sk_sp SkRuntimeEffect) : Emit unit :=
  fun env => Some (tt, {| builder := builder env;
                          gatherer := gatherer env;
                          rtEffectDict := RuntimeEffectDictionary_set id effect
                                            (rtEffectDict env) |}).

(** [if (gatherer) { body }]. *)
Definition if_gatherer (g : GathererPtr) (body : Emit unit) : Emit unit :=
  if gatherer_present g then body else ret tt.

(** [for (x : xs) body(x)]. *)
Definition for_each {A : Type} (xs : list A) (body : A -> Emit unit) : Emit unit :=
  (fix loop (rest : list A) : Emit unit :=
     match rest with
     | [] => ret tt
     | x :: rest' => body x ;; loop rest'
     end) xs.

(** Modelled from the spec: [UniformExpectationsValidator] is declared in
    [PipelineData.h], which is not part of the sources at hand.  In checked
    builds it wraps the writes of a block and "counts and type-checks
    against the Dictionary's declared schema for that SnippetID, aborting if
    fewer/more/mismatched writes occur".  [conforms expected calls]: the
    writes among [calls] are one per declared uniform, in order, each of the
    declared uniform; resource bindings are not writes.  It is installed
    for runtime effects, on the uniforms of the dictionary's entry, where
    every write is a [write(uniform, src)].  The writers of the built-in
    snippets install it through [VALIDATE_UNIFORMS], on
    [dict->getUniforms(id)]: those declarations belong to the code
    dictionary, outside the sources at hand, and are not modelled. *)
Definition SkSLType_eqb (a b : SkSLType) : bool :=
  match a, b with
  | kFloat, kFloat | kFloat2, kFloat2 | kFloat3, kFloat3 | kFloat4, kFloat4
  | kFloat4x4, kFloat4x4 | kHalf, kHalf | kHalf4, kHalf4 | kHalf3x3, kHalf3x3
  | kHalf4x4, kHalf4x4 | kInt, kInt => true
  | _, _ => false
  end.

Definition Uniform_eqb (a b : Uniform) : bool :=
  SkSLType_eqb (uniformType a) (uniformType b) && (uniformCount a =? uniformCount b).

Fixpoint conforms (expected : list Uniform) (calls : list GathererCall) : bool :=
  match calls with
  | [] => match expected with [] => true | _ :: _ => false end
  | add_texture _ _ _ :: calls' => conforms expected calls'
  | write_uniform u _ :: calls' =>
      match expected with
      | e :: expected' => Uniform_eqb u e && conforms expected' calls'
      | [] => false
      end
  | _ :: _ => false
  end.

(** [SkDEBUGCODE(UniformExpectationsValidator uev(gatherer, expected);)]
    over the rest of its scope, [body]. *)
Definition UniformExpectationsValidator (expected : list Uniform) (body : Emit unit)
  : Emit unit :=
  fun env =>
    match body env with
    | Some (_, env') =>
        if conforms expected (skipn (length (gatherer env)) (gatherer env'))
        then Some (tt, env')
        else None
    | None => None
    end.

(* ================================================================== *)
(** ** Fixed-size arrays

    A C array member is a map from index to element; [span a n] is the
    [SkSpan] over its first [n] elements. *)

Definition array (A : Type) : Type := Z -> A.

Definition span {A : Type} (a : array A) (n : nat) : list A :=
  map (fun i => a (Z.of_nat i)) (seq 0 n).

Definition array_set {A : Type} (a : array A) (i : Z) (v : A) : array A :=
  fun j => if j =? i then v else a j.

(** [memcpy(a, src, n * sizeof(A))]. *)
Definition array_memcpy {A : Type} (a : array A) (src : list A) (n : Z) : array A :=
  fun j => if (0 <=? j) && (j <? n) then nth (Z.to_nat j) src (a j) else a j.

(** The indices visited by [for (int i = lo; i < hi; ++i)]. *)
Definition int_range (lo hi : Z) : list Z :=
  map (fun k => lo + Z.of_nat k) (seq 0 (Z.to_nat (hi - lo))).

(** The [GradientData] and matrix-filter payloads (declared in
    [KeyHelpers.h]) *)

Inductive GradientType := GT_kNone | GT_kLinear | GT_kRadial | GT_kSweep | GT_kConical.

(** [SkGradientShader::Interpolation]; the color space is kept as the
    integer it is cast to. *)
Record Interpolation := { fInPremul : bool; fColorSpace : Z }.

Record MatrixColorFilterData := { fMatrix : SkM44; fTranslate : SkV4; fInHSLA : bool }.

(* ================================================================== *)
(** ** Collaborators outside this translation unit

    Functions and constructors that [KeyHelpers.cpp] calls but that are
    defined elsewhere.  They are taken as parameters. *)

Class Collaborators := {
  (** the shader class hierarchy and its own key emission *)
  SkShader : Type;
  SkShader_addToKey : KeyContext -> GathererPtr -> SkShader -> Emit unit;
  (** [SkColorSpaceXformSteps::Flags::mask()] *)
  mask : XformFlags -> Z;
  skcms_TransferFunction_getType : skcms_TransferFunction -> skcms_TFType;
  (** the default constructors [SkMatrix()] and [SkM44()] *)
  SkMatrix_ctor : SkMatrix;
  SkM44_ctor : SkM44;
  (** [SkColorSpaceXformSteps(src, srcAT, dst, dstAT)] and [apply] *)
  SkColorSpaceXformSteps_ctor :
    sk_sp SkColorSpace -> SkAlphaType -> sk_sp SkColorSpace -> SkAlphaType ->
    SkColorSpaceXformSteps;
  SkColorSpaceXformSteps_apply : SkColorSpaceXformSteps -> SkColor4f -> SkColor4f;
  (** [SkImageShader::CubicResamplerMatrix(B, C)] *)
  CubicResamplerMatrix : float -> float -> SkM44;
  (** [SkM44::invert]: the inverse when there is one *)
  SkM44_invert : SkM44 -> option SkM44;
  (** [skgpu::GetPorterDuffBlendConstants(mode)]: a span of coefficients *)
  GetPorterDuffBlendConstants : SkBlendMode -> list float;
  (** [SkRuntimeEffectPriv::TransformUniforms(uniforms, data, dstCS)] *)
  TransformUniforms : list RTUniform -> sk_sp SkData -> sk_sp SkColorSpace -> sk_sp SkData;
  (** the default [SkGradientShader::Interpolation] *)
  Interpolation_ctor : Interpolation;
  (** [MatrixColorFilterData(matrix, inHSLA)] from a 20-float matrix *)
  MatrixColorFilterData_ctor : list float -> bool -> MatrixColorFilterData;
  (** [skgpu::MakeDitherLUT()] *)
  MakeDitherLUT : SkBitmap;
  (** [SkColorSpace::MakeSRGB()] and [sk_srgb_singleton()] *)
  SkColorSpace_MakeSRGB : SkColorSpace;
  sk_srgb_singleton : SkColorSpace
}.

Section KeyHelpers.
Context {collab : Collaborators}.

(* ================================================================== *)
(** ** Block writers *)

Definition PriorOutputBlock_BeginBlock (keyContext : KeyContext) (g : GathererPtr) : Emit unit :=
  beginBlock kPriorOutput.

Definition add_solid_uniform_data (premulColor : SkPMColor4f) : Emit unit :=
  on_gatherer (write_SkPMColor4f premulColor).

Definition SolidColorShaderBlock_BeginBlock (keyContext : KeyContext) (g : GathererPtr)
    (premulColor : SkPMColor4f) : Emit unit :=
  if_gatherer g (add_solid_uniform_data premulColor) ;;
  beginBlock kSolidColorShader.

Definition kClampTiling : SkTileMode * SkTileMode := (kClamp, kClamp).

Definition add_dst_read_sample_uniform_data (dstTexture : sk_sp TextureProxy)
    (dstOffset : SkIPoint) : Emit unit :=
  on_gatherer (add_texture SkSamplingOptions_default kClampTiling dstTexture) ;;
  tex <- deref dstTexture ;;
  let coords := {| v4x := SkIntToFloat (ipX dstOffset);
                   v4y := SkIntToFloat (ipY dstOffset);
                   v4z := f32_div f32_1 (SkIntToFloat (fWidth (dimensions tex)));
                   v4w := f32_div f32_1 (SkIntToFloat (fHeight (dimensions tex))) |} in
  on_gatherer (write_SkV4 coords).

Definition DstReadSampleBlock_BeginBlock (keyContext : KeyContext) (g : GathererPtr)
    (dstTexture : sk_sp TextureProxy) (dstOffset : SkIPoint) : Emit unit :=
  if_gatherer g (add_dst_read_sample_uniform_data dstTexture dstOffset) ;;
  beginBlock kDstReadSample.

Definition DstReadFetchBlock_BeginBlock (keyContext : KeyContext) (g : GathererPtr) : Emit unit :=
  if_gatherer g (ret tt) ;;
  beginBlock kDstReadFetch.

(* ------------------------------------------------------------------ *)
(** *** Gradients *)

Definition kNumInternalStorageStops : Z := 8.

Record GradientData := {
  fType : GradientType;
  fPoints : SkPoint * SkPoint;
  fRadii : float * float;
  fBias : float;
  fScale : float;
  fTM : SkTileMode;
  fNumStops : Z;
  fColors : array SkPMColor4f;
  fOffsets : array float;
  fColorsAndOffsetsProxy : sk_sp TextureProxy;
  fInterpolation : Interpolation
}.

Definition add_gradient_preamble (gradData : GradientData) : Emit unit :=
  let kInternalStopLimit := kNumInternalStorageStops in
  if fNumStops gradData <=? kInternalStopLimit then
    if fNumStops gradData <=? 4 then
      (* Round up to 4 stops. *)
      on_gatherer (writeArray_SkPMColor4f (span (fColors gradData) 4)) ;;
      (* The offsets are packed into a single float4 to save space. *)
      on_gatherer (write_typed kFloat4 (span (fOffsets gradData) 4))
    else if fNumStops gradData <=? 8 then
      (* Round up to 8 stops. *)
      on_gatherer (writeArray_SkPMColor4f (span (fColors gradData) 8)) ;;
      (* The offsets are packed into a float4 array to save space. *)
      on_gatherer (writeArray_typed kFloat4 (span (fOffsets gradData) 8) 2)
    else
      SkUNREACHABLE
  else ret tt.

Definition add_gradient_postamble (gradData : GradientData) : Emit unit :=
  let kInternalStopLimit := kNumInternalStorageStops in
  let inputPremul := fInPremul (fInterpolation gradData) in
  (if kInternalStopLimit <? fNumStops gradData then
     on_gatherer (write_int (fNumStops gradData))
   else ret tt) ;;
  on_gatherer (write_int (SkTileMode_to_int (fTM gradData))) ;;
  on_gatherer (write_int (fColorSpace (fInterpolation gradData))) ;;
  on_gatherer (write_int (bool_to_int inputPremul)).

Definition add_linear_gradient_uniform_data (codeSnippetID : BuiltInCodeSnippetID)
    (gradData : GradientData) : Emit unit :=
  add_gradient_preamble gradData ;;
  on_gatherer (write_SkPoint (fst (fPoints gradData))) ;;
  on_gatherer (write_SkPoint (snd (fPoints gradData))) ;;
  add_gradient_postamble gradData.

Definition add_radial_gradient_uniform_data (codeSnippetID : BuiltInCodeSnippetID)
    (gradData : GradientData) : Emit unit :=
  add_gradient_preamble gradData ;;
  on_gatherer (write_SkPoint (fst (fPoints gradData))) ;;
  on_gatherer (write_float (fst (fRadii gradData))) ;;
  add_gradient_postamble gradData.

Definition add_sweep_gradient_uniform_data (codeSnippetID : BuiltInCodeSnippetID)
    (gradData : GradientData) : Emit unit :=
  add_gradient_preamble gradData ;;
  on_gatherer (write_SkPoint (fst (fPoints gradData))) ;;
  on_gatherer (write_float (fBias gradData)) ;;
  on_gatherer (write_float (fScale gradData)) ;;
  add_gradient_postamble gradData.

Definition add_conical_gradient_uniform_data (codeSnippetID : BuiltInCodeSnippetID)
    (gradData : GradientData) : Emit unit :=
  add_gradient_preamble gradData ;;
  on_gatherer (write_SkPoint (fst (fPoints gradData))) ;;
  on_gatherer (write_SkPoint (snd (fPoints gradData))) ;;
  on_gatherer (write_float (fst (fRadii gradData))) ;;
  on_gatherer (write_float (snd (fRadii gradData))) ;;
  add_gradient_postamble gradData.

Definition SkPoint_zero : SkPoint := {| fX := f32_0; fY := f32_0 |}.
Definition SkPMColor4f_zero : SkPMColor4f :=
  {| fR := f32_0; fG := f32_0; fB := f32_0; fA := f32_0 |}.

(** [GradientData(type, numStops)], the constructor of the pre-compilation
    path: every array entry is zeroed, the proxy stays null. *)
Definition GradientData_precompile (type : GradientType) (numStops : Z) : GradientData :=
  {| fType := type;
     fPoints := (SkPoint_zero, SkPoint_zero);
     fRadii := (f32_0, f32_0);
     fBias := f32_0;
     fScale := f32_0;
     fTM := kClamp;
     fNumStops := numStops;
     fColors := fun _ => SkPMColor4f_zero;
     fOffsets := fun _ => f32_0;
     fColorsAndOffsetsProxy := None;
     fInterpolation := Interpolation_ctor |}.

(** The padding loop
    [for (int i = fNumStops; i < kNumInternalStorageStops; ++i)]. *)
Definition extend_stops (numStops : Z) (stops : array SkPMColor4f * array float)
  : array SkPMColor4f * array float :=
  fold_left
    (fun '(colors, offsets) i =>
       (array_set colors i (colors (numStops - 1)),
        array_set offsets i (offsets (numStops - 1))))
    (int_range numStops kNumInternalStorageStops)
    stops.

(** The loop [fOffsets[i] = SkIntToFloat(i) / (fNumStops-1)] for
    [i = 0 .. fNumStops-1]. *)
Definition even_offsets (numStops : Z) (offsets0 : array float) : array float :=
  fold_left
    (fun offs i => array_set offs i (f32_div (SkIntToFloat i) (SkIntToFloat (numStops - 1))))
    (int_range 0 numStops)
    offsets0.

(** The full constructor.  [raw_colors] and [raw_offsets] stand for the
    indeterminate contents of the two array members before the body runs
    (the texture branch never writes them).  [None]: an assertion failed or
    the copy ran past the end of [colors] / [offsets]. *)
Definition GradientData_ctor (raw_colors : array SkPMColor4f) (raw_offsets : array float)
    (type : GradientType) (point0 point1 : SkPoint) (radius0 radius1 : float)
    (bias scale : float) (tm : SkTileMode) (numStops : Z)
    (colors : list SkPMColor4f) (offsets : option (list float))
    (colorsAndOffsetsProxy : sk_sp TextureProxy) (interp : Interpolation)
  : option GradientData :=
  let build cs os proxy :=
    {| fType := type; fPoints := (point0, point1); fRadii := (radius0, radius1);
       fBias := bias; fScale := scale; fTM := tm; fNumStops := numStops;
       fColors := cs; fOffsets := os; fColorsAndOffsetsProxy := proxy;
       fInterpolation := interp |} in
  if negb (1 <=? numStops) then None          (* SkASSERT(fNumStops >= 1) *)
  else if numStops <=? kNumInternalStorageStops then
    if Z.of_nat (length colors) <? numStops then None
    else
      let cs := array_memcpy raw_colors colors numStops in
      match (match offsets with
             | Some offs =>
                 if Z.of_nat (length offs) <? numStops then None
                 else Some (array_memcpy raw_offsets offs numStops)
             | None => Some (even_offsets numStops raw_offsets)
             end) with
      | None => None
      | Some os =>
          let '(cs', os') := extend_stops numStops (cs, os) in
          Some (build cs' os' None)
      end
  else
    if is_null colorsAndOffsetsProxy then None (* SkASSERT(fColorsAndOffsetsProxy) *)
    else Some (build raw_colors raw_offsets colorsAndOffsetsProxy).

Definition kNearest_sampling : SkSamplingOptions :=
  SkSamplingOptions_make kNearest kNone_Mipmap.

Definition GradientShaderBlocks_BeginBlock (keyContext : KeyContext) (g : GathererPtr)
    (gradData : GradientData) : Emit unit :=
  (if (kNumInternalStorageStops <? fNumStops gradData) && gatherer_present g then
     SkASSERT (negb (is_null (fColorsAndOffsetsProxy gradData))) ;;
     on_gatherer (add_texture kNearest_sampling kClampTiling (fColorsAndOffsetsProxy gradData))
   else ret tt) ;;
  codeSnippetID <-
    match fType gradData with
    | GT_kLinear =>
        let codeSnippetID :=
          if fNumStops gradData <=? 4 then kLinearGradientShader4
          else if fNumStops gradData <=? 8 then kLinearGradientShader8
          else kLinearGradientShaderTexture in
        if_gatherer g (add_linear_gradient_uniform_data codeSnippetID gradData) ;;
        ret codeSnippetID
    | GT_kRadial =>
        let codeSnippetID :=
          if fNumStops gradData <=? 4 then kRadialGradientShader4
          else if fNumStops gradData <=? 8 then kRadialGradientShader8
          else kRadialGradientShaderTexture in
        if_gatherer g (add_radial_gradient_uniform_data codeSnippetID gradData) ;;
        ret codeSnippetID
    | GT_kSweep =>
        let codeSnippetID :=
          if fNumStops gradData <=? 4 then kSweepGradientShader4
          else if fNumStops gradData <=? 8 then kSweepGradientShader8
          else kSweepGradientShaderTexture in
        if_gatherer g (add_sweep_gradient_uniform_data codeSnippetID gradData) ;;
        ret codeSnippetID
    | GT_kConical =>
        let codeSnippetID :=
          if fNumStops gradData <=? 4 then kConicalGradientShader4
          else if fNumStops gradData <=? 8 then kConicalGradientShader8
          else kConicalGradientShaderTexture in
        if_gatherer g (add_conical_gradient_uniform_data codeSnippetID gradData) ;;
        ret codeSnippetID
    | GT_kNone =>
        SkDEBUGFAIL ;;
        ret kSolidColorShader
    end ;;
  beginBlock codeSnippetID.

(* ------------------------------------------------------------------ *)
(** *** Local matrix *)

Record LMShaderData := { fLocalMatrix : SkM44 }.

Definition add_localmatrixshader_uniform_data (localMatrix : SkM44) : Emit unit :=
  let lmInverse :=
    match SkM44_invert localMatrix with
    | Some inv => inv
    | None => SkM44_setIdentity
    end in
  on_gatherer (write_SkM44 lmInverse).

Definition LocalMatrixShaderBlock_BeginBlock (keyContext : KeyContext) (g : GathererPtr)
    (lmShaderData : option LMShaderData) : Emit unit :=
  SkASSERT (Bool.eqb (negb (gatherer_present g)) (is_null lmShaderData)) ;;
  if_gatherer g (d <- deref lmShaderData ;;
                 add_localmatrixshader_uniform_data (fLocalMatrix d)) ;;
  beginBlock kLocalMatrixShader.

(* ------------------------------------------------------------------ *)
(** *** Color-space uniforms and images *)

Definition add_color_space_uniforms (steps : SkColorSpaceXformSteps) : Emit unit :=
  on_gatherer (write_int (mask (flags steps))) ;;
  (if linearize (flags steps) then
     on_gatherer (write_int (skcms_TFType_to_int (skcms_TransferFunction_getType (srcTF steps)))) ;;
     on_gatherer (writeHalfArray (tf_span (srcTF steps)))
   else
     on_gatherer (write_int (skcms_TFType_to_int skcms_TFType_Invalid)) ;;
     on_gatherer (writeHalfArray kEmptyXferFn)) ;;
  let gamutTransform :=
    if gamut_transform (flags steps)
    then SkMatrix_set9 SkMatrix_ctor (src_to_dst_matrix steps)
    else SkMatrix_ctor in
  on_gatherer (writeHalf_SkMatrix gamutTransform) ;;
  (if encode (flags steps) then
     on_gatherer (write_int (skcms_TFType_to_int (skcms_TransferFunction_getType (dstTFInv steps)))) ;;
     on_gatherer (writeHalfArray (tf_span (dstTFInv steps)))
   else
     on_gatherer (write_int (skcms_TFType_to_int skcms_TFType_Invalid)) ;;
     on_gatherer (writeHalfArray kEmptyXferFn)).

Record ImageData := {
  img_fSampling : SkSamplingOptions;
  img_fTileModes : SkTileMode * SkTileMode;
  img_fSubset : SkRect;
  img_fReadSwizzle : ReadSwizzle;
  img_fSteps : SkColorSpaceXformSteps;
  img_fTextureProxy : sk_sp TextureProxy
}.

Definition add_image_uniform_data (imgData : ImageData) : Emit unit :=
  tex <- deref (img_fTextureProxy imgData) ;;
  on_gatherer (write_SkPoint {| fX := SkIntToFloat (fWidth (dimensions tex));
                                fY := SkIntToFloat (fHeight (dimensions tex)) |}) ;;
  on_gatherer (write_SkRect (img_fSubset imgData)) ;;
  on_gatherer (write_int (SkTileMode_to_int (fst (img_fTileModes imgData)))) ;;
  on_gatherer (write_int (SkTileMode_to_int (snd (img_fTileModes imgData)))) ;;
  on_gatherer (write_int (SkFilterMode_to_int (filter (img_fSampling imgData)))) ;;
  on_gatherer (write_int (bool_to_int (useCubic (img_fSampling imgData)))) ;;
  (if useCubic (img_fSampling imgData) then
     let cubic := cubic (img_fSampling imgData) in
     on_gatherer (writeHalf_SkM44 (CubicResamplerMatrix (cubicB cubic) (cubicC cubic)))
   else
     on_gatherer (writeHalf_SkM44 SkM44_ctor)) ;;
  on_gatherer (write_int (img_fReadSwizzle imgData)) ;;
  add_color_space_uniforms (img_fSteps imgData).

Definition ImageShaderBlock_BeginBlock (keyContext : KeyContext) (g : GathererPtr)
    (imgData : option ImageData) : Emit unit :=
  SkASSERT (Bool.eqb (negb (gatherer_present g)) (is_null imgData)) ;;
  missing <- (if gatherer_present g
              then d <- deref imgData ;; ret (is_null (img_fTextureProxy d))
              else ret false) ;;
  if missing : bool then
    SolidColorShaderBlock_BeginBlock keyContext g kErrorColor
  else
    if_gatherer g (d <- deref imgData ;;
                   on_gatherer (add_texture (img_fSampling d) (img_fTileModes d)
                                            (img_fTextureProxy d)) ;;
                   add_image_uniform_data d) ;;
    beginBlock kImageShader.

Record YUVImageData := {
  yuv_fSampling : SkSamplingOptions;
  yuv_fTileModes : SkTileMode * SkTileMode;
  yuv_fSubset : SkRect;
  yuv_fImgSize : SkPoint;
  yuv_fChannelSelect : array SkColor4f;
  yuv_fYUVtoRGBMatrix : SkMatrix;
  yuv_fYUVtoRGBTranslate : SkPoint3;
  yuv_fSteps : SkColorSpaceXformSteps;
  yuv_fTextureProxies : array (sk_sp TextureProxy)
}.

Definition add_yuv_image_uniform_data (imgData : YUVImageData) : Emit unit :=
  on_gatherer (write_SkPoint (yuv_fImgSize imgData)) ;;
  on_gatherer (write_SkRect (yuv_fSubset imgData)) ;;
  on_gatherer (write_int (SkTileMode_to_int (fst (yuv_fTileModes imgData)))) ;;
  on_gatherer (write_int (SkTileMode_to_int (snd (yuv_fTileModes imgData)))) ;;
  on_gatherer (write_int (SkFilterMode_to_int (filter (yuv_fSampling imgData)))) ;;
  on_gatherer (write_int (bool_to_int (useCubic (yuv_fSampling imgData)))) ;;
  (if useCubic (yuv_fSampling imgData) then
     let cubic := cubic (yuv_fSampling imgData) in
     on_gatherer (writeHalf_SkM44 (CubicResamplerMatrix (cubicB cubic) (cubicC cubic)))
   else
     on_gatherer (writeHalf_SkM44 SkM44_ctor)) ;;
  for_each (int_range 0 4)
           (fun i => on_gatherer (writeHalf_SkColor4f (yuv_fChannelSelect imgData i))) ;;
  on_gatherer (writeHalf_SkMatrix (yuv_fYUVtoRGBMatrix imgData)) ;;
  on_gatherer (write_SkPoint3 (yuv_fYUVtoRGBTranslate imgData)) ;;
  add_color_space_uniforms (yuv_fSteps imgData).

Definition YUVImageShaderBlock_BeginBlock (keyContext : KeyContext) (g : GathererPtr)
    (imgData : option YUVImageData) : Emit unit :=
  SkASSERT (Bool.eqb (negb (gatherer_present g)) (is_null imgData)) ;;
  missing <- (if gatherer_present g
              then d <- deref imgData ;;
                   ret (is_null (yuv_fTextureProxies d 0) || is_null (yuv_fTextureProxies d 1)
                        || is_null (yuv_fTextureProxies d 2) || is_null (yuv_fTextureProxies d 3))
              else ret false) ;;
  if missing : bool then
    SolidColorShaderBlock_BeginBlock keyContext g kErrorColor
  else
    if_gatherer g (d <- deref imgData ;;
                   for_each (int_range 0 4)
                            (fun i => on_gatherer (add_texture (yuv_fSampling d) (yuv_fTileModes d)
                                                               (yuv_fTextureProxies d i))) ;;
                   add_yuv_image_uniform_data d) ;;
    beginBlock kYUVImageShader.

(* ------------------------------------------------------------------ *)
(** *** Coordinate clamp, dither, Perlin noise *)

Record CoordClampData := { clamp_fSubset : SkRect }.

Definition add_coordclamp_uniform_data (clampData : CoordClampData) : Emit unit :=
  on_gatherer (write_SkRect (clamp_fSubset clampData)).

Definition CoordClampShaderBlock_BeginBlock (keyContext : KeyContext) (g : GathererPtr)
    (clampData : option CoordClampData) : Emit unit :=
  SkASSERT (Bool.eqb (negb (gatherer_present g)) (is_null clampData)) ;;
  if_gatherer g (d <- deref clampData ;; add_coordclamp_uniform_data d) ;;
  beginBlock kCoordClampShader.

Record DitherData := { fRange : float }.

Definition add_dither_uniform_data (ditherData : DitherData) : Emit unit :=
  on_gatherer (writeHalf_float (fRange ditherData)).

Definition kRepeatTiling : SkTileMode * SkTileMode := (kRepeat, kRepeat).

Definition DitherShaderBlock_BeginBlock (keyContext : KeyContext) (g : GathererPtr)
    (ditherData : option DitherData) : Emit unit :=
  SkASSERT (Bool.eqb (negb (gatherer_present g)) (is_null ditherData)) ;;
  if gatherer_present g then
    let gLUT := MakeDitherLUT in
    let proxy := CreateCachedProxy (recorder keyContext) gLUT in
    if is_null proxy then
      PriorOutputBlock_BeginBlock keyContext g
    else
      d <- deref ditherData ;;
      add_dither_uniform_data d ;;
      on_gatherer (add_texture kNearest_sampling kRepeatTiling proxy) ;;
      beginBlock kDitherShader
  else
    beginBlock kDitherShader.

(** [stitching] stands for the accessor [stitching()] of the payload. *)
Record PerlinNoiseData := {
  noise_fType : Z;
  fBaseFrequency : SkPoint;
  fStitchData : SkISize;
  fNumOctaves : Z;
  stitching : bool;
  fPermutationsProxy : sk_sp TextureProxy;
  fNoiseProxy : sk_sp TextureProxy
}.

Definition kRepeatXTileModes : SkTileMode * SkTileMode := (kRepeat, kClamp).

Definition add_perlin_noise_uniform_data (noiseData : PerlinNoiseData) : Emit unit :=
  on_gatherer (write_SkPoint (fBaseFrequency noiseData)) ;;
  on_gatherer (write_SkISize (fStitchData noiseData)) ;;
  on_gatherer (write_int (noise_fType noiseData)) ;;
  on_gatherer (write_int (fNumOctaves noiseData)) ;;
  on_gatherer (write_int (bool_to_int (stitching noiseData))) ;;
  let kNearestSampling := SkSamplingOptions_of_filter kNearest in
  on_gatherer (add_texture kNearestSampling kRepeatXTileModes (fPermutationsProxy noiseData)) ;;
  on_gatherer (add_texture kNearestSampling kRepeatXTileModes (fNoiseProxy noiseData)).

Definition PerlinNoiseShaderBlock_BeginBlock (keyContext : KeyContext) (g : GathererPtr)
    (noiseData : option PerlinNoiseData) : Emit unit :=
  SkASSERT (Bool.eqb (negb (gatherer_present g)) (is_null noiseData)) ;;
  if_gatherer g (d <- deref noiseData ;; add_perlin_noise_uniform_data d) ;;
  beginBlock kPerlinNoiseShader.

(* ------------------------------------------------------------------ *)
(** *** Blend shader, blenders, destination and primitive color *)

Definition BlendShaderBlock_BeginBlock (keyContext : KeyContext) (g : GathererPtr) : Emit unit :=
  if_gatherer g (ret tt) ;;
  beginBlock kBlendShader.

Definition BlendModeBlenderBlock_BeginBlock (keyContext : KeyContext) (g : GathererPtr)
    (blendMode : SkBlendMode) : Emit unit :=
  if_gatherer g (on_gatherer (write_int blendMode)) ;;
  beginBlock kBlendModeBlender.

Definition CoeffBlenderBlock_BeginBlock (keyContext : KeyContext) (g : GathererPtr)
    (coeffs : list float) : Emit unit :=
  if_gatherer g (SkASSERT (Nat.eqb (length coeffs) 4) ;;
                 on_gatherer (write_typed kHalf4 coeffs)) ;;
  beginBlock kCoeffBlender.

Definition DstColorBlock_BeginBlock (keyContext : KeyContext) (g : GathererPtr) : Emit unit :=
  if_gatherer g (ret tt) ;;
  beginBlock kDstColor.

Definition PrimitiveColorBlock_BeginBlock (keyContext : KeyContext) (g : GathererPtr) : Emit unit :=
  if_gatherer g (ret tt) ;;
  beginBlock kPrimitiveColor.

Definition ColorFilterShaderBlock_BeginBlock (keyContext : KeyContext) (g : GathererPtr)
  : Emit unit :=
  beginBlock kColorFilterShader.

(* ------------------------------------------------------------------ *)
(** *** Color filters *)

Definition add_matrix_colorfilter_uniform_data (data : MatrixColorFilterData) : Emit unit :=
  on_gatherer (write_SkM44 (fMatrix data)) ;;
  on_gatherer (write_SkV4 (fTranslate data)) ;;
  on_gatherer (write_int (bool_to_int (fInHSLA data))).

Definition MatrixColorFilterBlock_BeginBlock (keyContext : KeyContext) (g : GathererPtr)
    (matrixCFData : option MatrixColorFilterData) : Emit unit :=
  SkASSERT (Bool.eqb (negb (gatherer_present g)) (is_null matrixCFData)) ;;
  if_gatherer g (d <- deref matrixCFData ;; add_matrix_colorfilter_uniform_data d) ;;
  beginBlock kMatrixColorFilter.

Definition ComposeColorFilterBlock_BeginBlock (keyContext : KeyContext) (g : GathererPtr)
  : Emit unit :=
  beginBlock kComposeColorFilter.

Definition GaussianColorFilterBlock_BeginBlock (keyContext : KeyContext) (g : GathererPtr)
  : Emit unit :=
  beginBlock kGaussianColorFilter.

Record TableColorFilterData := { table_fTextureProxy : sk_sp TextureProxy }.

Definition add_table_colorfilter_uniform_data (data : TableColorFilterData) : Emit unit :=
  on_gatherer (add_texture SkSamplingOptions_default kClampTiling (table_fTextureProxy data)).

Definition TableColorFilterBlock_BeginBlock (keyContext : KeyContext) (g : GathererPtr)
    (data : TableColorFilterData) : Emit unit :=
  if gatherer_present g then
    if is_null (table_fTextureProxy data) then
      (* We're dropping the color filter here! *)
      PriorOutputBlock_BeginBlock keyContext g
    else
      add_table_colorfilter_uniform_data data ;;
      beginBlock kTableColorFilter
  else
    beginBlock kTableColorFilter.

Record ColorSpaceTransformData := { fSteps : SkColorSpaceXformSteps }.

Definition ColorSpaceTransformData_ctor (src : sk_sp SkColorSpace) (srcAT : SkAlphaType)
    (dst : sk_sp SkColorSpace) (dstAT : SkAlphaType) : ColorSpaceTransformData :=
  {| fSteps := SkColorSpaceXformSteps_ctor src srcAT dst dstAT |}.

Definition add_color_space_xform_uniform_data (data : option ColorSpaceTransformData)
  : Emit unit :=
  d <- deref data ;;
  add_color_space_uniforms (fSteps d).

Definition ColorSpaceTransformBlock_BeginBlock (keyContext : KeyContext) (g : GathererPtr)
    (data : option ColorSpaceTransformData) : Emit unit :=
  if_gatherer g (add_color_space_xform_uniform_data data) ;;
  beginBlock kColorSpaceXformColorFilter.

(* ------------------------------------------------------------------ *)
(** *** Color blend and runtime effects *)

Definition AddColorBlendBlock (keyContext : KeyContext) (g : GathererPtr)
    (bm : SkBlendMode) (srcColor : SkPMColor4f) : Emit unit :=
  BlendShaderBlock_BeginBlock keyContext g ;;
  (* src -- solid color *)
  SolidColorShaderBlock_BeginBlock keyContext g srcColor ;;
  endBlock ;;
  (* dst -- prior output *)
  PriorOutputBlock_BeginBlock keyContext g ;;
  endBlock ;;
  (* blender -- shader based blending *)
  BlendModeBlenderBlock_BeginBlock keyContext g bm ;;
  endBlock ;;
  endBlock.  (* BlendShaderBlock *)

Record ShaderData := { fEffect : sk_sp SkRuntimeEffect; sd_fUniforms : sk_sp SkData }.

Definition gather_runtime_effect_uniforms (rtsUniforms : list RTUniform)
    (graphiteUniforms : list Uniform) (uniformData : sk_sp SkData) : Emit unit :=
  uniformBase <- deref uniformData ;;
  for_each (seq 0 (length rtsUniforms))
    (fun index =>
       uniform <- deref (nth_error graphiteUniforms index) ;;
       rts <- deref (nth_error rtsUniforms index) ;;
       let uniformPtr := skipn (Z.to_nat (offset rts)) uniformBase in
       on_gatherer (write_uniform uniform uniformPtr)).

Definition RuntimeEffectBlock_BeginBlock (keyContext : KeyContext) (g : GathererPtr)
    (shaderData : ShaderData) : Emit unit :=
  let dict := dict keyContext in
  let codeSnippetID := findOrCreateRuntimeEffectSnippet dict (fEffect shaderData) in
  rtEffectDict_set codeSnippetID (fEffect shaderData) ;;
  if_gatherer g (entry <- deref (getEntry dict codeSnippetID) ;;
                 UniformExpectationsValidator (fUniforms entry)
                   (effect <- deref (fEffect shaderData) ;;
                    gather_runtime_effect_uniforms (rt_uniforms effect) (fUniforms entry)
                                                   (sd_fUniforms shaderData))) ;;
  beginBlock (RuntimeID codeSnippetID).

(* ================================================================== *)
(** ** Effect trees *)

Inductive Domain := Domain_kRGBA | Domain_kHSLA.

Unset Elimination Schemes.
Inductive SkBlender :=
| SkBlendModeBlender (mode : SkBlendMode)
| SkRuntimeBlender (effect : sk_sp SkRuntimeEffect) (uniforms : sk_sp SkData)
                   (children : list ChildPtr)
with SkColorFilter :=
| SkNoopColorFilter
| SkBlendModeColorFilter (color : SkColor4f) (mode : SkBlendMode)
| SkColorSpaceXformColorFilter (src dst : sk_sp SkColorSpace)
| SkComposeColorFilter (outer inner : option SkColorFilter)
| SkGaussianColorFilter
| SkMatrixColorFilter (matrix : list float) (domain : Domain)
| SkRuntimeColorFilter (effect : sk_sp SkRuntimeEffect) (uniforms : sk_sp SkData)
                       (children : list ChildPtr)
| SkTableColorFilter (bitmap : SkBitmap)
| SkWorkingFormatColorFilter
    (child : option SkColorFilter)
    (workingFormat : sk_sp SkColorSpace -> sk_sp SkColorSpace * SkAlphaType)
with ChildPtr :=
| ChildPtr_null
| ChildPtr_shader (shader : SkShader)
| ChildPtr_blender (blender : SkBlender)
| ChildPtr_colorFilter (colorFilter : SkColorFilter).
Set Elimination Schemes.

(** Structural induction over effect trees, through the child lists and
    the nullable filter references. *)
Definition if_nonnull {T : Type} (P : T -> Prop) (p : option T) : Prop :=
  match p with Some v => P v | None => True end.

Section EffectInduction.
Variable Pb : SkBlender -> Prop.
Variable Pf : SkColorFilter -> Prop.
Variable Pc : ChildPtr -> Prop.
Hypothesis case_BlendModeBlender : forall mode, Pb (SkBlendModeBlender mode).
Hypothesis case_RuntimeBlender :
  forall effect uniforms children,
    Forall Pc children -> Pb (SkRuntimeBlender effect uniforms children).
Hypothesis case_Noop : Pf SkNoopColorFilter.
Hypothesis case_BlendMode : forall color mode, Pf (SkBlendModeColorFilter color mode).
Hypothesis case_ColorSpaceXform : forall src dst, Pf (SkColorSpaceXformColorFilter src dst).
Hypothesis case_Compose :
  forall outer inner,
    if_nonnull Pf outer -> if_nonnull Pf inner -> Pf (SkComposeColorFilter outer inner).
Hypothesis case_Gaussian : Pf SkGaussianColorFilter.
Hypothesis case_Matrix : forall matrix domain, Pf (SkMatrixColorFilter matrix domain).
Hypothesis case_Runtime :
  forall effect uniforms children,
    Forall Pc children -> Pf (SkRuntimeColorFilter effect uniforms children).
Hypothesis case_Table : forall bitmap, Pf (SkTableColorFilter bitmap).
Hypothesis case_WorkingFormat :
  forall child workingFormat,
    if_nonnull Pf child -> Pf (SkWorkingFormatColorFilter child workingFormat).
Hypothesis case_null : Pc ChildPtr_null.
Hypothesis case_shader : forall shader, Pc (ChildPtr_shader shader).
Hypothesis case_blender : forall blender, Pb blender -> Pc (ChildPtr_blender blender).
Hypothesis case_colorFilter : forall f, Pf f -> Pc (ChildPtr_colorFilter f).

Fixpoint SkBlender_induction (b : SkBlender) : Pb b :=
  match b with
  | SkBlendModeBlender mode => case_BlendModeBlender mode
  | SkRuntimeBlender effect uniforms children =>
      case_RuntimeBlender effect uniforms children
        ((fix all (cs : list ChildPtr) : Forall Pc cs :=
            match cs with
            | [] => Forall_nil Pc
            | c :: cs' => Forall_cons c (ChildPtr_induction c) (all cs')
            end) children)
  end
with SkColorFilter_induction (f : SkColorFilter) : Pf f :=
  let nullable (p : option SkColorFilter) : if_nonnull Pf p :=
    match p with
    | Some f' => SkColorFilter_induction f'
    | None => I
    end in
  match f with
  | SkNoopColorFilter => case_Noop
  | SkBlendModeColorFilter color mode => case_BlendMode color mode
  | SkColorSpaceXformColorFilter src dst => case_ColorSpaceXform src dst
  | SkComposeColorFilter outer inner =>
      case_Compose outer inner (nullable outer) (nullable inner)
  | SkGaussianColorFilter => case_Gaussian
  | SkMatrixColorFilter matrix domain => case_Matrix matrix domain
  | SkRuntimeColorFilter effect uniforms children =>
      case_Runtime effect uniforms children
        ((fix all (cs : list ChildPtr) : Forall Pc cs :=
            match cs with
            | [] => Forall_nil Pc
            | c :: cs' => Forall_cons c (ChildPtr_induction c) (all cs')
            end) children)
  | SkTableColorFilter bitmap => case_Table bitmap
  | SkWorkingFormatColorFilter child workingFormat =>
      case_WorkingFormat child workingFormat (nullable child)
  end
with ChildPtr_induction (c : ChildPtr) : Pc c :=
  match c with
  | ChildPtr_null => case_null
  | ChildPtr_shader shader => case_shader shader
  | ChildPtr_blender blender => case_blender blender (SkBlender_induction blender)
  | ChildPtr_colorFilter f => case_colorFilter f (SkColorFilter_induction f)
  end.

End EffectInduction.

(** Filters built without runtime effects. *)
Fixpoint no_runtime_effect (f : SkColorFilter) : bool :=
  let nullable (p : option SkColorFilter) : bool :=
    match p with
    | Some f' => no_runtime_effect f'
    | None => true
    end in
  match f with
  | SkRuntimeColorFilter _ _ _ => false
  | SkComposeColorFilter outer inner => nullable outer && nullable inner
  | SkWorkingFormatColorFilter child _ => nullable child
  | _ => true
  end.

(* ================================================================== *)
(** ** [add_to_key] for each effect class

    The recursive calls to [AddToKey] are received as arguments and tied
    together in the dispatchers below. *)

(** Modelled from the spec: [SkRuntimeEffectPriv::AddChildrenToKey] is
    defined outside the sources at hand; the writer "recurses into the
    effect's declared children using the same dispatcher", in order. *)
Definition AddChildrenToKey (AddToKey_child : ChildPtr -> Emit unit)
    (children : list ChildPtr) (childInfo : list ChildType) : Emit unit :=
  for_each children AddToKey_child.

Definition add_to_key_SkBlendModeBlender (keyContext : KeyContext) (g : GathererPtr)
    (mode : SkBlendMode) : Emit unit :=
  let coeffs := GetPorterDuffBlendConstants mode in
  if negb (Nat.eqb (length coeffs) 0) then
    CoeffBlenderBlock_BeginBlock keyContext g coeffs ;;
    endBlock
  else
    BlendModeBlenderBlock_BeginBlock keyContext g mode ;;
    endBlock.

Definition add_to_key_SkRuntimeBlender
    (AddChildren : list ChildPtr -> list ChildType -> Emit unit)
    (keyContext : KeyContext) (g : GathererPtr)
    (effect : sk_sp SkRuntimeEffect) (blender_uniforms : sk_sp SkData)
    (children : list ChildPtr) : Emit unit :=
  SkASSERT (negb (is_null effect)) ;;
  e <- deref effect ;;
  let uniforms := TransformUniforms (rt_uniforms e) blender_uniforms
                                    (colorSpace (dstColorInfo keyContext)) in
  SkASSERT (negb (is_null uniforms)) ;;
  RuntimeEffectBlock_BeginBlock keyContext g
    {| fEffect := effect; sd_fUniforms := uniforms |} ;;
  AddChildren children (rt_children e) ;;
  endBlock.

Definition map_color (c : SkColor4f) (src dst : sk_sp SkColorSpace) : SkPMColor4f :=
  let color := {| fR := fR c; fG := fG c; fB := fB c; fA := fA c |} in
  SkColorSpaceXformSteps_apply
    (SkColorSpaceXformSteps_ctor src kUnpremul_SkAlphaType dst kPremul_SkAlphaType) color.

Definition add_to_key_SkBlendModeColorFilter (keyContext : KeyContext) (g : GathererPtr)
    (filter_color : SkColor4f) (filter_mode : SkBlendMode) : Emit unit :=
  let color := map_color filter_color (Some sk_srgb_singleton)
                         (colorSpace (dstColorInfo keyContext)) in
  AddColorBlendBlock keyContext g filter_mode color.

Definition add_to_key_SkColorSpaceXformColorFilter (keyContext : KeyContext) (g : GathererPtr)
    (filter_src filter_dst : sk_sp SkColorSpace) : Emit unit :=
  let alphaType := kPremul_SkAlphaType in
  let data := ColorSpaceTransformData_ctor filter_src alphaType filter_src alphaType in
  ColorSpaceTransformBlock_BeginBlock keyContext g (Some data) ;;
  endBlock.

Definition add_to_key_SkComposeColorFilter
    (AddToKey : option SkColorFilter -> Emit unit)
    (keyContext : KeyContext) (g : GathererPtr)
    (filter_outer filter_inner : option SkColorFilter) : Emit unit :=
  ComposeColorFilterBlock_BeginBlock keyContext g ;;
  AddToKey filter_inner ;;
  AddToKey filter_outer ;;
  endBlock.

Definition add_to_key_SkGaussianColorFilter (keyContext : KeyContext) (g : GathererPtr)
  : Emit unit :=
  GaussianColorFilterBlock_BeginBlock keyContext g ;;
  endBlock.

Definition add_to_key_SkMatrixColorFilter (keyContext : KeyContext) (g : GathererPtr)
    (filter_matrix : list float) (filter_domain : Domain) : Emit unit :=
  let inHSLA := match filter_domain with Domain_kHSLA => true | Domain_kRGBA => false end in
  let matrixCFData := MatrixColorFilterData_ctor filter_matrix inHSLA in
  MatrixColorFilterBlock_BeginBlock keyContext g (Some matrixCFData) ;;
  endBlock.

Definition add_to_key_SkRuntimeColorFilter
    (AddChildren : list ChildPtr -> list ChildType -> Emit unit)
    (keyContext : KeyContext) (g : GathererPtr)
    (effect : sk_sp SkRuntimeEffect) (filter_uniforms : sk_sp SkData)
    (children : list ChildPtr) : Emit unit :=
  e <- deref effect ;;
  let uniforms := TransformUniforms (rt_uniforms e) filter_uniforms
                                    (colorSpace (dstColorInfo keyContext)) in
  SkASSERT (negb (is_null uniforms)) ;;
  RuntimeEffectBlock_BeginBlock keyContext g
    {| fEffect := effect; sd_fUniforms := uniforms |} ;;
  AddChildren children (rt_children e) ;;
  endBlock.

Definition add_to_key_SkTableColorFilter (keyContext : KeyContext) (g : GathererPtr)
    (filter_bitmap : SkBitmap) : Emit unit :=
  let proxy := CreateCachedProxy (recorder keyContext) filter_bitmap in
  if is_null proxy then
    (* Return the input color as-is. *)
    PriorOutputBlock_BeginBlock keyContext g ;;
    endBlock
  else
    let data := {| table_fTextureProxy := proxy |} in
    TableColorFilterBlock_BeginBlock keyContext g data ;;
    endBlock.

Definition add_to_key_SkWorkingFormatColorFilter
    (AddToKey : option SkColorFilter -> Emit unit)
    (keyContext : KeyContext) (g : GathererPtr)
    (filter_child : option SkColorFilter)
    (filter_workingFormat : sk_sp SkColorSpace -> sk_sp SkColorSpace * SkAlphaType)
  : Emit unit :=
  let dstAT := alphaType (dstColorInfo keyContext) in
  let dstCS := match colorSpace (dstColorInfo keyContext) with
               | Some cs => Some cs
               | None => Some SkColorSpace_MakeSRGB
               end in
  let '(workingCS, workingAT) := filter_workingFormat dstCS in
  ComposeColorFilterBlock_BeginBlock keyContext g ;;
    (* Inner compose *)
    ComposeColorFilterBlock_BeginBlock keyContext g ;;
      (* Innermost (inner of inner compose) *)
      (let data1 := ColorSpaceTransformData_ctor dstCS dstAT workingCS workingAT in
       ColorSpaceTransformBlock_BeginBlock keyContext g (Some data1)) ;;
      endBlock ;;
      (* Middle (outer of inner compose) *)
      AddToKey filter_child ;;
    endBlock ;;
    (* Outermost (outer of outer compose) *)
    (let data2 := ColorSpaceTransformData_ctor workingCS workingAT dstCS dstAT in
     ColorSpaceTransformBlock_BeginBlock keyContext g (Some data2)) ;;
    endBlock ;;
  endBlock.

(* ================================================================== *)
(** ** The dispatchers *)

(** The [switch] of each [AddToKey], on a non-null effect. *)
Fixpoint AddToKey_SkBlender_switch (keyContext : KeyContext) (g : GathererPtr)
    (blender : SkBlender) {struct blender} : Emit unit :=
  match blender with
  | SkBlendModeBlender mode =>
      add_to_key_SkBlendModeBlender keyContext g mode
  | SkRuntimeBlender effect uniforms children =>
      add_to_key_SkRuntimeBlender
        (AddChildrenToKey (AddToKey_ChildPtr keyContext g))
        keyContext g effect uniforms children
  end
with AddToKey_SkColorFilter_switch (keyContext : KeyContext) (g : GathererPtr)
    (filter : SkColorFilter) {struct filter} : Emit unit :=
  let AddToKey (f : option SkColorFilter) : Emit unit :=
    match f with
    | None => ret tt
    | Some f' => AddToKey_SkColorFilter_switch keyContext g f'
    end in
  match filter with
  | SkNoopColorFilter =>
      (* Return the input color as-is. *)
      PriorOutputBlock_BeginBlock keyContext g ;;
      endBlock
  | SkBlendModeColorFilter color mode =>
      add_to_key_SkBlendModeColorFilter keyContext g color mode
  | SkColorSpaceXformColorFilter src dst =>
      add_to_key_SkColorSpaceXformColorFilter keyContext g src dst
  | SkComposeColorFilter outer inner =>
      add_to_key_SkComposeColorFilter AddToKey keyContext g outer inner
  | SkGaussianColorFilter =>
      add_to_key_SkGaussianColorFilter keyContext g
  | SkMatrixColorFilter matrix domain =>
      add_to_key_SkMatrixColorFilter keyContext g matrix domain
  | SkRuntimeColorFilter effect uniforms children =>
      add_to_key_SkRuntimeColorFilter
        (AddChildrenToKey (AddToKey_ChildPtr keyContext g))
        keyContext g effect uniforms children
  | SkTableColorFilter bitmap =>
      add_to_key_SkTableColorFilter keyContext g bitmap
  | SkWorkingFormatColorFilter child workingFormat =>
      add_to_key_SkWorkingFormatColorFilter AddToKey keyContext g child workingFormat
  end
with AddToKey_ChildPtr (keyContext : KeyContext) (g : GathererPtr)
    (child : ChildPtr) {struct child} : Emit unit :=
  match child with
  | ChildPtr_null => ret tt
  | ChildPtr_shader shader => SkShader_addToKey keyContext g shader
  | ChildPtr_blender blender => AddToKey_SkBlender_switch keyContext g blender
  | ChildPtr_colorFilter colorFilter => AddToKey_SkColorFilter_switch keyContext g colorFilter
  end.

(** [AddToKey] on a [const SkBlender*]. *)
Definition AddToKey_SkBlender (keyContext : KeyContext) (g : GathererPtr)
    (blender : option SkBlender) : Emit unit :=
  match blender with
  | None => ret tt
  | Some b => AddToKey_SkBlender_switch keyContext g b
  end.

(** [AddToKey] on a [const SkColorFilter*]. *)
Definition AddToKey_SkColorFilter (keyContext : KeyContext) (g : GathererPtr)
    (filter : option SkColorFilter) : Emit unit :=
  match filter with
  | None => ret tt
  | Some f => AddToKey_SkColorFilter_switch keyContext g f
  end.

(* ================================================================== *)
(** ** Blend conveniences *)

Definition AddDstBlendBlock (keyContext : KeyContext) (g : GathererPtr)
    (blender : option SkBlender) : Emit unit :=
  BlendShaderBlock_BeginBlock keyContext g ;;
  (* src -- prior output *)
  PriorOutputBlock_BeginBlock keyContext g ;;
  endBlock ;;
  (* dst -- surface color *)
  DstColorBlock_BeginBlock keyContext g ;;
  endBlock ;;
  (* blender -- shader based blending *)
  AddToKey_SkBlender keyContext g blender ;;
  endBlock.  (* BlendShaderBlock *)

Definition AddPrimitiveBlendBlock (keyContext : KeyContext) (g : GathererPtr)
    (blender : option SkBlender) : Emit unit :=
  BlendShaderBlock_BeginBlock keyContext g ;;
  (* src -- prior output *)
  PriorOutputBlock_BeginBlock keyContext g ;;
  endBlock ;;
  (* dst -- primitive color *)
  PrimitiveColorBlock_BeginBlock keyContext g ;;
  endBlock ;;
  (* blender -- shader based blending *)
  AddToKey_SkBlender keyContext g blender ;;
  endBlock.  (* BlendShaderBlock *)

End KeyHelpers.

(* ================================================================== *)
(** ** Reading the two streams *)

(** [extend env bs gs ds]: [env] after the builder received the calls
    [bs], the gatherer the calls [gs], and the runtime-effect dictionary
    the sets [ds] (most recent first). *)
Definition extend (env : Env) (bs : list BuilderCall) (gs : list GathererCall)
    (ds : list (Z * sk_sp SkRuntimeEffect)) : Env :=
  {| builder := builder env ++ bs;
     gatherer := gatherer env ++ gs;
     rtEffectDict := RuntimeEffectDictionary_sets ds (rtEffectDict env) |}.

(** Modelled from the spec: a key is a sequence of blocks whose children
    are the blocks emitted between a [beginBlock] and its matching
    [endBlock]. *)
Unset Elimination Schemes.
Inductive Block := Block_node (id : CodeSnippetID) (children : list Block).
Set Elimination Schemes.

Fixpoint block_calls (b : Block) : list BuilderCall :=
  match b with
  | Block_node id children =>
      beginBlock_call id :: flat_map block_calls children ++ [endBlock_call]
  end.

Definition forest_calls (blocks : list Block) : list BuilderCall :=
  flat_map block_calls blocks.

Definition is_begin (c : BuilderCall) : bool :=
  match c with beginBlock_call _ => true | endBlock_call => false end.

Definition count_begin (calls : list BuilderCall) : nat :=
  length (List.filter is_begin calls).

Definition count_end (calls : list BuilderCall) : nat :=
  length (List.filter (fun c => negb (is_begin c)) calls).

(** Equal numbers of [beginBlock] and [endBlock], and no prefix with more
    [endBlock] than [beginBlock]. *)
Definition balanced (calls : list BuilderCall) : Prop :=
  count_begin calls = count_end calls /\
  forall prefix rest, calls = prefix ++ rest -> (count_end prefix <= count_begin prefix)%nat.

(** [built env env' bs]: between [env] and [env'] the builder received
    exactly the calls [bs]. *)
Definition built (env env' : Env) (bs : list BuilderCall) : Prop :=
  builder env' = builder env ++ bs.

(** A computation that never fails. *)
Definition completes (m : Emit unit) : Prop :=
  forall env, exists env', m env = Some (tt, env').

(** A computation that leaves one component of the state as it found it
    ([preserves builder m]: [m] never calls the builder). *)
Definition preserves {T A : Type} (component : Env -> T) (m : Emit A) : Prop :=
  forall env a env', m env = Some (a, env') -> component env' = component env.

(** A completed computation has appended whole blocks, exactly one whole
    block, or whole blocks followed by one closing [endBlock]. *)
Definition emits_forest (m : Emit unit) : Prop :=
  forall env env', m env = Some (tt, env') ->
    exists blocks, built env env' (forest_calls blocks).

Definition emits_block (m : Emit unit) : Prop :=
  forall env env', m env = Some (tt, env') ->
    exists block, built env env' (block_calls block).

(** [unwinding n calls]: the calls close [n] blocks that were open before
    them, each [endBlock] preceded by whole blocks only, and stop at the last
    of these [endBlock]. *)
Fixpoint unwinding (n : nat) (calls : list BuilderCall) : Prop :=
  match n with
  | O => calls = []
  | S n' => exists blocks rest,
      calls = forest_calls blocks ++ endBlock_call :: rest /\ unwinding n' rest
  end.

Definition unwinds (n : nat) (m : Emit unit) : Prop :=
  forall env env', m env = Some (tt, env') ->
    exists calls, built env env' calls /\ unwinding n calls.

(** A computation whose only call on the builder is one [beginBlock(id)]. *)
Definition begins (id : CodeSnippetID) (m : Emit unit) : Prop :=
  forall env env', m env = Some (tt, env') -> built env env' [beginBlock_call id].

Definition begins_some (m : Emit unit) : Prop := exists id, begins id m.

(** The shape of a gatherer call: what kind of value, how many scalars. *)
Inductive CallShape :=
| shape_int
| shape_float (precision_half : bool) (scalars : nat)
| shape_typed (t : SkSLType) (scalars : nat)
| shape_uniform (u : Uniform)
| shape_texture.

Definition call_shape (c : GathererCall) : CallShape :=
  match c with
  | write_SkPMColor4f _ => shape_float false 4
  | write_SkV4 _ => shape_float false 4
  | write_SkPoint _ => shape_float false 2
  | write_SkPoint3 _ => shape_float false 3
  | write_SkISize _ => shape_float false 2
  | write_SkRect _ => shape_float false 4
  | write_SkM44 _ => shape_float false 16
  | write_float _ => shape_float false 1
  | write_int _ => shape_int
  | write_typed t src => shape_typed t (length src)
  | write_uniform u _ => shape_uniform u
  | writeArray_SkPMColor4f sp => shape_float false (4 * length sp)
  | writeArray_typed t src _ => shape_typed t (length src)
  | writeHalf_float _ => shape_float true 1
  | writeHalf_SkColor4f _ => shape_float true 4
  | writeHalf_SkMatrix _ => shape_float true 9
  | writeHalf_SkM44 _ => shape_float true 16
  | writeHalfArray sp => shape_float true (length sp)
  | add_texture _ _ _ => shape_texture
  end.

Section Expected.
Context {collab : Collaborators}.

(** The calls [add_color_space_uniforms] is expected to issue, slot by slot. *)
Definition transfer_slot (enabled : bool) (tf : skcms_TransferFunction) : list GathererCall :=
  if enabled
  then [write_int (skcms_TFType_to_int (skcms_TransferFunction_getType tf));
        writeHalfArray (tf_span tf)]
  else [write_int (skcms_TFType_to_int skcms_TFType_Invalid);
        writeHalfArray kEmptyXferFn].

Definition gamut_slot (enabled : bool) (m : list float) : list GathererCall :=
  [writeHalf_SkMatrix (if enabled then m else SkMatrix_ctor)].

Definition color_space_uniforms (steps : SkColorSpaceXformSteps) : list GathererCall :=
  [write_int (mask (flags steps))]
  ++ transfer_slot (linearize (flags steps)) (srcTF steps)
  ++ gamut_slot (gamut_transform (flags steps)) (src_to_dst_matrix steps)
  ++ transfer_slot (encode (flags steps)) (dstTFInv steps).

End Expected.

(** The block writers of the file, as values, so that properties can be
    stated for all of them at once. *)
Inductive BlockWriter :=
| PriorOutputBlock
| SolidColorShaderBlock (premulColor : SkPMColor4f)
| DstReadSampleBlock (dstTexture : sk_sp TextureProxy) (dstOffset : SkIPoint)
| DstReadFetchBlock
| GradientShaderBlocks (gradData : GradientData)
| LocalMatrixShaderBlock (lmShaderData : option LMShaderData)
| ImageShaderBlock (imgData : option ImageData)
| YUVImageShaderBlock (imgData : option YUVImageData)
| CoordClampShaderBlock (clampData : option CoordClampData)
| DitherShaderBlock (ditherData : option DitherData)
| PerlinNoiseShaderBlock (noiseData : option PerlinNoiseData)
| BlendShaderBlock
| BlendModeBlenderBlock (blendMode : SkBlendMode)
| CoeffBlenderBlock (coeffs : list float)
| DstColorBlock
| PrimitiveColorBlock
| ColorFilterShaderBlock
| MatrixColorFilterBlock (matrixCFData : option MatrixColorFilterData)
| ComposeColorFilterBlock
| GaussianColorFilterBlock
| TableColorFilterBlock (data : TableColorFilterData)
| ColorSpaceTransformBlock (data : option ColorSpaceTransformData)
| RuntimeEffectBlock (shaderData : ShaderData).

(** The three stop-count code paths of the gradient dispatch policy. *)
Inductive StopPath := FourStops | EightStops | TextureStops.

Definition stop_path (numStops : Z) : StopPath :=
  if numStops <=? 4 then FourStops
  else if numStops <=? 8 then EightStops
  else TextureStops.

Definition gradient_snippet (type : GradientType) (path : StopPath) : BuiltInCodeSnippetID :=
  match type, path with
  | GT_kLinear, FourStops => kLinearGradientShader4
  | GT_kLinear, EightStops => kLinearGradientShader8
  | GT_kLinear, TextureStops => kLinearGradientShaderTexture
  | GT_kRadial, FourStops => kRadialGradientShader4
  | GT_kRadial, EightStops => kRadialGradientShader8
  | GT_kRadial, TextureStops => kRadialGradientShaderTexture
  | GT_kSweep, FourStops => kSweepGradientShader4
  | GT_kSweep, EightStops => kSweepGradientShader8
  | GT_kSweep, TextureStops => kSweepGradientShaderTexture
  | GT_kConical, FourStops => kConicalGradientShader4
  | GT_kConical, EightStops => kConicalGradientShader8
  | GT_kConical, TextureStops => kConicalGradientShaderTexture
  | GT_kNone, _ => kSolidColorShader
  end.

(** The uniforms that follow the stops: the geometry of each gradient type
    and the common trailer (tile mode, color space, premul flag). *)
Definition gradient_geometry (gradData : GradientData) : list GathererCall :=
  match fType gradData with
  | GT_kLinear => [write_SkPoint (fst (fPoints gradData)); write_SkPoint (snd (fPoints gradData))]
  | GT_kRadial => [write_SkPoint (fst (fPoints gradData)); write_float (fst (fRadii gradData))]
  | GT_kSweep => [write_SkPoint (fst (fPoints gradData)); write_float (fBias gradData);
                  write_float (fScale gradData)]
  | GT_kConical => [write_SkPoint (fst (fPoints gradData)); write_SkPoint (snd (fPoints gradData));
                    write_float (fst (fRadii gradData)); write_float (snd (fRadii gradData))]
  | GT_kNone => []
  end.

Definition gradient_trailer (gradData : GradientData) : list GathererCall :=
  [write_int (SkTileMode_to_int (fTM gradData));
   write_int (fColorSpace (fInterpolation gradData));
   write_int (bool_to_int (fInPremul (fInterpolation gradData)))].

Definition when_gatherer {A : Type} (g : GathererPtr) (calls : list A) : list A :=
  if gatherer_present g then calls else [].

(** What the gatherer is expected to receive for a gradient, per code path:
    inline stops first on the 4- and 8-stop paths; on the texture path the
    texture binding, no inline stops, and the stop count before the trailer. *)
Definition gradient_uniforms (gradData : GradientData) : list GathererCall :=
  match stop_path (fNumStops gradData) with
  | FourStops =>
      [writeArray_SkPMColor4f (span (fColors gradData) 4);
       write_typed kFloat4 (span (fOffsets gradData) 4)]
      ++ gradient_geometry gradData ++ gradient_trailer gradData
  | EightStops =>
      [writeArray_SkPMColor4f (span (fColors gradData) 8);
       writeArray_typed kFloat4 (span (fOffsets gradData) 8) 2]
      ++ gradient_geometry gradData ++ gradient_trailer gradData
  | TextureStops =>
      [add_texture kNearest_sampling kClampTiling (fColorsAndOffsetsProxy gradData)]
      ++ gradient_geometry gradData
      ++ [write_int (fNumStops gradData)] ++ gradient_trailer gradData
  end.

Section Writers.
Context {collab : Collaborators}.

Definition BeginBlock (keyContext : KeyContext) (g : GathererPtr) (w : BlockWriter) : Emit unit :=
  match w with
  | PriorOutputBlock => PriorOutputBlock_BeginBlock keyContext g
  | SolidColorShaderBlock c => SolidColorShaderBlock_BeginBlock keyContext g c
  | DstReadSampleBlock t o => DstReadSampleBlock_BeginBlock keyContext g t o
  | DstReadFetchBlock => DstReadFetchBlock_BeginBlock keyContext g
  | GradientShaderBlocks d => GradientShaderBlocks_BeginBlock keyContext g d
  | LocalMatrixShaderBlock d => LocalMatrixShaderBlock_BeginBlock keyContext g d
  | ImageShaderBlock d => ImageShaderBlock_BeginBlock keyContext g d
  | YUVImageShaderBlock d => YUVImageShaderBlock_BeginBlock keyContext g d
  | CoordClampShaderBlock d => CoordClampShaderBlock_BeginBlock keyContext g d
  | DitherShaderBlock d => DitherShaderBlock_BeginBlock keyContext g d
  | PerlinNoiseShaderBlock d => PerlinNoiseShaderBlock_BeginBlock keyContext g d
  | BlendShaderBlock => BlendShaderBlock_BeginBlock keyContext g
  | BlendModeBlenderBlock bm => BlendModeBlenderBlock_BeginBlock keyContext g bm
  | CoeffBlenderBlock cs => CoeffBlenderBlock_BeginBlock keyContext g cs
  | DstColorBlock => DstColorBlock_BeginBlock keyContext g
  | PrimitiveColorBlock => PrimitiveColorBlock_BeginBlock keyContext g
  | ColorFilterShaderBlock => ColorFilterShaderBlock_BeginBlock keyContext g
  | MatrixColorFilterBlock d => MatrixColorFilterBlock_BeginBlock keyContext g d
  | ComposeColorFilterBlock => ComposeColorFilterBlock_BeginBlock keyContext g
  | GaussianColorFilterBlock => GaussianColorFilterBlock_BeginBlock keyContext g
  | TableColorFilterBlock d => TableColorFilterBlock_BeginBlock keyContext g d
  | ColorSpaceTransformBlock d => ColorSpaceTransformBlock_BeginBlock keyContext g d
  | RuntimeEffectBlock d => RuntimeEffectBlock_BeginBlock keyContext g d
  end.

(** The snippet a writer stands for. *)
Definition writer_snippet (keyContext : KeyContext) (w : BlockWriter) : CodeSnippetID :=
  match w with
  | PriorOutputBlock => kPriorOutput
  | SolidColorShaderBlock _ => kSolidColorShader
  | DstReadSampleBlock _ _ => kDstReadSample
  | DstReadFetchBlock => kDstReadFetch
  | GradientShaderBlocks d => gradient_snippet (fType d) (stop_path (fNumStops d))
  | LocalMatrixShaderBlock _ => kLocalMatrixShader
  | ImageShaderBlock _ => kImageShader
  | YUVImageShaderBlock _ => kYUVImageShader
  | CoordClampShaderBlock _ => kCoordClampShader
  | DitherShaderBlock _ => kDitherShader
  | PerlinNoiseShaderBlock _ => kPerlinNoiseShader
  | BlendShaderBlock => kBlendShader
  | BlendModeBlenderBlock _ => kBlendModeBlender
  | CoeffBlenderBlock _ => kCoeffBlender
  | DstColorBlock => kDstColor
  | PrimitiveColorBlock => kPrimitiveColor
  | ColorFilterShaderBlock => kColorFilterShader
  | MatrixColorFilterBlock _ => kMatrixColorFilter
  | ComposeColorFilterBlock => kComposeColorFilter
  | GaussianColorFilterBlock => kGaussianColorFilter
  | TableColorFilterBlock _ => kTableColorFilter
  | ColorSpaceTransformBlock _ => kColorSpaceXformColorFilter
  | RuntimeEffectBlock d =>
      RuntimeID (findOrCreateRuntimeEffectSnippet (dict keyContext) (fEffect d))
  end.

(** The same writer as the key-only path calls it: payload pointers that
    must be null exactly when the gatherer is are nulled. *)
Definition key_only (w : BlockWriter) : BlockWriter :=
  match w with
  | LocalMatrixShaderBlock _ => LocalMatrixShaderBlock None
  | ImageShaderBlock _ => ImageShaderBlock None
  | YUVImageShaderBlock _ => YUVImageShaderBlock None
  | CoordClampShaderBlock _ => CoordClampShaderBlock None
  | DitherShaderBlock _ => DitherShaderBlock None
  | PerlinNoiseShaderBlock _ => PerlinNoiseShaderBlock None
  | MatrixColorFilterBlock _ => MatrixColorFilterBlock None
  | other => other
  end.

(** The writers that put another block in place of their own when a
    texture is missing, and the block they put. *)
Definition substitutes_fallback (keyContext : KeyContext) (w : BlockWriter) : bool :=
  match w with
  | ImageShaderBlock (Some d) => is_null (img_fTextureProxy d)
  | YUVImageShaderBlock (Some d) =>
      is_null (yuv_fTextureProxies d 0) || is_null (yuv_fTextureProxies d 1)
      || is_null (yuv_fTextureProxies d 2) || is_null (yuv_fTextureProxies d 3)
  | DitherShaderBlock _ => is_null (CreateCachedProxy (recorder keyContext) MakeDitherLUT)
  | TableColorFilterBlock d => is_null (table_fTextureProxy d)
  | _ => false
  end.

Definition fallback_snippet (w : BlockWriter) : BuiltInCodeSnippetID :=
  match w with
  | ImageShaderBlock _ | YUVImageShaderBlock _ => kSolidColorShader
  | _ => kPriorOutput
  end.

(** The snippet a writer begins: its own, unless a gatherer is there and a
    texture is missing. *)
Definition emitted_snippet (keyContext : KeyContext) (g : GathererPtr) (w : BlockWriter)
  : CodeSnippetID :=
  if gatherer_present g && substitutes_fallback keyContext w
  then BuiltIn (fallback_snippet w)
  else writer_snippet keyContext w.

(** What is asked of the shader hierarchy's own emission, which lives
    outside this file: whenever it completes it has appended whole blocks. *)
Definition shader_well_nested : Prop :=
  forall keyContext g shader env env',
    SkShader_addToKey keyContext g shader env = Some (tt, env') ->
    exists blocks, builder env' = builder env ++ forest_calls blocks.

End Writers.

(* ================================================================== *)
(** ** Sample collaborators and inputs

    A concrete choice of the collaborators, to run the model on examples:
    paint-color shaders only, color-space transforms with no step enabled,
    and [SkMatrix()] and [SkM44()] the identity matrices, as the default
    constructors of [include/core/SkMatrix.h] and [SkM44.h] build them. *)

Definition SkMatrix_I : SkMatrix :=
  [f32_1; f32_0; f32_0;
   f32_0; f32_1; f32_0;
   f32_0; f32_0; f32_1].

Definition zero_TF : skcms_TransferFunction :=
  {| tf_g := f32_0; tf_a := f32_0; tf_b := f32_0; tf_c := f32_0;
     tf_d := f32_0; tf_e := f32_0; tf_f := f32_0 |}.

Definition no_steps : SkColorSpaceXformSteps :=
  {| flags := {| unpremul := false; linearize := false; gamut_transform := false;
                 encode := false; premul := false |};
     srcTF := zero_TF; dstTFInv := zero_TF; src_to_dst_matrix := SkMatrix_I |}.

Definition sample_collaborators : Collaborators :=
  {| SkShader := SkPMColor4f;
     SkShader_addToKey := fun keyContext g color =>
       bind (SolidColorShaderBlock_BeginBlock keyContext g color) (fun _ => endBlock);
     mask := fun f =>
       bool_to_int (unpremul f) + 2 * bool_to_int (linearize f)
       + 4 * bool_to_int (gamut_transform f) + 8 * bool_to_int (encode f)
       + 16 * bool_to_int (premul f);
     skcms_TransferFunction_getType := fun _ => skcms_TFType_sRGBish;
     SkMatrix_ctor := SkMatrix_I;
     SkM44_ctor := SkM44_setIdentity;
     SkColorSpaceXformSteps_ctor := fun _ _ _ _ => no_steps;
     SkColorSpaceXformSteps_apply := fun _ c => c;
     CubicResamplerMatrix := fun _ _ => SkM44_setIdentity;
     SkM44_invert := fun m => Some m;
     GetPorterDuffBlendConstants := fun mode =>
       if mode <=? 14 then [f32_1; f32_0; f32_0; f32_0] else [];
     TransformUniforms := fun _ data _ => data;
     Interpolation_ctor := {| fInPremul := false; fColorSpace := 0 |};
     MatrixColorFilterData_ctor := fun m inHSLA =>
       {| fMatrix := firstn 4 m ++ firstn 4 (skipn 5 m)
                     ++ firstn 4 (skipn 10 m) ++ firstn 4 (skipn 15 m);
          fTranslate := {| v4x := nth 4 m f32_0; v4y := nth 9 m f32_0;
                           v4z := nth 14 m f32_0; v4w := nth 19 m f32_0 |};
          fInHSLA := inHSLA |};
     MakeDitherLUT := {| bitmapID := 0; bitmapSize := {| fWidth := 8; fHeight := 8 |};
                         pixels := [] |};
     SkColorSpace_MakeSRGB := {| fTransferFn := zero_TF; fToXYZD50 := SkMatrix_I |};
     sk_srgb_singleton := {| fTransferFn := zero_TF; fToXYZD50 := SkMatrix_I |} |}.

(** A key context whose recorder creates a proxy for every bitmap but the
    one with identifier 13, and whose dictionary numbers runtime effects
    from 1000. *)
Definition sample_keyContext : KeyContext :=
  {| dict := {| findOrCreateRuntimeEffectSnippet := fun e =>
                  match e with Some e' => 1000 + effectID e' | None => 999 end;
                getEntry := fun _ => Some {| fUniforms := [] |} |};
     recorder := {| CreateCachedProxy := fun bm =>
                      if bitmapID bm =? 13 then None
                      else Some {| proxyID := bitmapID bm; dimensions := bitmapSize bm |} |};
     dstColorInfo := {| colorSpace := None; alphaType := kPremul_SkAlphaType |} |}.

Definition empty_env : Env := {| builder := []; gatherer := []; rtEffectDict := [] |}.

(** The state a computation leaves when started on [empty_env]. *)
Definition run_env (m : Emit unit) : Env :=
  match m empty_env with
  | Some (_, env) => env
  | None => empty_env
  end.

Definition sample_proxy : TextureProxy :=
  {| proxyID := 7; dimensions := {| fWidth := 9; fHeight := 1 |} |}.

(** A nine-stop sweep gradient, its stops in a texture. *)
Definition sample_gradient : GradientData :=
  {| fType := GT_kSweep;
     fPoints := (SkPoint_zero, SkPoint_zero);
     fRadii := (f32_0, f32_0);
     fBias := f32_0;
     fScale := f32_1;
     fTM := kRepeat;
     fNumStops := 9;
     fColors := fun _ => SkPMColor4f_zero;
     fOffsets := fun _ => f32_0;
     fColorsAndOffsetsProxy := Some sample_proxy;
     fInterpolation := {| fInPremul := true; fColorSpace := 3 |} |}.

(** An image payload whose texture reference is null. *)
Definition sample_image : ImageData :=
  {| img_fSampling := SkSamplingOptions_default;
     img_fTileModes := (kClamp, kMirror);
     img_fSubset := {| fLeft := f32_0; fTop := f32_0; fRight := f32_1; fBottom := f32_1 |};
     img_fReadSwizzle := 0;
     img_fSteps := no_steps;
     img_fTextureProxy := None |}.

(** The table bitmap for which [sample_keyContext] creates no proxy. *)
Definition sample_bitmap : SkBitmap :=
  {| bitmapID := 13; bitmapSize := {| fWidth := 256; fHeight := 4 |}; pixels := [] |}.

Definition sample_effect : SkRuntimeEffect :=
  {| effectID := 1; rt_uniforms := []; rt_children := [ChildType_kShader; ChildType_kColorFilter;
                                                       ChildType_kBlender; ChildType_kShader] |}.

Definition sample_workingFormat (dstCS : sk_sp SkColorSpace)
  : sk_sp SkColorSpace * SkAlphaType :=
  (dstCS, kUnpremul_SkAlphaType).

Definition sample_filter : SkColorFilter (collab := sample_collaborators) :=
  SkWorkingFormatColorFilter
    (Some (SkComposeColorFilter
             (Some (SkMatrixColorFilter (repeat f32_0 20) Domain_kHSLA))
             (Some (SkTableColorFilter sample_bitmap))))
    sample_workingFormat.

Definition sample_blender : SkBlender (collab := sample_collaborators) :=
  SkRuntimeBlender (Some sample_effect) (Some [])
    [ChildPtr_shader (kErrorColor : @SkShader sample_collaborators);
     ChildPtr_colorFilter sample_filter;
     ChildPtr_blender (SkBlendModeBlender 20);
     ChildPtr_null].

(** Three stops given by color only, to be laid out evenly. *)
Definition sample_stops : list SkPMColor4f := [kErrorColor; SkPMColor4f_zero; kErrorColor].

Definition sample_ctor : option GradientData :=
  GradientData_ctor (fun _ => SkPMColor4f_zero) (fun _ => f32_0)
    GT_kLinear SkPoint_zero SkPoint_zero f32_0 f32_0 f32_0 f32_0 kClamp
    3 sample_stops None None {| fInPremul := false; fColorSpace := 0 |}.

Definition sample_inline_gradient : GradientData :=
  match sample_ctor with
  | Some gradData => gradData
  | None => sample_gradient
  end.

(** A table-filter payload without a proxy. *)
Definition sample_table : TableColorFilterData := {| table_fTextureProxy := None |}.

(* ================================================================== *)
(** ** The streams as functions of the effect tree *)

(** A computation whose calls on the builder, once completed, are exactly
    [calls]. *)
Definition emits_calls (m : Emit unit) (calls : list BuilderCall) : Prop :=
  forall env env', m env = Some (tt, env') -> built env env' calls.

Section KeyOf.
Context {collab : Collaborators}.
Variable keyContext : KeyContext.

(** The blocks the shader hierarchy emits for a shader child. *)
Variable shader_blocks : SkShader -> list Block.

(** The block of a blender, of a color filter, and the blocks of a child
    of a runtime effect, read off the effect tree. *)
Fixpoint blender_key (b : SkBlender) : Block :=
  match b with
  | SkBlendModeBlender mode =>
      if Nat.eqb (length (GetPorterDuffBlendConstants mode)) 0
      then Block_node kBlendModeBlender []
      else Block_node kCoeffBlender []
  | SkRuntimeBlender effect _ children =>
      Block_node (RuntimeID (findOrCreateRuntimeEffectSnippet (dict keyContext) effect))
                 (flat_map child_key children)
  end
with filter_key (f : SkColorFilter) : Block :=
  let nullable (p : option SkColorFilter) : list Block :=
    match p with
    | Some f' => [filter_key f']
    | None => []
    end in
  match f with
  | SkNoopColorFilter => Block_node kPriorOutput []
  | SkBlendModeColorFilter _ _ =>
      Block_node kBlendShader
        [Block_node kSolidColorShader []; Block_node kPriorOutput [];
         Block_node kBlendModeBlender []]
  | SkColorSpaceXformColorFilter _ _ => Block_node kColorSpaceXformColorFilter []
  | SkComposeColorFilter outer inner =>
      Block_node kComposeColorFilter (nullable inner ++ nullable outer)
  | SkGaussianColorFilter => Block_node kGaussianColorFilter []
  | SkMatrixColorFilter _ _ => Block_node kMatrixColorFilter []
  | SkRuntimeColorFilter effect _ children =>
      Block_node (RuntimeID (findOrCreateRuntimeEffectSnippet (dict keyContext) effect))
                 (flat_map child_key children)
  | SkTableColorFilter bitmap =>
      if is_null (CreateCachedProxy (recorder keyContext) bitmap)
      then Block_node kPriorOutput []
      else Block_node kTableColorFilter []
  | SkWorkingFormatColorFilter child _ =>
      Block_node kComposeColorFilter
        [Block_node kComposeColorFilter
           (Block_node kColorSpaceXformColorFilter [] :: nullable child);
         Block_node kColorSpaceXformColorFilter []]
  end
with child_key (c : ChildPtr) : list Block :=
  match c with
  | ChildPtr_null => []
  | ChildPtr_shader shader => shader_blocks shader
  | ChildPtr_blender blender => [blender_key blender]
  | ChildPtr_colorFilter colorFilter => [filter_key colorFilter]
  end.

Definition nullable_key {T : Type} (key : T -> Block) (p : option T) : list Block :=
  match p with
  | Some v => [key v]
  | None => []
  end.

(** The gatherer calls of a color filter built without runtime effects,
    converted with a gatherer. *)
Fixpoint filter_uniforms (f : SkColorFilter) : list GathererCall :=
  let nullable (p : option SkColorFilter) : list GathererCall :=
    match p with
    | Some f' => filter_uniforms f'
    | None => []
    end in
  match f with
  | SkNoopColorFilter => []
  | SkBlendModeColorFilter color mode =>
      [write_SkPMColor4f
         (map_color color (Some sk_srgb_singleton) (colorSpace (dstColorInfo keyContext)));
       write_int mode]
  | SkColorSpaceXformColorFilter src _ =>
      color_space_uniforms
        (SkColorSpaceXformSteps_ctor src kPremul_SkAlphaType src kPremul_SkAlphaType)
  | SkComposeColorFilter outer inner => nullable inner ++ nullable outer
  | SkGaussianColorFilter => []
  | SkMatrixColorFilter matrix domain =>
      let data := MatrixColorFilterData_ctor matrix
                    (match domain with Domain_kHSLA => true | Domain_kRGBA => false end) in
      [write_SkM44 (fMatrix data); write_SkV4 (fTranslate data);
       write_int (bool_to_int (fInHSLA data))]
  | SkRuntimeColorFilter _ _ _ => []
  | SkTableColorFilter bitmap =>
      match CreateCachedProxy (recorder keyContext) bitmap with
      | Some proxy => [add_texture SkSamplingOptions_default kClampTiling (Some proxy)]
      | None => []
      end
  | SkWorkingFormatColorFilter child workingFormat =>
      let dstAT := alphaType (dstColorInfo keyContext) in
      let dstCS := match colorSpace (dstColorInfo keyContext) with
                   | Some cs => Some cs
                   | None => Some SkColorSpace_MakeSRGB
                   end in
      let working := workingFormat dstCS in
      color_space_uniforms (SkColorSpaceXformSteps_ctor dstCS dstAT (fst working) (snd working))
      ++ nullable child
      ++ color_space_uniforms
           (SkColorSpaceXformSteps_ctor (fst working) (snd working) dstCS dstAT)
  end.

End KeyOf.

(** A computation that, once completed, has set exactly the entries
    [entries] (oldest first) in the runtime-effect dictionary. *)
Definition registers (m : Emit unit) (entries : list (Z * sk_sp SkRuntimeEffect)) : Prop :=
  forall env env', m env = Some (tt, env') ->
    rtEffectDict env' = RuntimeEffectDictionary_sets (rev entries) (rtEffectDict env).

Section EffectsOf.
Context {collab : Collaborators}.
Variable keyContext : KeyContext.

(** The dictionary entries the shader hierarchy registers for a shader
    child. *)
Variable shader_effects : SkShader -> list (Z * sk_sp SkRuntimeEffect).

(** The runtime effects of a tree, each under its snippet identifier, in
    the order the conversion meets them: a node before its children, an
    inner filter before the outer one. *)
Fixpoint blender_effects (b : SkBlender) : list (Z * sk_sp SkRuntimeEffect) :=
  match b with
  | SkBlendModeBlender _ => []
  | SkRuntimeBlender effect _ children =>
      (findOrCreateRuntimeEffectSnippet (dict keyContext) effect, effect)
      :: flat_map child_effects children
  end
with filter_effects (f : SkColorFilter) : list (Z * sk_sp SkRuntimeEffect) :=
  let nullable (p : option SkColorFilter) : list (Z * sk_sp SkRuntimeEffect) :=
    match p with
    | Some f' => filter_effects f'
    | None => []
    end in
  match f with
  | SkComposeColorFilter outer inner => nullable inner ++ nullable outer
  | SkRuntimeColorFilter effect _ children =>
      (findOrCreateRuntimeEffectSnippet (dict keyContext) effect, effect)
      :: flat_map child_effects children
  | SkWorkingFormatColorFilter child _ => nullable child
  | _ => []
  end
with child_effects (c : ChildPtr) : list (Z * sk_sp SkRuntimeEffect) :=
  match c with
  | ChildPtr_null => []
  | ChildPtr_shader shader => shader_effects shader
  | ChildPtr_blender blender => blender_effects blender
  | ChildPtr_colorFilter colorFilter => filter_effects colorFilter
  end.

Definition nullable_effects {T : Type} (effects : T -> list (Z * sk_sp SkRuntimeEffect))
    (p : option T) : list (Z * sk_sp SkRuntimeEffect) :=
  match p with
  | Some v => effects v
  | None => []
  end.

End EffectsOf.

(** Whether a matrix color filter is reached from an effect, through
    compose and working-format filters and the children of runtime effects. *)
Fixpoint blender_has_matrix_filter {collab : Collaborators} (b : SkBlender) : bool :=
  match b with
  | SkBlendModeBlender _ => false
  | SkRuntimeBlender _ _ children => existsb child_has_matrix_filter children
  end
with filter_has_matrix_filter {collab : Collaborators} (f : SkColorFilter) : bool :=
  let nullable (p : option SkColorFilter) : bool :=
    match p with
    | Some f' => filter_has_matrix_filter f'
    | None => false
    end in
  match f with
  | SkMatrixColorFilter _ _ => true
  | SkComposeColorFilter outer inner => nullable inner || nullable outer
  | SkRuntimeColorFilter _ _ children => existsb child_has_matrix_filter children
  | SkWorkingFormatColorFilter child _ => nullable child
  | _ => false
  end
with child_has_matrix_filter {collab : Collaborators} (c : ChildPtr) : bool :=
  match c with
  | ChildPtr_blender blender => blender_has_matrix_filter blender
  | ChildPtr_colorFilter colorFilter => filter_has_matrix_filter colorFilter
  | _ => false
  end.

(** A computation that fails from every state. *)
Definition fails {A : Type} (m : Emit A) : Prop := forall env, m env = None.

(* ================================================================== *)
(** ** Further expected outputs *)

(** The writes [gather_runtime_effect_uniforms] is expected to issue: one
    per runtime uniform, each reading the data at that uniform's offset. *)
Definition runtime_uniform_writes (rtsUniforms : list RTUniform)
    (graphiteUniforms : list Uniform) (uniformBase : SkData) : list GathererCall :=
  map (fun '(uniform, rts) =>
         write_uniform uniform (skipn (Z.to_nat (offset rts)) uniformBase))
      (combine graphiteUniforms rtsUniforms).

(** The stop that position [i] of the inline arrays holds: its own for
    [i < numStops], the last one beyond. *)
Definition stop_at (numStops : Z) (i : nat) : nat :=
  Z.to_nat (Z.min (Z.of_nat i) (numStops - 1)).

(** The shapes of the uniforms of the image shaders, before those of the
    color space. *)
Definition image_uniform_shapes : list CallShape :=
  [shape_float false 2; shape_float false 4; shape_int; shape_int; shape_int; shape_int;
   shape_float true 16; shape_int].

Definition yuv_uniform_shapes : list CallShape :=
  [shape_float false 2; shape_float false 4; shape_int; shape_int; shape_int; shape_int;
   shape_float true 16;
   shape_float true 4; shape_float true 4; shape_float true 4; shape_float true 4;
   shape_float true 9; shape_float false 3].

Definition color_space_shapes : list CallShape :=
  [shape_int; shape_int; shape_float true 7; shape_float true 9;
   shape_int; shape_float true 7].

Section ExpectedImages.
Context {collab : Collaborators}.

(** The filter mode, the cubic flag and the cubic resampler matrix. *)
Definition sampling_uniforms (sampling : SkSamplingOptions) : list GathererCall :=
  [write_int (SkFilterMode_to_int (filter sampling));
   write_int (bool_to_int (useCubic sampling));
   writeHalf_SkM44 (if useCubic sampling
                    then CubicResamplerMatrix (cubicB (cubic sampling)) (cubicC (cubic sampling))
                    else SkM44_ctor)].

(** What the gatherer is expected to receive for an image whose texture
    is [proxy], and for a YUV image. *)
Definition image_uniforms (imgData : ImageData) (proxy : TextureProxy) : list GathererCall :=
  [add_texture (img_fSampling imgData) (img_fTileModes imgData) (Some proxy);
   write_SkPoint {| fX := SkIntToFloat (fWidth (dimensions proxy));
                    fY := SkIntToFloat (fHeight (dimensions proxy)) |};
   write_SkRect (img_fSubset imgData);
   write_int (SkTileMode_to_int (fst (img_fTileModes imgData)));
   write_int (SkTileMode_to_int (snd (img_fTileModes imgData)))]
  ++ sampling_uniforms (img_fSampling imgData)
  ++ [write_int (img_fReadSwizzle imgData)]
  ++ color_space_uniforms (img_fSteps imgData).

Definition yuv_image_uniforms (imgData : YUVImageData) : list GathererCall :=
  map (fun i => add_texture (yuv_fSampling imgData) (yuv_fTileModes imgData)
                            (yuv_fTextureProxies imgData i))
      [0; 1; 2; 3]
  ++ [write_SkPoint (yuv_fImgSize imgData);
      write_SkRect (yuv_fSubset imgData);
      write_int (SkTileMode_to_int (fst (yuv_fTileModes imgData)));
      write_int (SkTileMode_to_int (snd (yuv_fTileModes imgData)))]
  ++ sampling_uniforms (yuv_fSampling imgData)
  ++ map (fun i => writeHalf_SkColor4f (yuv_fChannelSelect imgData i)) [0; 1; 2; 3]
  ++ [writeHalf_SkMatrix (yuv_fYUVtoRGBMatrix imgData);
      write_SkPoint3 (yuv_fYUVtoRGBTranslate imgData)]
  ++ color_space_uniforms (yuv_fSteps imgData).

End ExpectedImages.

(** What the gatherer receives from a writer that substitutes its fallback
    block. *)
Definition fallback_data (w : BlockWriter) : list GathererCall :=
  match w with
  | ImageShaderBlock _ | YUVImageShaderBlock _ => [write_SkPMColor4f kErrorColor]
  | _ => []
  end.

(** The writers that take a payload pointer and assert that it is null
    exactly when the gatherer is: whether the payload is null. *)
Definition payload_is_null (w : BlockWriter) : option bool :=
  match w with
  | LocalMatrixShaderBlock d => Some (is_null d)
  | ImageShaderBlock d => Some (is_null d)
  | YUVImageShaderBlock d => Some (is_null d)
  | CoordClampShaderBlock d => Some (is_null d)
  | DitherShaderBlock d => Some (is_null d)
  | PerlinNoiseShaderBlock d => Some (is_null d)
  | MatrixColorFilterBlock d => Some (is_null d)
  | _ => None
  end.

(** The calls a block writer accepts: those on which none of its
    assertions fails and no null pointer is dereferenced. *)
Definition accepts (keyContext : KeyContext) (g : GathererPtr) (w : BlockWriter) : bool :=
  match payload_is_null w with
  | Some payload_null => Bool.eqb (negb (gatherer_present g)) payload_null
  | None =>
      match w with
      | DstReadSampleBlock dstTexture _ =>
          negb (gatherer_present g) || negb (is_null dstTexture)
      | GradientShaderBlocks gradData =>
          match fType gradData with GT_kNone => false | _ => true end
          && (negb (gatherer_present g && (kNumInternalStorageStops <? fNumStops gradData))
              || negb (is_null (fColorsAndOffsetsProxy gradData)))
      | CoeffBlenderBlock coeffs =>
          negb (gatherer_present g) || Nat.eqb (length coeffs) 4
      | ColorSpaceTransformBlock data =>
          negb (gatherer_present g) || negb (is_null data)
      | RuntimeEffectBlock shaderData =>
          negb (gatherer_present g)
          || match getEntry (dict keyContext)
                     (findOrCreateRuntimeEffectSnippet (dict keyContext) (fEffect shaderData)),
                   fEffect shaderData, sd_fUniforms shaderData with
             | Some entry, Some effect, Some _ =>
                 (length (rt_uniforms effect) =? length (fUniforms entry))%nat
             | _, _, _ => false
             end
      | _ => true
      end
  end.

(* ------------------------------------------------------------------ *)
(** *** More sample inputs *)

(** An image payload with a texture, and a YUV payload with its four
    planes. *)
Definition sample_textured_image : ImageData :=
  {| img_fSampling := SkSamplingOptions_default;
     img_fTileModes := (kClamp, kMirror);
     img_fSubset := {| fLeft := f32_0; fTop := f32_0; fRight := f32_1; fBottom := f32_1 |};
     img_fReadSwizzle := 0;
     img_fSteps := no_steps;
     img_fTextureProxy := Some sample_proxy |}.

Definition sample_yuv_image : YUVImageData :=
  {| yuv_fSampling := SkSamplingOptions_default;
     yuv_fTileModes := (kRepeat, kRepeat);
     yuv_fSubset := {| fLeft := f32_0; fTop := f32_0; fRight := f32_1; fBottom := f32_1 |};
     yuv_fImgSize := {| fX := f32_1; fY := f32_1 |};
     yuv_fChannelSelect := fun _ => kErrorColor;
     yuv_fYUVtoRGBMatrix := SkMatrix_I;
     yuv_fYUVtoRGBTranslate := {| p3X := f32_0; p3Y := f32_0; p3Z := f32_0 |};
     yuv_fSteps := no_steps;
     yuv_fTextureProxies := fun i => Some {| proxyID := i;
                                             dimensions := {| fWidth := 2; fHeight := 2 |} |} |}.

(** A runtime blender and a color filter that can be converted key-only:
    no matrix color filter is reached from them. *)
Definition sample_key_only_filter : SkColorFilter (collab := sample_collaborators) :=
  SkWorkingFormatColorFilter
    (Some (SkComposeColorFilter (Some SkGaussianColorFilter)
                                (Some (SkTableColorFilter sample_bitmap))))
    sample_workingFormat.

Definition sample_key_only_blender : SkBlender (collab := sample_collaborators) :=
  SkRuntimeBlender (Some sample_effect) (Some [])
    [ChildPtr_shader (kErrorColor : @SkShader sample_collaborators);
     ChildPtr_colorFilter sample_key_only_filter;
     ChildPtr_blender (SkBlendModeBlender 3);
     ChildPtr_null].

(** A tree of four runtime effects: a runtime blender at the root
    (effect 1) over a compose filter whose inner filter (effect 2) holds a
    runtime blender (effect 3) and whose outer filter uses the effect of
    the root again. *)
Definition sample_effect_inner : SkRuntimeEffect :=
  {| effectID := 2; rt_uniforms := []; rt_children := [ChildType_kBlender] |}.

Definition sample_effect_other : SkRuntimeEffect :=
  {| effectID := 3; rt_uniforms := []; rt_children := [] |}.

Definition sample_runtime_filter : SkColorFilter (collab := sample_collaborators) :=
  SkComposeColorFilter
    (Some (SkRuntimeColorFilter (Some sample_effect) (Some []) []))
    (Some (SkRuntimeColorFilter (Some sample_effect_inner) (Some [])
             [ChildPtr_blender (SkRuntimeBlender (Some sample_effect_other) (Some []) [])])).

Definition sample_runtime_blender : SkBlender (collab := sample_collaborators) :=
  SkRuntimeBlender (Some sample_effect) (Some [])
    [ChildPtr_colorFilter sample_runtime_filter].

(** The blocks of a shader child under [sample_collaborators], which
    registers no runtime effect. *)
Definition sample_shader_effects (shader : @SkShader sample_collaborators)
  : list (Z * sk_sp SkRuntimeEffect) := [].

(** The blocks of a shader child under [sample_collaborators]. *)
Definition sample_shader_blocks (shader : @SkShader sample_collaborators) : list Block :=
  [Block_node kSolidColorShader []].

(* ================================================================== *)
(** ** Running the model: basic facts *)

Lemma extend_nil (env : Env) : extend env [] [] [] = env.
Proof. destruct env; unfold extend; simpl; now rewrite !app_nil_r. Qed.

Lemma extend_extend env b1 g1 d1 b2 g2 d2 :
  extend (extend env b1 g1 d1) b2 g2 d2 = extend env (b1 ++ b2) (g1 ++ g2) (d2 ++ d1).
Proof.
  unfold extend, RuntimeEffectDictionary_sets; simpl.
  now rewrite !app_assoc, fold_right_app.
Qed.

Lemma beginBlock_extend id env :
  beginBlock id env = Some (tt, extend env [beginBlock_call id] [] []).
Proof. unfold beginBlock, extend; simpl; now rewrite app_nil_r. Qed.

Lemma endBlock_extend env :
  endBlock env = Some (tt, extend env [endBlock_call] [] []).
Proof. unfold endBlock, extend; simpl; now rewrite app_nil_r. Qed.

Lemma on_gatherer_extend c env :
  on_gatherer c env = Some (tt, extend env [] [c] []).
Proof. unfold on_gatherer, extend; simpl; now rewrite app_nil_r. Qed.

Lemma rtEffectDict_set_extend id e env :
  rtEffectDict_set id e env = Some (tt, extend env [] [] [(id, e)]).
Proof. unfold rtEffectDict_set, extend; simpl; now rewrite !app_nil_r. Qed.

(** A completed sequence went through a completed first step. *)
Lemma bind_inv {A B : Type} (m : Emit A) (k : A -> Emit B) env b env' :
  bind m k env = Some (b, env') ->
  exists a env1, m env = Some (a, env1) /\ k a env1 = Some (b, env').
Proof.
  unfold bind. destruct (m env) as [[a env1]|]; [|discriminate].
  intros H. now exists a, env1.
Qed.

(** Symbolic execution of straight-line emission code. *)
Ltac run_emit :=
  repeat (progress
    (unfold bind, if_gatherer, SkASSERT, SkUNREACHABLE, SkDEBUGFAIL, deref, fail, ret;
     cbn [gatherer_present is_null negb Bool.eqb andb orb];
     cbn beta iota;
     rewrite ?beginBlock_extend, ?endBlock_extend, ?on_gatherer_extend,
       ?rtEffectDict_set_extend;
     cbn beta iota));
  rewrite ?extend_extend, ?extend_nil; cbn [app].

(** *** Monad laws used for simplification *)

Lemma bind_ret_l {A B : Type} (a : A) (k : A -> Emit B) : bind (ret a) k = k a.
Proof. reflexivity. Qed.

Lemma bind_fail {A B : Type} (k : A -> Emit B) : bind fail k = fail.
Proof. reflexivity. Qed.

Lemma bind_deref_Some {T B : Type} (v : T) (k : T -> Emit B) : bind (deref (Some v)) k = k v.
Proof. reflexivity. Qed.

Lemma bind_deref_None {T B : Type} (k : T -> Emit B) : bind (deref None) k = fail.
Proof. reflexivity. Qed.

Lemma SkASSERT_true : SkASSERT true = ret tt.
Proof. reflexivity. Qed.

Lemma SkASSERT_false : SkASSERT false = fail.
Proof. reflexivity. Qed.

Ltac simpl_emit :=
  cbn [gatherer_present is_null negb Bool.eqb andb orb];
  unfold if_gatherer; cbn [gatherer_present];
  repeat (progress (rewrite ?SkASSERT_true, ?SkASSERT_false, ?bind_ret_l, ?bind_fail,
                      ?bind_deref_Some, ?bind_deref_None, ?andb_false_r, ?andb_true_r;
                    cbn beta iota)).

(** *** Computations that leave a component alone *)

Lemma preserves_ret {T A : Type} (c : Env -> T) (a : A) : preserves c (ret a).
Proof. intros env a' env' H. now inversion H. Qed.

Lemma preserves_fail {T A : Type} (c : Env -> T) : preserves c (@fail A).
Proof. intros env a env' H. discriminate. Qed.

Lemma preserves_deref {T U : Type} (c : Env -> T) (p : option U) : preserves c (deref p).
Proof. destruct p; [apply preserves_ret | apply preserves_fail]. Qed.

Lemma preserves_SkASSERT {T : Type} (c : Env -> T) b : preserves c (SkASSERT b).
Proof. destruct b; [apply preserves_ret | apply preserves_fail]. Qed.

Lemma preserves_builder_on_gatherer c : preserves builder (on_gatherer c).
Proof. intros env a env' H. now inversion H. Qed.

Lemma preserves_builder_rtEffectDict_set id e : preserves builder (rtEffectDict_set id e).
Proof. intros env a env' H. now inversion H. Qed.

Lemma preserves_gatherer_rtEffectDict_set id e : preserves gatherer (rtEffectDict_set id e).
Proof. intros env a env' H. now inversion H. Qed.

Lemma preserves_gatherer_beginBlock id : preserves gatherer (beginBlock id).
Proof. intros env a env' H. now inversion H. Qed.

Lemma preserves_gatherer_endBlock : preserves gatherer endBlock.
Proof. intros env a env' H. now inversion H. Qed.

Lemma preserves_bind {T A B : Type} (c : Env -> T) (m : Emit A) (k : A -> Emit B) :
  preserves c m -> (forall a, preserves c (k a)) -> preserves c (bind m k).
Proof.
  intros Hm Hk env b env' H.
  apply bind_inv in H as (a & env1 & H1 & H2).
  rewrite (Hk _ _ _ _ H2). exact (Hm _ _ _ H1).
Qed.

Lemma preserves_for_each {T A : Type} (c : Env -> T) (xs : list A) (body : A -> Emit unit) :
  (forall x, preserves c (body x)) -> preserves c (for_each xs body).
Proof.
  intros Hbody. induction xs as [|x xs IH].
  - apply preserves_ret.
  - change (for_each (x :: xs) body) with (bind (body x) (fun _ => for_each xs body)).
    apply preserves_bind; auto.
Qed.

Lemma preserves_UniformExpectationsValidator {T : Type} (c : Env -> T) expected body :
  preserves c body -> preserves c (UniformExpectationsValidator expected body).
Proof.
  intros H env a env' Hrun. unfold UniformExpectationsValidator in Hrun.
  destruct (body env) as [[u env1]|] eqn:Hbody; [|discriminate].
  destruct (conforms _ _); [|discriminate].
  injection Hrun as _ <-. exact (H _ _ _ Hbody).
Qed.

Create HintDb preserves.
#[local] Hint Resolve preserves_ret preserves_fail preserves_deref preserves_SkASSERT
  preserves_builder_on_gatherer preserves_builder_rtEffectDict_set
  preserves_gatherer_rtEffectDict_set preserves_gatherer_beginBlock
  preserves_gatherer_endBlock : preserves.

Ltac prove_preserves :=
  repeat first
    [ solve [auto with preserves]
    | progress cbv zeta
    | lazymatch goal with
      | |- preserves _ (UniformExpectationsValidator _ _) =>
          apply preserves_UniformExpectationsValidator
      | |- preserves _ (bind _ _) => apply preserves_bind; [|intros ?]
      | |- preserves _ (for_each _ _) => apply preserves_for_each; intros ?
      | |- preserves _ (if ?c then _ else _) => destruct c
      | |- preserves _ (match ?x with _ => _ end) => destruct x
      end
    | progress simpl_emit ].

(** *** Computations that begin one block *)

Lemma begins_beginBlock id : begins id (beginBlock id).
Proof. intros env env' H. rewrite beginBlock_extend in H. now inversion H. Qed.

Lemma begins_fail id : begins id fail.
Proof. intros env env' H. discriminate. Qed.

Lemma begins_bind {A : Type} id (m : Emit A) (k : A -> Emit unit) :
  preserves builder m -> (forall a, begins id (k a)) -> begins id (bind m k).
Proof.
  intros Hm Hk env env' H.
  apply bind_inv in H as (a & env1 & H1 & H2).
  unfold built. rewrite (Hk _ _ _ H2). now rewrite (Hm _ _ _ H1).
Qed.

Lemma begins_assoc {A B : Type} id (m : Emit A) (f : A -> Emit B) (k : B -> Emit unit) :
  begins id (bind m (fun a => bind (f a) k)) -> begins id (bind (bind m f) k).
Proof.
  intros H env env' Hrun. apply H. revert Hrun.
  unfold bind. destruct (m env) as [[a env1]|]; auto.
Qed.

Ltac prove_begins :=
  repeat first
    [ progress simpl_emit
    | progress cbv zeta
    | exact (begins_beginBlock _)
    | exact (begins_fail _)
    | lazymatch goal with
      | |- begins _ (bind (bind _ _) _) => apply begins_assoc
      | |- begins _ (bind _ _) => apply begins_bind; [solve [prove_preserves] | intros ?]
      | |- begins _ (if ?c then _ else _) => destruct c eqn:?
      | |- begins _ (match ?x with _ => _ end) => destruct x eqn:?
      end ].

(** *** Balanced call sequences *)

Lemma count_begin_app a b : count_begin (a ++ b) = (count_begin a + count_begin b)%nat.
Proof. unfold count_begin. now rewrite filter_app, length_app. Qed.

Lemma count_end_app a b : count_end (a ++ b) = (count_end a + count_end b)%nat.
Proof. unfold count_end. now rewrite filter_app, length_app. Qed.

Lemma balanced_nil : balanced [].
Proof.
  split; [reflexivity|]. intros p r H.
  symmetry in H. apply app_eq_nil in H as [-> _]. apply Nat.le_refl.
Qed.

Lemma balanced_app a b : balanced a -> balanced b -> balanced (a ++ b).
Proof.
  intros [Ea Pa] [Eb Pb]. split.
  - rewrite count_begin_app, count_end_app. lia.
  - intros p r H. symmetry in H. apply app_eq_app in H as [l [[-> ->]|[-> ->]]].
    + rewrite count_begin_app, count_end_app.
      specialize (Pb l r eq_refl). lia.
    + exact (Pa p l eq_refl).
Qed.

Lemma balanced_wrap id a : balanced a -> balanced (beginBlock_call id :: a ++ [endBlock_call]).
Proof.
  intros [Ea Pa]. split.
  - change (beginBlock_call id :: a ++ [endBlock_call])
      with ([beginBlock_call id] ++ a ++ [endBlock_call]).
    rewrite !count_begin_app, !count_end_app. cbn. lia.
  - intros [|c p] r H; [cbn; lia|].
    cbn in H. injection H as <- H.
    change (beginBlock_call id :: p) with ([beginBlock_call id] ++ p).
    rewrite count_begin_app, count_end_app. cbn.
    symmetry in H. apply app_eq_app in H as [l [[-> H]|[-> H]]].
    + rewrite count_begin_app, count_end_app.
      assert (count_end l <= 1)%nat.
      { destruct l as [|x [|y l]]; cbn in *; try lia.
        - injection H as <- _. cbn. lia.
        - inversion H. }
      lia.
    + specialize (Pa p l eq_refl). lia.
Qed.

Lemma Block_ind_nested (P : Block -> Prop) :
  (forall id children, Forall P children -> P (Block_node id children)) ->
  forall b, P b.
Proof.
  intros H. fix IH 1. intros [id children]. apply H.
  induction children as [|c cs IHcs]; constructor; [apply IH | exact IHcs].
Qed.

Lemma balanced_block b : balanced (block_calls b).
Proof.
  induction b as [id children IH] using Block_ind_nested.
  cbn [block_calls]. apply balanced_wrap.
  induction IH as [|c cs Hc _ IHcs]; [apply balanced_nil|].
  cbn [flat_map]. now apply balanced_app.
Qed.

Lemma balanced_forest blocks : balanced (forest_calls blocks).
Proof.
  induction blocks as [|b bs IH]; [apply balanced_nil|].
  change (forest_calls (b :: bs)) with (block_calls b ++ forest_calls bs).
  apply balanced_app; [apply balanced_block | exact IH].
Qed.

Section Facts.
Context {collab : Collaborators}.

Lemma add_color_space_uniforms_extend steps env :
  add_color_space_uniforms steps env
  = Some (tt, extend env [] (color_space_uniforms steps) []).
Proof.
  unfold add_color_space_uniforms, color_space_uniforms, transfer_slot, gamut_slot,
    SkMatrix_set9.
  destruct (linearize (flags steps)), (gamut_transform (flags steps)),
    (encode (flags steps)); run_emit; reflexivity.
Qed.

Lemma ColorSpaceTransformBlock_extend keyContext g data env :
  ColorSpaceTransformBlock_BeginBlock keyContext g (Some data) env
  = Some (tt, extend env [beginBlock_call kColorSpaceXformColorFilter]
                     (when_gatherer g (color_space_uniforms (fSteps data))) []).
Proof.
  unfold ColorSpaceTransformBlock_BeginBlock, add_color_space_xform_uniform_data, when_gatherer.
  destruct g; run_emit; [reflexivity|].
  rewrite add_color_space_uniforms_extend. run_emit. now rewrite app_nil_r.
Qed.

Lemma preserves_add_color_space_uniforms steps :
  preserves builder (add_color_space_uniforms steps).
Proof. unfold add_color_space_uniforms. prove_preserves. Qed.

Lemma preserves_add_gradient_preamble d : preserves builder (add_gradient_preamble d).
Proof. unfold add_gradient_preamble. prove_preserves. Qed.

Lemma preserves_add_gradient_postamble d : preserves builder (add_gradient_postamble d).
Proof. unfold add_gradient_postamble. prove_preserves. Qed.

#[local] Hint Resolve preserves_add_color_space_uniforms preserves_add_gradient_preamble
  preserves_add_gradient_postamble : preserves.

Lemma preserves_add_image_uniform_data d : preserves builder (add_image_uniform_data d).
Proof. unfold add_image_uniform_data. prove_preserves. Qed.

Lemma preserves_add_yuv_image_uniform_data d :
  preserves builder (add_yuv_image_uniform_data d).
Proof. unfold add_yuv_image_uniform_data. prove_preserves. Qed.

Lemma preserves_gather_runtime_effect_uniforms rts us data :
  preserves builder (gather_runtime_effect_uniforms rts us data).
Proof. unfold gather_runtime_effect_uniforms. prove_preserves. Qed.

Lemma preserves_add_linear_gradient_uniform_data id d :
  preserves builder (add_linear_gradient_uniform_data id d).
Proof. unfold add_linear_gradient_uniform_data. prove_preserves. Qed.

Lemma preserves_add_radial_gradient_uniform_data id d :
  preserves builder (add_radial_gradient_uniform_data id d).
Proof. unfold add_radial_gradient_uniform_data. prove_preserves. Qed.

Lemma preserves_add_sweep_gradient_uniform_data id d :
  preserves builder (add_sweep_gradient_uniform_data id d).
Proof. unfold add_sweep_gradient_uniform_data. prove_preserves. Qed.

Lemma preserves_add_conical_gradient_uniform_data id d :
  preserves builder (add_conical_gradient_uniform_data id d).
Proof. unfold add_conical_gradient_uniform_data. prove_preserves. Qed.

#[local] Hint Resolve preserves_add_image_uniform_data preserves_add_yuv_image_uniform_data
  preserves_gather_runtime_effect_uniforms preserves_add_linear_gradient_uniform_data
  preserves_add_radial_gradient_uniform_data preserves_add_sweep_gradient_uniform_data
  preserves_add_conical_gradient_uniform_data : preserves.

(** Every block writer that completes has begun exactly one block: its own
    or, when a gatherer is there and a texture is missing, the fallback. *)
Lemma BeginBlock_begins keyContext g w :
  begins (emitted_snippet keyContext g w) (BeginBlock keyContext g w).
Proof.
  unfold emitted_snippet, substitutes_fallback.
  destruct w; cbn [BeginBlock writer_snippet fallback_snippet].
  all: try match goal with d : option _ |- _ => destruct d end.
  all: destruct g; cbn [gatherer_present andb].
  all: unfold PriorOutputBlock_BeginBlock, SolidColorShaderBlock_BeginBlock,
         DstReadSampleBlock_BeginBlock, DstReadFetchBlock_BeginBlock,
         LocalMatrixShaderBlock_BeginBlock, ImageShaderBlock_BeginBlock,
         YUVImageShaderBlock_BeginBlock, CoordClampShaderBlock_BeginBlock,
         DitherShaderBlock_BeginBlock, PerlinNoiseShaderBlock_BeginBlock,
         BlendShaderBlock_BeginBlock, BlendModeBlenderBlock_BeginBlock,
         CoeffBlenderBlock_BeginBlock, DstColorBlock_BeginBlock,
         PrimitiveColorBlock_BeginBlock, ColorFilterShaderBlock_BeginBlock,
         MatrixColorFilterBlock_BeginBlock, ComposeColorFilterBlock_BeginBlock,
         GaussianColorFilterBlock_BeginBlock, TableColorFilterBlock_BeginBlock,
         ColorSpaceTransformBlock_BeginBlock, RuntimeEffectBlock_BeginBlock,
         PriorOutputBlock_BeginBlock, SolidColorShaderBlock_BeginBlock,
         add_solid_uniform_data, add_dst_read_sample_uniform_data,
         add_localmatrixshader_uniform_data, add_coordclamp_uniform_data,
         add_dither_uniform_data, add_perlin_noise_uniform_data,
         add_matrix_colorfilter_uniform_data, add_table_colorfilter_uniform_data,
         add_color_space_xform_uniform_data.
  all: try solve [prove_begins].
  all: try solve [simpl_emit; match goal with |- context [if ?c then _ else _] =>
                    destruct c end; prove_begins].
  all: unfold GradientShaderBlocks_BeginBlock, stop_path;
       match goal with |- context [fType ?d] =>
         destruct (fType d); cbv zeta; cbn [gradient_snippet];
         (destruct (fNumStops d <=? 4); [|destruct (fNumStops d <=? 8)])
       end;
       cbn [gradient_snippet]; prove_begins.
Qed.

(** *** Whole blocks *)

Lemma built_refl env : built env env [].
Proof. unfold built. now rewrite app_nil_r. Qed.

Lemma built_trans e0 e1 e2 b1 b2 :
  built e0 e1 b1 -> built e1 e2 b2 -> built e0 e2 (b1 ++ b2).
Proof. unfold built. intros H1 H2. now rewrite H2, H1, app_assoc. Qed.

Lemma built_endBlock env env' : endBlock env = Some (tt, env') -> built env env' [endBlock_call].
Proof. rewrite endBlock_extend. intros H. now inversion H. Qed.

Lemma forest_calls_app f1 f2 : forest_calls (f1 ++ f2) = forest_calls f1 ++ forest_calls f2.
Proof. apply flat_map_app. Qed.

Lemma forest_calls_cons b f : forest_calls (b :: f) = block_calls b ++ forest_calls f.
Proof. reflexivity. Qed.

Lemma block_calls_node id children :
  block_calls (Block_node id children)
  = [beginBlock_call id] ++ forest_calls children ++ [endBlock_call].
Proof. reflexivity. Qed.

Lemma forest_calls_one b : forest_calls [b] = block_calls b.
Proof. unfold forest_calls. simpl. apply app_nil_r. Qed.

Lemma emits_forest_ret : emits_forest (ret tt).
Proof. intros env env' H. inversion H; subst. exists []. apply built_refl. Qed.

Lemma emits_forest_block m : emits_block m -> emits_forest m.
Proof.
  intros Hm env env' H. destruct (Hm _ _ H) as [b Hb].
  exists [b]. now rewrite forest_calls_one.
Qed.

Lemma emits_forest_bind m k :
  emits_forest m -> emits_forest k -> emits_forest (bind m (fun _ => k)).
Proof.
  intros Hm Hk env env' H.
  apply bind_inv in H as ([] & env1 & H1 & H2).
  destruct (Hm _ _ H1) as [f1 B1]. destruct (Hk _ _ H2) as [f2 B2].
  exists (f1 ++ f2). rewrite forest_calls_app. eapply built_trans; eauto.
Qed.

Lemma emits_forest_for_each {A : Type} (xs : list A) (body : A -> Emit unit) :
  Forall (fun x => emits_forest (body x)) xs -> emits_forest (for_each xs body).
Proof.
  induction 1 as [|x xs Hx _ IH].
  - apply emits_forest_ret.
  - change (for_each (x :: xs) body) with (bind (body x) (fun _ => for_each xs body)).
    now apply emits_forest_bind.
Qed.

Lemma unwinds_endBlock : unwinds 1 endBlock.
Proof.
  intros env env' H. exists [endBlock_call]. split.
  - now apply built_endBlock.
  - exists [], []. split; reflexivity.
Qed.

Lemma unwinds_end_then n k : unwinds n k -> unwinds (S n) (bind endBlock (fun _ => k)).
Proof.
  intros Hk env env' H.
  apply bind_inv in H as ([] & env1 & H1 & H2).
  destruct (Hk _ _ H2) as (cs & B & U).
  exists ([endBlock_call] ++ cs). split.
  - eapply built_trans; eauto using built_endBlock.
  - exists [], cs. split; [reflexivity | assumption].
Qed.

Lemma unwinds_forest_then n m k :
  emits_forest m -> unwinds (S n) k -> unwinds (S n) (bind m (fun _ => k)).
Proof.
  intros Hm Hk env env' H.
  apply bind_inv in H as ([] & env1 & H1 & H2).
  destruct (Hm _ _ H1) as [f1 B1].
  destruct (Hk _ _ H2) as (cs & B & f2 & rest & -> & U).
  exists (forest_calls f1 ++ forest_calls f2 ++ endBlock_call :: rest). split.
  - eapply built_trans; eauto.
  - exists (f1 ++ f2), rest. split; [|assumption].
    now rewrite forest_calls_app, <- app_assoc.
Qed.

Lemma unwinds_begin_then n m k :
  begins_some m -> unwinds (S (S n)) k -> unwinds (S n) (bind m (fun _ => k)).
Proof.
  intros [id Hm] Hk env env' H.
  apply bind_inv in H as ([] & env1 & H1 & H2).
  pose proof (Hm _ _ H1) as B1.
  destruct (Hk _ _ H2) as (cs & B & f1 & rest1 & -> & f2 & rest2 & -> & U).
  eexists. split.
  - eapply built_trans; eauto.
  - exists (Block_node id f1 :: f2), rest2. split; [|assumption].
    rewrite forest_calls_cons. simpl. fold (forest_calls f1).
    now rewrite <- !app_assoc.
Qed.

Lemma unwinds_skip {A : Type} n (m : Emit A) (k : A -> Emit unit) :
  preserves builder m -> (forall a, unwinds n (k a)) -> unwinds n (bind m k).
Proof.
  intros Hm Hk env env' H.
  apply bind_inv in H as (a & env1 & H1 & H2).
  destruct (Hk _ _ _ H2) as (cs & B & U).
  exists cs. split; [|assumption].
  unfold built in *. now rewrite B, (Hm _ _ _ H1).
Qed.

Lemma emits_block_open m k :
  begins_some m -> unwinds 1 k -> emits_block (bind m (fun _ => k)).
Proof.
  intros [id Hm] Hk env env' H.
  apply bind_inv in H as ([] & env1 & H1 & H2).
  pose proof (Hm _ _ H1) as B1.
  destruct (Hk _ _ H2) as (cs & B & f & rest & -> & ->).
  exists (Block_node id f).
  exact (built_trans _ _ _ _ _ B1 B).
Qed.

Lemma emits_block_skip {A : Type} (m : Emit A) (k : A -> Emit unit) :
  preserves builder m -> (forall a, emits_block (k a)) -> emits_block (bind m k).
Proof.
  intros Hm Hk env env' H.
  apply bind_inv in H as (a & env1 & H1 & H2).
  destruct (Hk _ _ _ H2) as (b & B).
  exists b. unfold built in *. now rewrite B, (Hm _ _ _ H1).
Qed.

Lemma begins_some_BeginBlock keyContext g w : begins_some (BeginBlock keyContext g w).
Proof. eexists. apply BeginBlock_begins. Qed.

Lemma begins_some_PriorOutput k g : begins_some (PriorOutputBlock_BeginBlock k g).
Proof. exact (begins_some_BeginBlock k g PriorOutputBlock). Qed.

Lemma begins_some_SolidColor k g c : begins_some (SolidColorShaderBlock_BeginBlock k g c).
Proof. exact (begins_some_BeginBlock k g (SolidColorShaderBlock c)). Qed.

Lemma begins_some_BlendShader k g : begins_some (BlendShaderBlock_BeginBlock k g).
Proof. exact (begins_some_BeginBlock k g BlendShaderBlock). Qed.

Lemma begins_some_BlendModeBlender k g bm : begins_some (BlendModeBlenderBlock_BeginBlock k g bm).
Proof. exact (begins_some_BeginBlock k g (BlendModeBlenderBlock bm)). Qed.

Lemma begins_some_CoeffBlender k g cs : begins_some (CoeffBlenderBlock_BeginBlock k g cs).
Proof. exact (begins_some_BeginBlock k g (CoeffBlenderBlock cs)). Qed.

Lemma begins_some_DstColor k g : begins_some (DstColorBlock_BeginBlock k g).
Proof. exact (begins_some_BeginBlock k g DstColorBlock). Qed.

Lemma begins_some_PrimitiveColor k g : begins_some (PrimitiveColorBlock_BeginBlock k g).
Proof. exact (begins_some_BeginBlock k g PrimitiveColorBlock). Qed.

Lemma begins_some_MatrixColorFilter k g d : begins_some (MatrixColorFilterBlock_BeginBlock k g d).
Proof. exact (begins_some_BeginBlock k g (MatrixColorFilterBlock d)). Qed.

Lemma begins_some_Compose k g : begins_some (ComposeColorFilterBlock_BeginBlock k g).
Proof. exact (begins_some_BeginBlock k g ComposeColorFilterBlock). Qed.

Lemma begins_some_Gaussian k g : begins_some (GaussianColorFilterBlock_BeginBlock k g).
Proof. exact (begins_some_BeginBlock k g GaussianColorFilterBlock). Qed.

Lemma begins_some_Table k g d : begins_some (TableColorFilterBlock_BeginBlock k g d).
Proof. exact (begins_some_BeginBlock k g (TableColorFilterBlock d)). Qed.

Lemma begins_some_ColorSpaceTransform k g d :
  begins_some (ColorSpaceTransformBlock_BeginBlock k g d).
Proof. exact (begins_some_BeginBlock k g (ColorSpaceTransformBlock d)). Qed.

Lemma begins_some_RuntimeEffect k g d : begins_some (RuntimeEffectBlock_BeginBlock k g d).
Proof. exact (begins_some_BeginBlock k g (RuntimeEffectBlock d)). Qed.

Create HintDb begins.
#[local] Hint Resolve begins_some_PriorOutput begins_some_SolidColor begins_some_BlendShader
  begins_some_BlendModeBlender begins_some_CoeffBlender begins_some_DstColor
  begins_some_PrimitiveColor begins_some_MatrixColorFilter begins_some_Compose
  begins_some_Gaussian begins_some_Table begins_some_ColorSpaceTransform
  begins_some_RuntimeEffect : begins.

Ltac unwind :=
  repeat first
    [ exact unwinds_endBlock
    | progress cbv zeta
    | lazymatch goal with
      | |- unwinds _ (bind endBlock _) => apply unwinds_end_then
      | |- unwinds _ (bind _ _) =>
          first [ apply unwinds_begin_then; [solve [auto with begins] |]
                | apply unwinds_forest_then; [solve [auto] |]
                | apply unwinds_skip; [solve [prove_preserves] | intros ?] ]
      | |- emits_block (bind _ _) =>
          first [ apply emits_block_open; [solve [auto with begins] |]
                | apply emits_block_skip; [solve [prove_preserves] | intros ?] ]
      | |- emits_block (if ?c then _ else _) => destruct c
      | |- emits_block (match ?x with _ => _ end) => destruct x
      end ].

(** *** The dispatchers emit whole blocks *)

Section Dispatch.
Variable keyContext : KeyContext.
Variable g : GathererPtr.
Hypothesis shaders : shader_well_nested.

Let Pb (b : SkBlender) : Prop := emits_block (AddToKey_SkBlender_switch keyContext g b).
Let Pf (f : SkColorFilter) : Prop := emits_block (AddToKey_SkColorFilter_switch keyContext g f).
Let Pc (c : ChildPtr) : Prop := emits_forest (AddToKey_ChildPtr keyContext g c).

Lemma emits_forest_nullable (p : option SkColorFilter) :
  if_nonnull Pf p ->
  emits_forest (match p with
                | None => ret tt
                | Some f => AddToKey_SkColorFilter_switch keyContext g f
                end).
Proof.
  destruct p; intros H; [now apply emits_forest_block | apply emits_forest_ret].
Qed.

Lemma emits_forest_children children childInfo :
  Forall Pc children ->
  emits_forest (AddChildrenToKey (AddToKey_ChildPtr keyContext g) children childInfo).
Proof. intros H. unfold AddChildrenToKey. now apply emits_forest_for_each. Qed.

Lemma AddColorBlendBlock_emits_block bm c :
  emits_block (AddColorBlendBlock keyContext g bm c).
Proof. unfold AddColorBlendBlock. unwind. Qed.

Lemma dispatch_BlendModeBlender mode : Pb (SkBlendModeBlender mode).
Proof.
  unfold Pb. cbn [AddToKey_SkBlender_switch]. unfold add_to_key_SkBlendModeBlender. unwind.
Qed.

Lemma dispatch_RuntimeBlender effect uniforms children :
  Forall Pc children -> Pb (SkRuntimeBlender effect uniforms children).
Proof.
  intros H. pose proof (emits_forest_children children) as Hc.
  unfold Pb. cbn [AddToKey_SkBlender_switch]. unfold add_to_key_SkRuntimeBlender. unwind.
Qed.

Lemma dispatch_Noop : Pf SkNoopColorFilter.
Proof. unfold Pf. cbn [AddToKey_SkColorFilter_switch]. unwind. Qed.

Lemma dispatch_BlendMode color mode : Pf (SkBlendModeColorFilter color mode).
Proof.
  unfold Pf. cbn [AddToKey_SkColorFilter_switch]. cbv zeta.
  unfold add_to_key_SkBlendModeColorFilter. apply AddColorBlendBlock_emits_block.
Qed.

Lemma dispatch_ColorSpaceXform src dst : Pf (SkColorSpaceXformColorFilter src dst).
Proof.
  unfold Pf. cbn [AddToKey_SkColorFilter_switch].
  unfold add_to_key_SkColorSpaceXformColorFilter. unwind.
Qed.

Lemma dispatch_Compose outer inner :
  if_nonnull Pf outer -> if_nonnull Pf inner -> Pf (SkComposeColorFilter outer inner).
Proof.
  intros Ho Hi. apply emits_forest_nullable in Ho, Hi.
  unfold Pf. cbn [AddToKey_SkColorFilter_switch].
  unfold add_to_key_SkComposeColorFilter. unwind.
Qed.

Lemma dispatch_Gaussian : Pf SkGaussianColorFilter.
Proof.
  unfold Pf. cbn [AddToKey_SkColorFilter_switch].
  unfold add_to_key_SkGaussianColorFilter. unwind.
Qed.

Lemma dispatch_Matrix matrix domain : Pf (SkMatrixColorFilter matrix domain).
Proof.
  unfold Pf. cbn [AddToKey_SkColorFilter_switch].
  unfold add_to_key_SkMatrixColorFilter. unwind.
Qed.

Lemma dispatch_Runtime effect uniforms children :
  Forall Pc children -> Pf (SkRuntimeColorFilter effect uniforms children).
Proof.
  intros H. pose proof (emits_forest_children children) as Hc.
  unfold Pf. cbn [AddToKey_SkColorFilter_switch].
  unfold add_to_key_SkRuntimeColorFilter. unwind.
Qed.

Lemma dispatch_Table bitmap : Pf (SkTableColorFilter bitmap).
Proof.
  unfold Pf. cbn [AddToKey_SkColorFilter_switch].
  unfold add_to_key_SkTableColorFilter. unwind.
Qed.

Lemma dispatch_WorkingFormat child workingFormat :
  if_nonnull Pf child -> Pf (SkWorkingFormatColorFilter child workingFormat).
Proof.
  intros Hc. apply emits_forest_nullable in Hc.
  unfold Pf. cbn [AddToKey_SkColorFilter_switch].
  unfold add_to_key_SkWorkingFormatColorFilter. unwind.
Qed.

Lemma dispatch_null : Pc ChildPtr_null.
Proof. apply emits_forest_ret. Qed.

Lemma dispatch_shader shader : Pc (ChildPtr_shader shader).
Proof. intros env env' H. exact (shaders _ _ _ _ _ H). Qed.

Lemma dispatch_blender blender : Pb blender -> Pc (ChildPtr_blender blender).
Proof. apply emits_forest_block. Qed.

Lemma dispatch_colorFilter f : Pf f -> Pc (ChildPtr_colorFilter f).
Proof. apply emits_forest_block. Qed.

(** A non-null blender or color filter that completes has emitted exactly
    one whole block. *)
Lemma SkBlender_emits_block blender :
  emits_block (AddToKey_SkBlender_switch keyContext g blender).
Proof.
  apply (SkBlender_induction Pb Pf Pc);
    auto using dispatch_BlendModeBlender, dispatch_RuntimeBlender, dispatch_Noop,
      dispatch_BlendMode, dispatch_ColorSpaceXform, dispatch_Compose, dispatch_Gaussian,
      dispatch_Matrix, dispatch_Runtime, dispatch_Table, dispatch_WorkingFormat,
      dispatch_null, dispatch_shader, dispatch_blender, dispatch_colorFilter.
Qed.

Lemma SkColorFilter_emits_block filter :
  emits_block (AddToKey_SkColorFilter_switch keyContext g filter).
Proof.
  apply (SkColorFilter_induction Pb Pf Pc);
    auto using dispatch_BlendModeBlender, dispatch_RuntimeBlender, dispatch_Noop,
      dispatch_BlendMode, dispatch_ColorSpaceXform, dispatch_Compose, dispatch_Gaussian,
      dispatch_Matrix, dispatch_Runtime, dispatch_Table, dispatch_WorkingFormat,
      dispatch_null, dispatch_shader, dispatch_blender, dispatch_colorFilter.
Qed.

Lemma AddToKey_SkBlender_emits_forest blender :
  emits_forest (AddToKey_SkBlender keyContext g blender).
Proof.
  destruct blender; [apply emits_forest_block, SkBlender_emits_block | apply emits_forest_ret].
Qed.

Lemma AddToKey_SkColorFilter_emits_forest filter :
  emits_forest (AddToKey_SkColorFilter keyContext g filter).
Proof.
  destruct filter;
    [apply emits_forest_block, SkColorFilter_emits_block | apply emits_forest_ret].
Qed.

End Dispatch.

End Facts.

(** *** What the leaf writers of the composite shapes append *)

Lemma BlendShaderBlock_extend k g env :
  BlendShaderBlock_BeginBlock k g env = Some (tt, extend env [beginBlock_call kBlendShader] [] []).
Proof. unfold BlendShaderBlock_BeginBlock. destruct g; run_emit; reflexivity. Qed.

Lemma PriorOutputBlock_extend k g env :
  PriorOutputBlock_BeginBlock k g env = Some (tt, extend env [beginBlock_call kPriorOutput] [] []).
Proof. unfold PriorOutputBlock_BeginBlock. run_emit; reflexivity. Qed.

Lemma DstColorBlock_extend k g env :
  DstColorBlock_BeginBlock k g env = Some (tt, extend env [beginBlock_call kDstColor] [] []).
Proof. unfold DstColorBlock_BeginBlock. destruct g; run_emit; reflexivity. Qed.

Lemma PrimitiveColorBlock_extend k g env :
  PrimitiveColorBlock_BeginBlock k g env
  = Some (tt, extend env [beginBlock_call kPrimitiveColor] [] []).
Proof. unfold PrimitiveColorBlock_BeginBlock. destruct g; run_emit; reflexivity. Qed.

Lemma ComposeColorFilterBlock_extend k g env :
  ComposeColorFilterBlock_BeginBlock k g env
  = Some (tt, extend env [beginBlock_call kComposeColorFilter] [] []).
Proof. unfold ComposeColorFilterBlock_BeginBlock. run_emit; reflexivity. Qed.

Lemma SolidColorShaderBlock_extend k g c env :
  SolidColorShaderBlock_BeginBlock k g c env
  = Some (tt, extend env [beginBlock_call kSolidColorShader]
                     (when_gatherer g [write_SkPMColor4f c]) []).
Proof.
  unfold SolidColorShaderBlock_BeginBlock, add_solid_uniform_data, when_gatherer.
  destruct g; run_emit; reflexivity.
Qed.

Lemma BlendModeBlenderBlock_extend k g bm env :
  BlendModeBlenderBlock_BeginBlock k g bm env
  = Some (tt, extend env [beginBlock_call kBlendModeBlender]
                     (when_gatherer g [write_int bm]) []).
Proof.
  unfold BlendModeBlenderBlock_BeginBlock, when_gatherer.
  destruct g; run_emit; reflexivity.
Qed.

Lemma AddColorBlendBlock_extend k g bm c env :
  AddColorBlendBlock k g bm c env
  = Some (tt, extend env
                (block_calls
                   (Block_node kBlendShader
                      [Block_node kSolidColorShader []; Block_node kPriorOutput [];
                       Block_node kBlendModeBlender []]))
                (when_gatherer g [write_SkPMColor4f c; write_int bm]) []).
Proof.
  unfold AddColorBlendBlock, bind.
  rewrite BlendShaderBlock_extend, SolidColorShaderBlock_extend, endBlock_extend,
    PriorOutputBlock_extend, endBlock_extend, BlendModeBlenderBlock_extend,
    !endBlock_extend.
  rewrite !extend_extend. unfold when_gatherer. destruct g; reflexivity.
Qed.

(** One step of a completed sequence. *)
Ltac step H :=
  let e := fresh "env" in
  let H1 := fresh "Hstep" in
  apply bind_inv in H as ([] & e & H1 & H);
  cbv zeta in H1;
  rewrite ?BlendShaderBlock_extend, ?PriorOutputBlock_extend, ?DstColorBlock_extend,
    ?PrimitiveColorBlock_extend, ?ComposeColorFilterBlock_extend,
    ?ColorSpaceTransformBlock_extend, ?endBlock_extend in H1;
  try (injection H1 as <-).

(** *** The stop arrays after padding *)

Lemma in_int_range lo hi j : In j (int_range lo hi) <-> lo <= j < hi.
Proof.
  unfold int_range. rewrite in_map_iff. split.
  - intros (k & <- & Hk). apply in_seq in Hk. lia.
  - intros H. exists (Z.to_nat (j - lo)). split; [lia|]. apply in_seq. lia.
Qed.

Lemma pad_fold_spec (n : Z) (l : list Z) :
  (forall i, In i l -> i <> n - 1) ->
  forall (cs : array SkPMColor4f) (os : array float) cs' os',
    fold_left
      (fun '(colors, offsets) i =>
         (array_set colors i (colors (n - 1)), array_set offsets i (offsets (n - 1))))
      l (cs, os) = (cs', os') ->
    forall j,
      (In j l -> cs' j = cs (n - 1) /\ os' j = os (n - 1)) /\
      (~ In j l -> cs' j = cs j /\ os' j = os j).
Proof.
  induction l as [|i l IH]; intros Hl cs os cs' os' Hfold j.
  - cbn in Hfold. injection Hfold as <- <-. split; [intros [] | auto].
  - cbn [fold_left] in Hfold.
    assert (Hi : i <> n - 1) by (apply Hl; now left).
    assert (Hl' : forall i', In i' l -> i' <> n - 1) by (intros; apply Hl; now right).
    specialize (IH Hl' _ _ _ _ Hfold j) as [IHin IHout].
    assert (Hc : array_set cs i (cs (n - 1)) (n - 1) = cs (n - 1)).
    { unfold array_set. destruct (Z.eqb_spec (n - 1) i); [congruence | reflexivity]. }
    assert (Ho : array_set os i (os (n - 1)) (n - 1) = os (n - 1)).
    { unfold array_set. destruct (Z.eqb_spec (n - 1) i); [congruence | reflexivity]. }
    rewrite Hc, Ho in IHin.
    destruct (in_dec Z.eq_dec j l) as [Hin | Hout].
    + split; [intros _; now apply IHin | intros H; exfalso; apply H; now right].
    + specialize (IHout Hout). unfold array_set in IHout.
      destruct (Z.eqb_spec j i) as [-> | Hne].
      * split; [intros _; exact IHout | intros H; exfalso; apply H; now left].
      * split; [intros [H | H]; [congruence | contradiction] | intros _; exact IHout].
Qed.

Lemma extend_stops_spec n cs os cs' os' :
  extend_stops n (cs, os) = (cs', os') ->
  forall j,
    (n <= j < kNumInternalStorageStops -> cs' j = cs (n - 1) /\ os' j = os (n - 1)) /\
    (j < n -> cs' j = cs j /\ os' j = os j).
Proof.
  intros H j. unfold extend_stops in H.
  assert (Hl : forall i, In i (int_range n kNumInternalStorageStops) -> i <> n - 1).
  { intros i Hi. apply in_int_range in Hi. lia. }
  destruct (pad_fold_spec n _ Hl _ _ _ _ H j) as [Hin Hout].
  split; intros Hj.
  - apply Hin, in_int_range, Hj.
  - apply Hout. rewrite in_int_range. lia.
Qed.

(** *** Conversions that always complete *)

Lemma completes_ret : completes (ret tt).
Proof. intros env. now exists env. Qed.

Lemma completes_bind m k : completes m -> completes k -> completes (bind m (fun _ => k)).
Proof.
  intros Hm Hk env. destruct (Hm env) as [env1 H1]. destruct (Hk env1) as [env2 H2].
  exists env2. unfold bind. now rewrite H1.
Qed.

Lemma completes_extend m :
  (forall env, exists bs gs ds, m env = Some (tt, extend env bs gs ds)) -> completes m.
Proof. intros H env. destruct (H env) as (bs & gs & ds & E). eauto. Qed.

Lemma completes_endBlock : completes endBlock.
Proof. apply completes_extend. intros env. rewrite endBlock_extend. eauto. Qed.

Section Completion.
Context {collab : Collaborators}.
Variable keyContext : KeyContext.

Lemma completes_Compose g : completes (ComposeColorFilterBlock_BeginBlock keyContext g).
Proof. apply completes_extend. intros env. rewrite ComposeColorFilterBlock_extend. eauto. Qed.

Lemma completes_PriorOutput g : completes (PriorOutputBlock_BeginBlock keyContext g).
Proof. apply completes_extend. intros env. rewrite PriorOutputBlock_extend. eauto. Qed.

Lemma completes_ColorSpaceTransform g data :
  completes (ColorSpaceTransformBlock_BeginBlock keyContext g (Some data)).
Proof. apply completes_extend. intros env. rewrite ColorSpaceTransformBlock_extend. eauto. Qed.

Lemma completes_nullable g (p : option SkColorFilter) :
  if_nonnull (fun f => no_runtime_effect f = true ->
                       completes (AddToKey_SkColorFilter_switch keyContext g f)) p ->
  match p with Some f => no_runtime_effect f | None => true end = true ->
  completes (match p with
             | Some f => AddToKey_SkColorFilter_switch keyContext g f
             | None => ret tt
             end).
Proof. destruct p; cbn; intros H E; [now apply H | apply completes_ret]. Qed.

(** With a gatherer, a color filter built without runtime effects is
    always converted: no assertion of the writers it goes through fails. *)
Lemma static_filter_completes filter :
  no_runtime_effect filter = true ->
  completes (AddToKey_SkColorFilter_switch keyContext gatherer_ptr filter).
Proof.
  apply (SkColorFilter_induction
           (fun _ => True)
           (fun f => no_runtime_effect f = true ->
                     completes (AddToKey_SkColorFilter_switch keyContext gatherer_ptr f))
           (fun _ => True)); auto.
  - intros _. cbn [AddToKey_SkColorFilter_switch].
    apply completes_bind; auto using completes_PriorOutput, completes_endBlock.
  - intros color mode _. cbn [AddToKey_SkColorFilter_switch].
    unfold add_to_key_SkBlendModeColorFilter. apply completes_extend. intros env.
    rewrite AddColorBlendBlock_extend. eauto.
  - intros src dst _. cbn [AddToKey_SkColorFilter_switch].
    unfold add_to_key_SkColorSpaceXformColorFilter.
    apply completes_bind; auto using completes_ColorSpaceTransform, completes_endBlock.
  - intros outer inner Ho Hi E. cbn [no_runtime_effect] in E.
    apply andb_true_iff in E as [Eo Ei].
    cbn [AddToKey_SkColorFilter_switch]. unfold add_to_key_SkComposeColorFilter.
    repeat lazymatch goal with
           | |- completes (bind _ _) => apply completes_bind
           end;
      auto using completes_Compose, completes_endBlock, completes_nullable.
  - intros _. cbn [AddToKey_SkColorFilter_switch].
    apply completes_extend. intros env.
    unfold add_to_key_SkGaussianColorFilter, GaussianColorFilterBlock_BeginBlock.
    run_emit. eauto.
  - intros matrix domain _. cbn [AddToKey_SkColorFilter_switch].
    apply completes_extend. intros env.
    unfold add_to_key_SkMatrixColorFilter, MatrixColorFilterBlock_BeginBlock,
      add_matrix_colorfilter_uniform_data.
    run_emit. eauto.
  - intros effect uniforms children _ E. discriminate E.
  - intros bitmap _. cbn [AddToKey_SkColorFilter_switch].
    apply completes_extend. intros env.
    unfold add_to_key_SkTableColorFilter, TableColorFilterBlock_BeginBlock,
      PriorOutputBlock_BeginBlock, add_table_colorfilter_uniform_data.
    cbv zeta. destruct (CreateCachedProxy (recorder keyContext) bitmap);
      cbn [table_fTextureProxy]; run_emit; eauto.
  - intros child workingFormat Hc E. cbn [no_runtime_effect] in E.
    cbn [AddToKey_SkColorFilter_switch]. unfold add_to_key_SkWorkingFormatColorFilter.
    cbv zeta. destruct (workingFormat _) as [workingCS workingAT].
    repeat lazymatch goal with
           | |- completes (bind _ _) => apply completes_bind
           end;
      auto using completes_Compose, completes_endBlock, completes_nullable,
        completes_ColorSpaceTransform.
Qed.

(** Without a gatherer the matrix filter cannot be converted:
    [add_to_key] always passes a payload, against the writer's assertion
    that payload and gatherer are null together. *)
Remark matrix_filter_needs_gatherer matrix domain env :
  AddToKey_SkColorFilter keyContext nullptr (Some (SkMatrixColorFilter matrix domain)) env
  = None.
Proof. reflexivity. Qed.

End Completion.

(** The full gradient constructor returns a value whenever its assertions
    hold and the caller's arrays cover the stops. *)
Lemma GradientData_ctor_completes
    raw_colors raw_offsets type point0 point1 radius0 radius1 bias scale tm
    numStops colors offsets proxy interp :
  1 <= numStops ->
  (numStops <= kNumInternalStorageStops ->
   numStops <= Z.of_nat (length colors) /\
   match offsets with Some offs => numStops <= Z.of_nat (length offs) | None => True end) ->
  (kNumInternalStorageStops < numStops -> proxy <> None) ->
  exists gradData,
    GradientData_ctor raw_colors raw_offsets type point0 point1 radius0 radius1
      bias scale tm numStops colors offsets proxy interp = Some gradData.
Proof.
  intros H1 Hinline Htexture. unfold GradientData_ctor.
  destruct (Z.leb_spec 1 numStops); [cbn [negb] | lia].
  destruct (Z.leb_spec numStops kNumInternalStorageStops) as [H8|H8].
  - destruct (Hinline H8) as [Hc Ho].
    destruct (Z.ltb_spec (Z.of_nat (length colors)) numStops); [lia|].
    destruct offsets as [offs|].
    + destruct (Z.ltb_spec (Z.of_nat (length offs)) numStops); [lia|].
      destruct (extend_stops _ _); eauto.
    + destruct (extend_stops _ _); eauto.
  - destruct proxy; [cbn; eauto | now destruct (Htexture H8)].
Qed.

(* ================================================================== *)
(** ** Properties of the emitted streams *)

Section Properties.
Context {collab : Collaborators}.

(** C9: a null effect pointer handed to an [AddToKey] entry point (blender
    or color filter) is a no-op: the call completes and leaves the builder,
    the gatherer and the runtime-effect dictionary exactly as they were. *)
Theorem AddToKey_null_is_noop keyContext g env :
  AddToKey_SkBlender keyContext g None env = Some (tt, env) /\
  AddToKey_SkColorFilter keyContext g None env = Some (tt, env).
Proof. split; reflexivity. Qed.

(** C10: a color-space-xform color filter emits exactly one
    ColorSpaceTransform block, and the uniforms written for it are those of
    the transform steps computed from the filter's source color space to that
    same source color space, premul on both sides; the filter's destination
    color space plays no part. *)
Theorem ColorSpaceXform_filter_uses_src_twice keyContext g src dst env :
  AddToKey_SkColorFilter keyContext g (Some (SkColorSpaceXformColorFilter src dst)) env
  = Some (tt, extend env
                (block_calls (Block_node kColorSpaceXformColorFilter []))
                (when_gatherer g
                   (color_space_uniforms
                      (SkColorSpaceXformSteps_ctor src kPremul_SkAlphaType
                                                   src kPremul_SkAlphaType)))
                []).
Proof.
  cbn [AddToKey_SkColorFilter AddToKey_SkColorFilter_switch].
  unfold add_to_key_SkColorSpaceXformColorFilter, ColorSpaceTransformData_ctor. cbv zeta.
  unfold bind. rewrite ColorSpaceTransformBlock_extend, endBlock_extend.
  rewrite extend_extend. cbn [fSteps app block_calls flat_map].
  now rewrite app_nil_r.
Qed.

(** C7 (amended): whatever steps are enabled, [add_color_space_uniforms]
    issues the same six writes with the same shapes (mask, source
    transfer-function tag and seven half coefficients, a half 3x3 matrix,
    destination tag and seven half coefficients).  A disabled linearize or
    encode step writes the Invalid tag and seven zeros; a disabled gamut
    transform writes the default-constructed [SkMatrix]. *)
Theorem color_space_uniforms_fixed_layout steps env :
  add_color_space_uniforms steps env
  = Some (tt, extend env [] (color_space_uniforms steps) []) /\
  map call_shape (color_space_uniforms steps)
  = [shape_int; shape_int; shape_float true 7; shape_float true 9;
     shape_int; shape_float true 7] /\
  (forall tf, transfer_slot false tf
              = [write_int (skcms_TFType_to_int skcms_TFType_Invalid);
                 writeHalfArray (repeat f32_0 7)]) /\
  (forall m, gamut_slot false m = [writeHalf_SkMatrix SkMatrix_ctor]).
Proof.
  split; [apply add_color_space_uniforms_extend|].
  split; [|split; reflexivity].
  unfold color_space_uniforms, transfer_slot, gamut_slot.
  destruct (linearize (flags steps)), (encode (flags steps)); reflexivity.
Qed.

(** C1: for a linear, radial, sweep or conical gradient, [BeginBlock]
    begins the 4-stop snippet of the type when there are at most 4 stops, the
    8-stop snippet when there are 5 to 8, the texture snippet otherwise; and
    the uniforms agree with that choice: four colors and one float4 of
    offsets, eight colors and two float4 of offsets, or no inline stops but
    the stops texture binding and the stop count. *)
Theorem gradient_dispatch_policy keyContext g gradData env
    (Hgradient : fType gradData <> GT_kNone)
    (Hproxy : gatherer_present g = true -> 8 < fNumStops gradData ->
              fColorsAndOffsetsProxy gradData <> None) :
  GradientShaderBlocks_BeginBlock keyContext g gradData env
  = Some (tt, extend env
                [beginBlock_call
                   (gradient_snippet (fType gradData) (stop_path (fNumStops gradData)))]
                (when_gatherer g (gradient_uniforms gradData)) [])
  /\ (fNumStops gradData <= 4 -> stop_path (fNumStops gradData) = FourStops)
  /\ (4 < fNumStops gradData <= 8 -> stop_path (fNumStops gradData) = EightStops)
  /\ (8 < fNumStops gradData -> stop_path (fNumStops gradData) = TextureStops)
  /\ length (span (fColors gradData) 4) = 4%nat
  /\ length (span (fOffsets gradData) 4) = 4%nat
  /\ length (span (fColors gradData) 8) = 8%nat
  /\ length (span (fOffsets gradData) 8) = 8%nat.
Proof.
  split.
  2: { unfold stop_path. repeat split; try reflexivity; intros H.
       - destruct (Z.leb_spec (fNumStops gradData) 4); [reflexivity | lia].
       - destruct (Z.leb_spec (fNumStops gradData) 4); [lia|].
         destruct (Z.leb_spec (fNumStops gradData) 8); [reflexivity | lia].
       - destruct (Z.leb_spec (fNumStops gradData) 4); [lia|].
         destruct (Z.leb_spec (fNumStops gradData) 8); [lia | reflexivity]. }
  unfold GradientShaderBlocks_BeginBlock, gradient_uniforms, stop_path, when_gatherer,
    gradient_geometry, gradient_trailer, kNumInternalStorageStops.
  unfold add_linear_gradient_uniform_data, add_radial_gradient_uniform_data,
    add_sweep_gradient_uniform_data, add_conical_gradient_uniform_data,
    add_gradient_preamble, add_gradient_postamble, kNumInternalStorageStops.
  assert (Hp : gatherer_present g = true -> (8 <? fNumStops gradData) = true ->
               is_null (fColorsAndOffsetsProxy gradData) = false).
  { intros Hg Hn. apply Z.ltb_lt in Hn.
    destruct (fColorsAndOffsetsProxy gradData); [reflexivity|].
    now destruct (Hproxy Hg Hn). }
  destruct (fType gradData); [congruence| | | |];
    destruct g; cbn [gatherer_present andb] in *;
    destruct (Z.leb_spec (fNumStops gradData) 4) as [H4|H4];
    destruct (Z.leb_spec (fNumStops gradData) 8) as [H8|H8]; try lia;
    destruct (Z.ltb_spec 8 (fNumStops gradData)) as [H9|H9]; try lia;
    try rewrite (Hp eq_refl eq_refl);
    cbv zeta; cbn [gradient_snippet]; run_emit; rewrite ?andb_false_r; run_emit;
    try reflexivity.
Qed.

(** C2 (amended): with a gatherer, an image shader whose texture
    reference is null is converted to the solid-color block carrying the
    fixed error color, not to the image-shader block.  Key-only there is no
    substitution: the writer is called without a payload and begins the
    image-shader block (called with a payload and no gatherer it violates
    its assertion).  A table color filter whose LUT proxy cannot be created
    is converted to a pass-through (PriorOutput) block, not to the
    table-color-filter block, in either gatherer mode. *)
Theorem missing_texture_fallbacks keyContext g env imgData bitmap :
  (img_fTextureProxy imgData = None ->
   ImageShaderBlock_BeginBlock keyContext gatherer_ptr (Some imgData) env
   = Some (tt, extend env [beginBlock_call kSolidColorShader]
                          [write_SkPMColor4f kErrorColor] []))
  /\ ImageShaderBlock_BeginBlock keyContext nullptr None env
     = Some (tt, extend env [beginBlock_call kImageShader] [] [])
  /\ ImageShaderBlock_BeginBlock keyContext nullptr (Some imgData) env = None
  /\ (CreateCachedProxy (recorder keyContext) bitmap = None ->
      AddToKey_SkColorFilter keyContext g (Some (SkTableColorFilter bitmap)) env
      = Some (tt, extend env (block_calls (Block_node kPriorOutput [])) [] [])).
Proof.
  split; [|split; [|split]].
  - intros Himage.
    unfold ImageShaderBlock_BeginBlock, SolidColorShaderBlock_BeginBlock,
      add_solid_uniform_data.
    run_emit. rewrite Himage. run_emit. reflexivity.
  - unfold ImageShaderBlock_BeginBlock. run_emit. reflexivity.
  - reflexivity.
  - intros Htable.
    cbn [AddToKey_SkColorFilter AddToKey_SkColorFilter_switch].
    unfold add_to_key_SkTableColorFilter, PriorOutputBlock_BeginBlock.
    rewrite Htable. run_emit. reflexivity.
Qed.

(** C3: whatever blender or color filter is handed to an [AddToKey] entry
    point, the calls a completed conversion has issued on the key builder
    hold as many [endBlock] as [beginBlock], and no prefix of them holds
    more [endBlock] than [beginBlock]; they are in fact the calls of a
    sequence of whole blocks.  Shader children of runtime effects are
    emitted by the shader hierarchy, which is required to emit whole
    blocks. *)
Theorem AddToKey_balanced keyContext g blender filter env env1 env2
    (Hshaders : shader_well_nested)
    (Hblender : AddToKey_SkBlender keyContext g blender env = Some (tt, env1))
    (Hfilter : AddToKey_SkColorFilter keyContext g filter env = Some (tt, env2)) :
  (exists blocks, built env env1 (forest_calls blocks) /\ balanced (forest_calls blocks)) /\
  (exists blocks, built env env2 (forest_calls blocks) /\ balanced (forest_calls blocks)).
Proof.
  destruct (AddToKey_SkBlender_emits_forest keyContext g Hshaders blender _ _ Hblender)
    as [fb Hb].
  destruct (AddToKey_SkColorFilter_emits_forest keyContext g Hshaders filter _ _ Hfilter)
    as [ff Hf].
  split; [exists fb | exists ff]; auto using balanced_forest.
Qed.

(** C5 (amended): [AddDstBlendBlock] and [AddPrimitiveBlendBlock] emit one
    BlendShader block whose children are, in order, a prior-output block, the
    destination block (destination color, resp. primitive color) and what
    [AddToKey] emits for the blender, which is one block for a non-null
    blender and nothing for a null one.  [AddColorBlendBlock] emits one BlendShader block with
    exactly three children in the order solid color (source), prior output
    (destination), blend-mode blender. *)
Theorem blend_block_shapes keyContext g blender bm srcColor env envD envP
    (Hshaders : shader_well_nested)
    (Hdst : AddDstBlendBlock keyContext g blender env = Some (tt, envD))
    (Hprim : AddPrimitiveBlendBlock keyContext g blender env = Some (tt, envP)) :
  (exists blenderBlocks before after,
      built env envD
        (block_calls
           (Block_node kBlendShader
              ([Block_node kPriorOutput []; Block_node kDstColor []] ++ blenderBlocks)))
      /\ length blenderBlocks = (if is_null blender then 0%nat else 1%nat)
      /\ AddToKey_SkBlender keyContext g blender before = Some (tt, after)
      /\ built before after (forest_calls blenderBlocks)) /\
  (exists blenderBlocks before after,
      built env envP
        (block_calls
           (Block_node kBlendShader
              ([Block_node kPriorOutput []; Block_node kPrimitiveColor []] ++ blenderBlocks)))
      /\ length blenderBlocks = (if is_null blender then 0%nat else 1%nat)
      /\ AddToKey_SkBlender keyContext g blender before = Some (tt, after)
      /\ built before after (forest_calls blenderBlocks)) /\
  AddColorBlendBlock keyContext g bm srcColor env
  = Some (tt, extend env
                (block_calls
                   (Block_node kBlendShader
                      [Block_node kSolidColorShader []; Block_node kPriorOutput [];
                       Block_node kBlendModeBlender []]))
                (when_gatherer g [write_SkPMColor4f srcColor; write_int bm]) []).
Proof.
  assert (Hblender : forall e e',
             AddToKey_SkBlender keyContext g blender e = Some (tt, e') ->
             exists bs, built e e' (forest_calls bs)
                        /\ length bs = if is_null blender then 0%nat else 1%nat).
  { intros e e' H. destruct blender as [b|]; cbn [AddToKey_SkBlender is_null] in *.
    - destruct (SkBlender_emits_block keyContext g Hshaders b _ _ H) as [blk B].
      exists [blk]. now rewrite forest_calls_one.
    - inversion H; subst. exists []. split; [apply built_refl | reflexivity]. }
  split; [|split; [|apply AddColorBlendBlock_extend]].
  - unfold AddDstBlendBlock in Hdst. do 5 step Hdst.
    apply bind_inv in Hdst as ([] & e1 & Hb & Hend).
    rewrite endBlock_extend in Hend. injection Hend as <-.
    destruct (Hblender _ _ Hb) as (bs & B & L). exists bs. eexists _, e1.
    split; [|split; [exact L | split; [exact Hb | exact B]]].
    unfold built in *. cbn [builder extend] in *. rewrite B.
    rewrite block_calls_node, forest_calls_app, <- !app_assoc. reflexivity.
  - unfold AddPrimitiveBlendBlock in Hprim. do 5 step Hprim.
    apply bind_inv in Hprim as ([] & e1 & Hb & Hend).
    rewrite endBlock_extend in Hend. injection Hend as <-.
    destruct (Hblender _ _ Hb) as (bs & B & L). exists bs. eexists _, e1.
    split; [|split; [exact L | split; [exact Hb | exact B]]].
    unfold built in *. cbn [builder extend] in *. rewrite B.
    rewrite block_calls_node, forest_calls_app, <- !app_assoc. reflexivity.
Qed.

(** C6 (amended): a working-format color filter emits an outer Compose
    block whose two children are an inner Compose block and a
    color-space-transform block from the working space to the destination
    space; the inner Compose block holds a color-space-transform block from
    the destination space to the working space followed by the block of the
    child filter: one block when the child is non-null, none when it is
    null, the inner Compose block then having a single child.  The
    destination space is the key context's, sRGB when it has none. *)
Theorem working_format_nesting keyContext g child workingFormat env env'
    (Hshaders : shader_well_nested)
    (Hrun : AddToKey_SkColorFilter keyContext g
              (Some (SkWorkingFormatColorFilter child workingFormat)) env
            = Some (tt, env')) :
  let dstAT := alphaType (dstColorInfo keyContext) in
  let dstCS := match colorSpace (dstColorInfo keyContext) with
               | Some cs => Some cs
               | None => Some SkColorSpace_MakeSRGB
               end in
  let workingCS := fst (workingFormat dstCS) in
  let workingAT := snd (workingFormat dstCS) in
  exists env1 env2 childBlocks,
    env1 = extend env
             [beginBlock_call kComposeColorFilter; beginBlock_call kComposeColorFilter;
              beginBlock_call kColorSpaceXformColorFilter; endBlock_call]
             (when_gatherer g
                (color_space_uniforms
                   (SkColorSpaceXformSteps_ctor dstCS dstAT workingCS workingAT))) []
    /\ AddToKey_SkColorFilter keyContext g child env1 = Some (tt, env2)
    /\ built env1 env2 (forest_calls childBlocks)
    /\ length childBlocks = (if is_null child then 0%nat else 1%nat)
    /\ env' = extend env2
                [endBlock_call; beginBlock_call kColorSpaceXformColorFilter;
                 endBlock_call; endBlock_call]
                (when_gatherer g
                   (color_space_uniforms
                      (SkColorSpaceXformSteps_ctor workingCS workingAT dstCS dstAT))) []
    /\ built env env'
         (block_calls
            (Block_node kComposeColorFilter
               [Block_node kComposeColorFilter
                  (Block_node kColorSpaceXformColorFilter [] :: childBlocks);
                Block_node kColorSpaceXformColorFilter []])).
Proof.
  intros dstAT dstCS workingCS workingAT.
  cbn [AddToKey_SkColorFilter AddToKey_SkColorFilter_switch] in Hrun. cbv zeta in Hrun.
  unfold add_to_key_SkWorkingFormatColorFilter in Hrun. cbv zeta in Hrun.
  fold dstAT dstCS in Hrun.
  subst workingCS workingAT. destruct (workingFormat dstCS) as [workingCS workingAT].
  cbn [fst snd]. unfold ColorSpaceTransformData_ctor in Hrun.
  do 4 step Hrun.
  apply bind_inv in Hrun as ([] & env2 & Hchild & Hrun).
  do 3 step Hrun. rewrite endBlock_extend in Hrun. injection Hrun as <-.
  cbn [fSteps] in *. rewrite !extend_extend in Hchild. cbn [app] in Hchild.
  rewrite ?app_nil_r in Hchild.
  change (match child with
          | Some f' => AddToKey_SkColorFilter_switch keyContext g f'
          | None => ret tt
          end) with (AddToKey_SkColorFilter keyContext g child) in Hchild.
  assert (Hblocks : exists childBlocks,
             built (extend env
                      [beginBlock_call kComposeColorFilter;
                       beginBlock_call kComposeColorFilter;
                       beginBlock_call kColorSpaceXformColorFilter; endBlock_call]
                      (when_gatherer g
                         (color_space_uniforms
                            (SkColorSpaceXformSteps_ctor dstCS dstAT workingCS workingAT)))
                      [])
                   env2 (forest_calls childBlocks)
             /\ length childBlocks = if is_null child then 0%nat else 1%nat).
  { destruct child as [f|]; cbn [AddToKey_SkColorFilter is_null] in *.
    - destruct (SkColorFilter_emits_block keyContext g Hshaders f _ _ Hchild) as [blk B].
      exists [blk]. now rewrite forest_calls_one.
    - inversion Hchild; subst. exists []. split; [apply built_refl | reflexivity]. }
  destruct Hblocks as (childBlocks & Hbuilt & Hcount).
  eexists _, env2, childBlocks. split; [reflexivity|].
  split; [exact Hchild|]. split; [exact Hbuilt|]. split; [exact Hcount|].
  split; [rewrite !extend_extend; cbn [app]; now rewrite !app_nil_r|].
  unfold built in *. cbn [builder extend] in *. rewrite Hbuilt.
  rewrite !block_calls_node, !forest_calls_cons, !block_calls_node, <- !app_assoc.
  reflexivity.
Qed.

(** C4 (amended): for every block writer (a gradient writer being given
    a gradient of one of the four gradient types), the key-only call (null
    gatherer, payload pointers null) completes, issues no call on the
    gatherer and begins the writer's own snippet, whether or not the call
    with a gatherer would complete; a call with a gatherer that completes
    begins that same snippet, except where it puts a fallback block in its
    place: image and YUV image shaders with a missing texture (solid color),
    the dither shader whose LUT proxy cannot be created and the table color
    filter with a null proxy (prior output). *)
Theorem key_only_mode keyContext w env
    (Hgradient : forall gradData,
        w = GradientShaderBlocks gradData -> fType gradData <> GT_kNone) :
  (exists ds,
      BeginBlock keyContext nullptr (key_only w) env
      = Some (tt, extend env [beginBlock_call (writer_snippet keyContext w)] [] ds)) /\
  (forall envG,
      BeginBlock keyContext gatherer_ptr w env = Some (tt, envG) ->
      built env envG
        [beginBlock_call (if substitutes_fallback keyContext w
                          then BuiltIn (fallback_snippet w)
                          else writer_snippet keyContext w)]).
Proof.
  split; [|intros envG Hrun; exact (BeginBlock_begins keyContext gatherer_ptr w _ _ Hrun)].
  destruct w; cbn [key_only BeginBlock writer_snippet].
  all: try solve
    [ unfold PriorOutputBlock_BeginBlock, SolidColorShaderBlock_BeginBlock,
        DstReadSampleBlock_BeginBlock, DstReadFetchBlock_BeginBlock,
        LocalMatrixShaderBlock_BeginBlock, ImageShaderBlock_BeginBlock,
        YUVImageShaderBlock_BeginBlock, CoordClampShaderBlock_BeginBlock,
        DitherShaderBlock_BeginBlock, PerlinNoiseShaderBlock_BeginBlock,
        BlendShaderBlock_BeginBlock, BlendModeBlenderBlock_BeginBlock,
        CoeffBlenderBlock_BeginBlock, DstColorBlock_BeginBlock,
        PrimitiveColorBlock_BeginBlock, ColorFilterShaderBlock_BeginBlock,
        MatrixColorFilterBlock_BeginBlock, ComposeColorFilterBlock_BeginBlock,
        GaussianColorFilterBlock_BeginBlock, TableColorFilterBlock_BeginBlock,
        ColorSpaceTransformBlock_BeginBlock, RuntimeEffectBlock_BeginBlock;
      run_emit; eexists; reflexivity ].
  (* gradients: the type is a gradient type *)
  specialize (Hgradient gradData eq_refl).
  unfold GradientShaderBlocks_BeginBlock, stop_path, kNumInternalStorageStops in *.
  destruct (fType gradData); [congruence| | | |];
    (destruct (fNumStops gradData <=? 4); [|destruct (fNumStops gradData <=? 8)]);
    cbn [gatherer_present]; rewrite andb_false_r; run_emit; eexists; reflexivity.
Qed.

(** C8 (amended): a [GradientData] built by the full constructor has
    [numStops >= 1]; when [numStops] is at most the inline limit (8) its
    first [numStops] colors are the caller's and positions [numStops]
    through 7 of the color and offset arrays repeat the last stop; when
    [numStops] exceeds the limit it holds the caller's proxy, which is
    non-null.  The pre-compilation constructor [GradientData(type, numStops)]
    keeps [numStops] as given, with zeroed arrays and a null proxy. *)
Theorem GradientData_ctor_invariants
    raw_colors raw_offsets type point0 point1 radius0 radius1 bias scale tm
    numStops colors offsets proxy interp gradData
    (Hctor : GradientData_ctor raw_colors raw_offsets type point0 point1 radius0 radius1
               bias scale tm numStops colors offsets proxy interp = Some gradData) :
  fNumStops gradData = numStops /\
  1 <= numStops /\
  (numStops <= kNumInternalStorageStops ->
   (forall i, 0 <= i < numStops ->
              fColors gradData i = nth (Z.to_nat i) colors (raw_colors i)) /\
   (forall i, numStops <= i < kNumInternalStorageStops ->
              fColors gradData i = fColors gradData (numStops - 1) /\
              fOffsets gradData i = fOffsets gradData (numStops - 1))) /\
  (kNumInternalStorageStops < numStops ->
   fColorsAndOffsetsProxy gradData = proxy /\ proxy <> None) /\
  (forall t n, fNumStops (GradientData_precompile t n) = n /\
               fColorsAndOffsetsProxy (GradientData_precompile t n) = None /\
               (forall i, fColors (GradientData_precompile t n) i = SkPMColor4f_zero /\
                          fOffsets (GradientData_precompile t n) i = f32_0)).
Proof.
  unfold GradientData_ctor in Hctor.
  destruct (Z.leb_spec 1 numStops) as [H1|H1]; [cbn [negb] in Hctor | discriminate].
  destruct (Z.leb_spec numStops kNumInternalStorageStops) as [H8|H8].
  - destruct (Z.of_nat (length colors) <? numStops); [discriminate|].
    match type of Hctor with
    | match ?o with _ => _ end = _ => destruct o as [os|] eqn:Hos; [|discriminate]
    end.
    destruct (extend_stops numStops (array_memcpy raw_colors colors numStops, os))
      as [cs' os'] eqn:Hext.
    injection Hctor as <-. cbn [fNumStops fColors fOffsets fColorsAndOffsetsProxy].
    pose proof (extend_stops_spec _ _ _ _ _ Hext) as Hpad.
    split; [reflexivity|]. split; [exact H1|]. split; [|split; [lia|]].
    + intros _. split; intros i Hi.
      * destruct (Hpad i) as [_ Hlow]. destruct (Hlow ltac:(lia)) as [-> _].
        unfold array_memcpy.
        destruct (Z.leb_spec 0 i), (Z.ltb_spec i numStops); try lia. reflexivity.
      * destruct (Hpad i) as [Hhigh _]. destruct (Hhigh Hi) as [-> ->].
        destruct (Hpad (numStops - 1)) as [_ Hlow].
        destruct (Hlow ltac:(lia)) as [-> ->]. split; reflexivity.
    + intros t n. repeat split.
  - destruct proxy as [p|]; cbn [is_null] in Hctor; [|discriminate].
    injection Hctor as <-. cbn [fNumStops fColorsAndOffsetsProxy].
    split; [reflexivity|]. split; [exact H1|]. split; [lia|]. split.
    + intros _. split; [reflexivity | discriminate].
    + intros t n. repeat split.
Qed.

End Properties.

(* ================================================================== *)
(** ** The properties on the sample inputs *)

Section Samples.
#[local] Existing Instance sample_collaborators.

Lemma sample_shaders_well_nested : shader_well_nested.
Proof.
  intros keyContext g shader env env' H. cbn [SkShader_addToKey sample_collaborators] in H.
  unfold bind in H. rewrite SolidColorShaderBlock_extend, endBlock_extend in H.
  injection H as <-. exists [Block_node kSolidColorShader []].
  unfold built. cbn. now rewrite <- app_assoc.
Qed.

(** The nine-stop sweep gradient takes the texture path. *)
Lemma gradient_dispatch_policy_witness :
  fType sample_gradient <> GT_kNone /\
  (gatherer_present gatherer_ptr = true -> 8 < fNumStops sample_gradient ->
   fColorsAndOffsetsProxy sample_gradient <> None) /\
  GradientShaderBlocks_BeginBlock sample_keyContext gatherer_ptr sample_gradient empty_env
  = Some (tt, extend empty_env
                [beginBlock_call kSweepGradientShaderTexture]
                (when_gatherer gatherer_ptr (gradient_uniforms sample_gradient)) []).
Proof.
  assert (H1 : fType sample_gradient <> GT_kNone) by discriminate.
  assert (H2 : gatherer_present gatherer_ptr = true -> 8 < fNumStops sample_gradient ->
               fColorsAndOffsetsProxy sample_gradient <> None) by (intros _ _; discriminate).
  split; [exact H1|]. split; [exact H2|].
  exact (proj1 (gradient_dispatch_policy sample_keyContext gatherer_ptr sample_gradient
                  empty_env H1 H2)).
Defined.

(** The image without a texture and the table without a proxy. *)
Lemma missing_texture_fallbacks_witness :
  img_fTextureProxy sample_image = None /\
  CreateCachedProxy (recorder sample_keyContext) sample_bitmap = None /\
  ImageShaderBlock_BeginBlock sample_keyContext gatherer_ptr (Some sample_image) empty_env
  = Some (tt, extend empty_env [beginBlock_call kSolidColorShader]
                     [write_SkPMColor4f kErrorColor] []) /\
  ImageShaderBlock_BeginBlock sample_keyContext nullptr None empty_env
  = Some (tt, extend empty_env [beginBlock_call kImageShader] [] []) /\
  AddToKey_SkColorFilter sample_keyContext gatherer_ptr
    (Some (SkTableColorFilter sample_bitmap)) empty_env
  = Some (tt, extend empty_env (block_calls (Block_node kPriorOutput [])) [] []).
Proof.
  assert (H1 : img_fTextureProxy sample_image = None) by reflexivity.
  assert (H2 : CreateCachedProxy (recorder sample_keyContext) sample_bitmap = None)
    by reflexivity.
  split; [exact H1|]. split; [exact H2|].
  pose proof (missing_texture_fallbacks sample_keyContext
                gatherer_ptr empty_env sample_image sample_bitmap) as (Ha & Hk & _ & Hb).
  split; [exact (Ha H1)|]. split; [exact Hk | exact (Hb H2)].
Defined.

(** A runtime blender with four children and a working-format filter. *)
Lemma AddToKey_balanced_witness :
  AddToKey_SkBlender sample_keyContext gatherer_ptr (Some sample_blender) empty_env
  = Some (tt, run_env (AddToKey_SkBlender sample_keyContext gatherer_ptr
                         (Some sample_blender))) /\
  AddToKey_SkColorFilter sample_keyContext gatherer_ptr (Some sample_filter) empty_env
  = Some (tt, run_env (AddToKey_SkColorFilter sample_keyContext gatherer_ptr
                         (Some sample_filter))) /\
  (exists blocks,
      built empty_env
        (run_env (AddToKey_SkBlender sample_keyContext gatherer_ptr (Some sample_blender)))
        (forest_calls blocks) /\ balanced (forest_calls blocks)) /\
  (exists blocks,
      built empty_env
        (run_env (AddToKey_SkColorFilter sample_keyContext gatherer_ptr (Some sample_filter)))
        (forest_calls blocks) /\ balanced (forest_calls blocks)).
Proof.
  assert (H1 : AddToKey_SkBlender sample_keyContext gatherer_ptr (Some sample_blender)
                 empty_env
               = Some (tt, run_env (AddToKey_SkBlender sample_keyContext gatherer_ptr
                                      (Some sample_blender))))
    by (vm_compute; reflexivity).
  assert (H2 : AddToKey_SkColorFilter sample_keyContext gatherer_ptr (Some sample_filter)
                 empty_env
               = Some (tt, run_env (AddToKey_SkColorFilter sample_keyContext gatherer_ptr
                                      (Some sample_filter))))
    by (vm_compute; reflexivity).
  split; [exact H1|]. split; [exact H2|].
  exact (AddToKey_balanced sample_keyContext gatherer_ptr
           (Some sample_blender) (Some sample_filter) empty_env _ _
           sample_shaders_well_nested H1 H2).
Defined.

(** The image writer with a payload whose texture is missing, and the
    writer of a nine-stop gradient of the pre-compilation path, whose call
    with a gatherer does not complete. *)
Lemma key_only_mode_witness :
  (exists ds,
      BeginBlock sample_keyContext nullptr (ImageShaderBlock None) empty_env
      = Some (tt, extend empty_env [beginBlock_call kImageShader] [] ds)) /\
  built empty_env
    (run_env (BeginBlock sample_keyContext gatherer_ptr (ImageShaderBlock (Some sample_image))))
    [beginBlock_call kSolidColorShader] /\
  BeginBlock sample_keyContext gatherer_ptr
    (GradientShaderBlocks (GradientData_precompile GT_kLinear 9)) empty_env = None /\
  (exists ds,
      BeginBlock sample_keyContext nullptr
        (GradientShaderBlocks (GradientData_precompile GT_kLinear 9)) empty_env
      = Some (tt, extend empty_env [beginBlock_call kLinearGradientShaderTexture] [] ds)).
Proof.
  assert (Hrun : BeginBlock sample_keyContext gatherer_ptr
                   (ImageShaderBlock (Some sample_image)) empty_env
                 = Some (tt, run_env (BeginBlock sample_keyContext gatherer_ptr
                                        (ImageShaderBlock (Some sample_image)))))
    by (vm_compute; reflexivity).
  assert (Himage : forall gradData,
             ImageShaderBlock (Some sample_image) = GradientShaderBlocks gradData ->
             fType gradData <> GT_kNone) by (intros gradData H; discriminate H).
  assert (Hlinear : forall gradData,
             GradientShaderBlocks (GradientData_precompile GT_kLinear 9)
             = GradientShaderBlocks gradData ->
             fType gradData <> GT_kNone)
    by (intros gradData H; injection H as <-; discriminate).
  destruct (key_only_mode sample_keyContext (ImageShaderBlock (Some sample_image))
              empty_env Himage) as [Hkey Hgatherer].
  split; [exact Hkey|]. split; [exact (Hgatherer _ Hrun)|]. split; [reflexivity|].
  exact (proj1 (key_only_mode sample_keyContext
                  (GradientShaderBlocks (GradientData_precompile GT_kLinear 9))
                  empty_env Hlinear)).
Defined.

(** Both blend conveniences on the runtime blender. *)
Lemma blend_block_shapes_witness :
  AddDstBlendBlock sample_keyContext gatherer_ptr (Some sample_blender) empty_env
  = Some (tt, run_env (AddDstBlendBlock sample_keyContext gatherer_ptr (Some sample_blender)))
  /\
  AddPrimitiveBlendBlock sample_keyContext gatherer_ptr (Some sample_blender) empty_env
  = Some (tt, run_env (AddPrimitiveBlendBlock sample_keyContext gatherer_ptr
                         (Some sample_blender)))
  /\
  exists blenderBlocks before after,
    built empty_env
      (run_env (AddDstBlendBlock sample_keyContext gatherer_ptr (Some sample_blender)))
      (block_calls
         (Block_node kBlendShader
            ([Block_node kPriorOutput []; Block_node kDstColor []] ++ blenderBlocks)))
    /\ length blenderBlocks = 1%nat
    /\ AddToKey_SkBlender sample_keyContext gatherer_ptr (Some sample_blender) before
       = Some (tt, after)
    /\ built before after (forest_calls blenderBlocks).
Proof.
  assert (H1 : AddDstBlendBlock sample_keyContext gatherer_ptr (Some sample_blender) empty_env
               = Some (tt, run_env (AddDstBlendBlock sample_keyContext gatherer_ptr
                                      (Some sample_blender))))
    by (vm_compute; reflexivity).
  assert (H2 : AddPrimitiveBlendBlock sample_keyContext gatherer_ptr (Some sample_blender)
                 empty_env
               = Some (tt, run_env (AddPrimitiveBlendBlock sample_keyContext gatherer_ptr
                                      (Some sample_blender))))
    by (vm_compute; reflexivity).
  split; [exact H1|]. split; [exact H2|].
  exact (proj1 (blend_block_shapes sample_keyContext gatherer_ptr (Some sample_blender)
                  3 kErrorColor empty_env _ _ sample_shaders_well_nested H1 H2)).
Defined.

(** The working-format filter around a compose filter. *)
Lemma working_format_nesting_witness :
  AddToKey_SkColorFilter sample_keyContext gatherer_ptr (Some sample_filter) empty_env
  = Some (tt, run_env (AddToKey_SkColorFilter sample_keyContext gatherer_ptr
                         (Some sample_filter))) /\
  exists env1 env2 childBlocks,
    env1 = extend empty_env
             [beginBlock_call kComposeColorFilter; beginBlock_call kComposeColorFilter;
              beginBlock_call kColorSpaceXformColorFilter; endBlock_call]
             (color_space_uniforms no_steps) []
    /\ AddToKey_SkColorFilter sample_keyContext gatherer_ptr
         (Some (SkComposeColorFilter
                  (Some (SkMatrixColorFilter (repeat f32_0 20) Domain_kHSLA))
                  (Some (SkTableColorFilter sample_bitmap)))) env1
       = Some (tt, env2)
    /\ built env1 env2 (forest_calls childBlocks)
    /\ length childBlocks = 1%nat
    /\ run_env (AddToKey_SkColorFilter sample_keyContext gatherer_ptr (Some sample_filter))
       = extend env2
           [endBlock_call; beginBlock_call kColorSpaceXformColorFilter;
            endBlock_call; endBlock_call]
           (color_space_uniforms no_steps) []
    /\ built empty_env
         (run_env (AddToKey_SkColorFilter sample_keyContext gatherer_ptr (Some sample_filter)))
         (block_calls
            (Block_node kComposeColorFilter
               [Block_node kComposeColorFilter
                  (Block_node kColorSpaceXformColorFilter [] :: childBlocks);
                Block_node kColorSpaceXformColorFilter []])).
Proof.
  assert (H : AddToKey_SkColorFilter sample_keyContext gatherer_ptr (Some sample_filter)
                empty_env
              = Some (tt, run_env (AddToKey_SkColorFilter sample_keyContext gatherer_ptr
                                     (Some sample_filter))))
    by (vm_compute; reflexivity).
  split; [exact H|].
  exact (working_format_nesting sample_keyContext gatherer_ptr _ sample_workingFormat
           empty_env _ sample_shaders_well_nested H).
Defined.

(** Three stops stored inline: positions 3 to 7 repeat the third. *)
Lemma GradientData_ctor_invariants_witness :
  sample_ctor = Some sample_inline_gradient /\
  fNumStops sample_inline_gradient = 3 /\
  (forall i, 3 <= i < 8 ->
             fColors sample_inline_gradient i = fColors sample_inline_gradient 2 /\
             fOffsets sample_inline_gradient i = fOffsets sample_inline_gradient 2).
Proof.
  assert (H : sample_ctor = Some sample_inline_gradient) by (vm_compute; reflexivity).
  split; [exact H|].
  pose proof (GradientData_ctor_invariants _ _ _ _ _ _ _ _ _ _ _ _ _ _ _ _ H)
    as (Hn & _ & Hinline & _).
  split; [exact Hn|].
  exact (proj2 (Hinline ltac:(discriminate))).
Defined.

(** *** Where the code departs from the specification's wording *)

(** C2: the image whose texture reference is null, converted key-only.
    The writer is then called without a payload and begins the image-shader
    block; called with the payload it does not complete.  The error-color
    block is emitted in neither case. *)
Lemma key_only_image_is_not_substituted :
  img_fTextureProxy sample_image = None /\
  ImageShaderBlock_BeginBlock sample_keyContext nullptr None empty_env
  = Some (tt, extend empty_env [beginBlock_call kImageShader] [] []) /\
  ImageShaderBlock_BeginBlock sample_keyContext nullptr (Some sample_image) empty_env
  = None /\
  [beginBlock_call kImageShader] <> [beginBlock_call kSolidColorShader].
Proof. repeat split. discriminate. Qed.

(** C6: a working-format filter without a child: the inner Compose block
    has one child, the transform to the working space, not two. *)
Lemma working_format_without_child :
  AddToKey_SkColorFilter sample_keyContext gatherer_ptr
    (Some (SkWorkingFormatColorFilter None sample_workingFormat)) empty_env
  = Some (tt, extend empty_env
                (block_calls
                   (Block_node kComposeColorFilter
                      [Block_node kComposeColorFilter
                         [Block_node kColorSpaceXformColorFilter []];
                       Block_node kColorSpaceXformColorFilter []]))
                (color_space_uniforms no_steps ++ color_space_uniforms no_steps) []) /\
  length [Block_node kColorSpaceXformColorFilter []] <> 2%nat.
Proof. split; [reflexivity | discriminate]. Qed.

(** C4: a table color filter payload without a proxy begins its own
    snippet in key-only mode and the prior-output snippet with a gatherer. *)
Lemma table_filter_key_depends_on_gatherer :
  TableColorFilterBlock_BeginBlock sample_keyContext nullptr sample_table empty_env
  = Some (tt, extend empty_env [beginBlock_call kTableColorFilter] [] []) /\
  TableColorFilterBlock_BeginBlock sample_keyContext gatherer_ptr sample_table empty_env
  = Some (tt, extend empty_env [beginBlock_call kPriorOutput] [] []) /\
  [beginBlock_call kTableColorFilter] <> [beginBlock_call kPriorOutput].
Proof. repeat split. discriminate. Qed.

(** C5: the children of the color-blend block are solid color, prior
    output, blender, not prior output first; and the destination-blend block
    of a null blender has two children, not three. *)
Lemma color_blend_puts_solid_color_first :
  AddColorBlendBlock sample_keyContext nullptr 3 kErrorColor empty_env
  = Some (tt, extend empty_env
                (block_calls
                   (Block_node kBlendShader
                      [Block_node kSolidColorShader []; Block_node kPriorOutput [];
                       Block_node kBlendModeBlender []])) [] []) /\
  block_calls
    (Block_node kBlendShader
       [Block_node kSolidColorShader []; Block_node kPriorOutput [];
        Block_node kBlendModeBlender []])
  <> block_calls
       (Block_node kBlendShader
          [Block_node kPriorOutput []; Block_node kSolidColorShader [];
           Block_node kBlendModeBlender []]) /\
  AddDstBlendBlock sample_keyContext nullptr None empty_env
  = Some (tt, extend empty_env
                (block_calls
                   (Block_node kBlendShader
                      [Block_node kPriorOutput []; Block_node kDstColor []])) [] []).
Proof. repeat split. discriminate. Qed.

(** C7: with no step enabled, the gamut slot holds the default-constructed
    matrix, the identity, which is not all zeros. *)
Lemma disabled_gamut_slot_is_not_zeroed :
  gamut_transform (flags no_steps) = false /\
  add_color_space_uniforms no_steps empty_env
  = Some (tt, extend empty_env []
                [write_int 0;
                 write_int 0; writeHalfArray (repeat f32_0 7);
                 writeHalf_SkMatrix SkMatrix_I;
                 write_int 0; writeHalfArray (repeat f32_0 7)] []) /\
  SkMatrix_I <> repeat f32_0 9.
Proof. repeat split. discriminate. Qed.

(** C8: the pre-compilation constructor builds a nine-stop gradient with a
    null proxy, and a gradient with no stop at all. *)
Lemma precompile_gradient_outside_invariant :
  kNumInternalStorageStops < fNumStops (GradientData_precompile GT_kLinear 9) /\
  fColorsAndOffsetsProxy (GradientData_precompile GT_kLinear 9) = None /\
  ~ (1 <= fNumStops (GradientData_precompile GT_kLinear 0)).
Proof. repeat split. cbn. lia. Qed.

End Samples.

(* ================================================================== *)
(** ** The key as a function of the effect tree *)

Lemma emits_calls_ret : emits_calls (ret tt) [].
Proof. intros env env' H. inversion H; subst. unfold built. now rewrite app_nil_r. Qed.

Lemma emits_calls_endBlock : emits_calls endBlock [endBlock_call].
Proof. intros env env' H. rewrite endBlock_extend in H. now inversion H. Qed.

Lemma emits_calls_bind m k a b :
  emits_calls m a -> emits_calls k b -> emits_calls (bind m (fun _ => k)) (a ++ b).
Proof.
  intros Hm Hk env env' H.
  apply bind_inv in H as ([] & env1 & H1 & H2).
  unfold built. rewrite (Hk _ _ H2), (Hm _ _ H1). now rewrite app_assoc.
Qed.

Lemma emits_calls_skip {A : Type} (m : Emit A) (k : A -> Emit unit) calls :
  preserves builder m -> (forall a, emits_calls (k a) calls) -> emits_calls (bind m k) calls.
Proof.
  intros Hm Hk env env' H.
  apply bind_inv in H as (a & env1 & H1 & H2).
  unfold built. rewrite (Hk _ _ _ H2). now rewrite (Hm _ _ _ H1).
Qed.

Lemma emits_calls_eq m a b : emits_calls m a -> a = b -> emits_calls m b.
Proof. now intros H <-. Qed.

Lemma forest_calls_flat_map {A : Type} (key : A -> list Block) (xs : list A) :
  forest_calls (flat_map key xs) = flat_map (fun x => forest_calls (key x)) xs.
Proof.
  induction xs as [|x xs IH]; [reflexivity|].
  cbn [flat_map]. now rewrite forest_calls_app, IH.
Qed.

Lemma emits_calls_for_each {A : Type} (xs : list A) (body : A -> Emit unit)
    (key : A -> list Block) :
  Forall (fun x => emits_calls (body x) (forest_calls (key x))) xs ->
  emits_calls (for_each xs body) (forest_calls (flat_map key xs)).
Proof.
  induction 1 as [|x xs Hx _ IH].
  - apply emits_calls_ret.
  - change (for_each (x :: xs) body) with (bind (body x) (fun _ => for_each xs body)).
    cbn [flat_map]. rewrite forest_calls_app. now apply emits_calls_bind.
Qed.

Section KeyFunction.
Context {collab : Collaborators}.
Variable keyContext : KeyContext.
Variable shader_blocks : SkShader -> list Block.
Variable g : GathererPtr.

Hypothesis shaders :
  forall shader,
    emits_calls (SkShader_addToKey keyContext g shader) (forest_calls (shader_blocks shader)).

Let blender_key' := blender_key keyContext shader_blocks.
Let filter_key' := filter_key keyContext shader_blocks.
Let child_key' := child_key keyContext shader_blocks.

Let Kb (b : SkBlender) : Prop :=
  emits_calls (AddToKey_SkBlender_switch keyContext g b) (block_calls (blender_key' b)).
Let Kf (f : SkColorFilter) : Prop :=
  emits_calls (AddToKey_SkColorFilter_switch keyContext g f) (block_calls (filter_key' f)).
Let Kc (c : ChildPtr) : Prop :=
  emits_calls (AddToKey_ChildPtr keyContext g c) (forest_calls (child_key' c)).

(** Each writer used by the dispatchers begins its own snippet. *)
Lemma writer_begins w :
  substitutes_fallback keyContext w = false ->
  emits_calls (BeginBlock keyContext g w) [beginBlock_call (writer_snippet keyContext w)].
Proof.
  intros H. pose proof (BeginBlock_begins keyContext g w) as B.
  unfold emitted_snippet in B. rewrite H, andb_false_r in B. exact B.
Qed.

Ltac begin_with w :=
  let B := constr:(writer_begins w eq_refl) in
  let T := type of B in
  let T' := eval cbn [writer_snippet fEffect] in T in
  exact (B : T').

Ltac emit :=
  repeat first
    [ exact emits_calls_endBlock
    | progress cbv zeta
    | lazymatch goal with
      | |- emits_calls (bind endBlock _) _ =>
          eapply emits_calls_bind; [exact emits_calls_endBlock|]
      | |- emits_calls (bind (PriorOutputBlock_BeginBlock _ _) _) _ =>
          eapply emits_calls_bind; [begin_with PriorOutputBlock|]
      | |- emits_calls (bind (ComposeColorFilterBlock_BeginBlock _ _) _) _ =>
          eapply emits_calls_bind; [begin_with ComposeColorFilterBlock|]
      | |- emits_calls (bind (GaussianColorFilterBlock_BeginBlock _ _) _) _ =>
          eapply emits_calls_bind; [begin_with GaussianColorFilterBlock|]
      | |- emits_calls (bind (CoeffBlenderBlock_BeginBlock _ _ ?c) _) _ =>
          eapply emits_calls_bind; [begin_with (CoeffBlenderBlock c)|]
      | |- emits_calls (bind (BlendModeBlenderBlock_BeginBlock _ _ ?m) _) _ =>
          eapply emits_calls_bind; [begin_with (BlendModeBlenderBlock m)|]
      | |- emits_calls (bind (MatrixColorFilterBlock_BeginBlock _ _ ?d) _) _ =>
          eapply emits_calls_bind; [begin_with (MatrixColorFilterBlock d)|]
      | |- emits_calls (bind (ColorSpaceTransformBlock_BeginBlock _ _ ?d) _) _ =>
          eapply emits_calls_bind; [begin_with (ColorSpaceTransformBlock d)|]
      | |- emits_calls (bind (RuntimeEffectBlock_BeginBlock _ _ ?d) _) _ =>
          eapply emits_calls_bind; [begin_with (RuntimeEffectBlock d)|]
      | |- emits_calls (bind (TableColorFilterBlock_BeginBlock _ _ ?d) _) _ =>
          eapply emits_calls_bind; [begin_with (TableColorFilterBlock d)|]
      | |- emits_calls (bind _ _) _ =>
          first [ eapply emits_calls_bind; [eassumption|]
                | apply emits_calls_skip; [solve [prove_preserves] | intros ?] ]
      end ].

Lemma key_nullable (p : option SkColorFilter) :
  if_nonnull Kf p ->
  emits_calls (match p with
               | None => ret tt
               | Some f => AddToKey_SkColorFilter_switch keyContext g f
               end)
              (forest_calls (nullable_key filter_key' p)).
Proof.
  destruct p as [f|]; cbn [if_nonnull nullable_key]; intros H.
  - rewrite forest_calls_one. exact H.
  - apply emits_calls_ret.
Qed.

Lemma key_children children childInfo :
  Forall Kc children ->
  emits_calls (AddChildrenToKey (AddToKey_ChildPtr keyContext g) children childInfo)
              (forest_calls (flat_map child_key' children)).
Proof. intros H. unfold AddChildrenToKey. now apply emits_calls_for_each. Qed.

Lemma key_BlendModeBlender mode : Kb (SkBlendModeBlender mode).
Proof.
  unfold Kb, blender_key'. cbn [AddToKey_SkBlender_switch blender_key].
  unfold add_to_key_SkBlendModeBlender. cbv zeta.
  destruct (Nat.eqb (length (GetPorterDuffBlendConstants mode)) 0); cbn [negb];
    (eapply emits_calls_eq; [emit | reflexivity]).
Qed.

Lemma key_RuntimeBlender effect uniforms children :
  Forall Kc children -> Kb (SkRuntimeBlender effect uniforms children).
Proof.
  intros H. pose proof (fun info => key_children children info H) as Hc.
  unfold Kb, blender_key'. cbn [AddToKey_SkBlender_switch blender_key].
  unfold add_to_key_SkRuntimeBlender.
  eapply emits_calls_eq.
  - emit. eapply emits_calls_bind; [apply Hc | exact emits_calls_endBlock].
  - reflexivity.
Qed.

Lemma key_Noop : Kf SkNoopColorFilter.
Proof.
  unfold Kf, filter_key'. cbn [AddToKey_SkColorFilter_switch filter_key].
  eapply emits_calls_eq; [emit | reflexivity].
Qed.

Lemma key_BlendMode color mode : Kf (SkBlendModeColorFilter color mode).
Proof.
  unfold Kf, filter_key'. cbn [AddToKey_SkColorFilter_switch filter_key]. cbv zeta.
  unfold add_to_key_SkBlendModeColorFilter. cbv zeta.
  intros env env' H. rewrite AddColorBlendBlock_extend in H. now inversion H.
Qed.

Lemma key_ColorSpaceXform src dst : Kf (SkColorSpaceXformColorFilter src dst).
Proof.
  unfold Kf, filter_key'. cbn [AddToKey_SkColorFilter_switch filter_key]. cbv zeta.
  unfold add_to_key_SkColorSpaceXformColorFilter.
  eapply emits_calls_eq; [emit | reflexivity].
Qed.

Lemma key_Compose outer inner :
  if_nonnull Kf outer -> if_nonnull Kf inner -> Kf (SkComposeColorFilter outer inner).
Proof.
  intros Ho Hi. apply key_nullable in Ho, Hi.
  unfold Kf, filter_key'. cbn [AddToKey_SkColorFilter_switch filter_key]. cbv zeta.
  unfold add_to_key_SkComposeColorFilter.
  eapply emits_calls_eq; [emit|].
  fold (nullable_key (filter_key keyContext shader_blocks) inner).
  fold (nullable_key (filter_key keyContext shader_blocks) outer).
  rewrite block_calls_node, forest_calls_app, <- !app_assoc. reflexivity.
Qed.

Lemma key_Gaussian : Kf SkGaussianColorFilter.
Proof.
  unfold Kf, filter_key'. cbn [AddToKey_SkColorFilter_switch filter_key]. cbv zeta.
  unfold add_to_key_SkGaussianColorFilter.
  eapply emits_calls_eq; [emit | reflexivity].
Qed.

Lemma key_Matrix matrix domain : Kf (SkMatrixColorFilter matrix domain).
Proof.
  unfold Kf, filter_key'. cbn [AddToKey_SkColorFilter_switch filter_key]. cbv zeta.
  unfold add_to_key_SkMatrixColorFilter.
  eapply emits_calls_eq; [emit | reflexivity].
Qed.

Lemma key_Runtime effect uniforms children :
  Forall Kc children -> Kf (SkRuntimeColorFilter effect uniforms children).
Proof.
  intros H. pose proof (fun info => key_children children info H) as Hc.
  unfold Kf, filter_key'. cbn [AddToKey_SkColorFilter_switch filter_key]. cbv zeta.
  unfold add_to_key_SkRuntimeColorFilter.
  eapply emits_calls_eq.
  - emit. eapply emits_calls_bind; [apply Hc | exact emits_calls_endBlock].
  - reflexivity.
Qed.

Lemma key_Table bitmap : Kf (SkTableColorFilter bitmap).
Proof.
  unfold Kf, filter_key'. cbn [AddToKey_SkColorFilter_switch filter_key]. cbv zeta.
  unfold add_to_key_SkTableColorFilter. cbv zeta.
  destruct (CreateCachedProxy (recorder keyContext) bitmap) as [proxy|]; cbn [is_null];
    (eapply emits_calls_eq; [emit | reflexivity]).
Qed.

Lemma key_WorkingFormat child workingFormat :
  if_nonnull Kf child -> Kf (SkWorkingFormatColorFilter child workingFormat).
Proof.
  intros Hc. apply key_nullable in Hc.
  unfold Kf, filter_key'. cbn [AddToKey_SkColorFilter_switch filter_key]. cbv zeta.
  unfold add_to_key_SkWorkingFormatColorFilter. cbv zeta.
  destruct (workingFormat _) as [workingCS workingAT].
  eapply emits_calls_eq; [emit|].
  fold (nullable_key (filter_key keyContext shader_blocks) child).
  rewrite !block_calls_node, !forest_calls_cons, !block_calls_node, <- !app_assoc.
  reflexivity.
Qed.

Lemma key_null : Kc ChildPtr_null.
Proof. apply emits_calls_ret. Qed.

Lemma key_shader shader : Kc (ChildPtr_shader shader).
Proof. apply shaders. Qed.

Lemma key_blender blender : Kb blender -> Kc (ChildPtr_blender blender).
Proof.
  unfold Kb, Kc, child_key'. cbn [AddToKey_ChildPtr child_key].
  now rewrite forest_calls_one.
Qed.

Lemma key_colorFilter f : Kf f -> Kc (ChildPtr_colorFilter f).
Proof.
  unfold Kf, Kc, child_key'. cbn [AddToKey_ChildPtr child_key].
  now rewrite forest_calls_one.
Qed.

Lemma SkBlender_key blender : Kb blender.
Proof.
  apply (SkBlender_induction Kb Kf Kc);
    auto using key_BlendModeBlender, key_RuntimeBlender, key_Noop, key_BlendMode,
      key_ColorSpaceXform, key_Compose, key_Gaussian, key_Matrix, key_Runtime, key_Table,
      key_WorkingFormat, key_null, key_shader, key_blender, key_colorFilter.
Qed.

Lemma SkColorFilter_key filter : Kf filter.
Proof.
  apply (SkColorFilter_induction Kb Kf Kc);
    auto using key_BlendModeBlender, key_RuntimeBlender, key_Noop, key_BlendMode,
      key_ColorSpaceXform, key_Compose, key_Gaussian, key_Matrix, key_Runtime, key_Table,
      key_WorkingFormat, key_null, key_shader, key_blender, key_colorFilter.
Qed.

End KeyFunction.

(* ================================================================== *)
(** ** Key-only conversion and the gatherer *)

Section KeyOnly.
Context {collab : Collaborators}.
Variable keyContext : KeyContext.

Hypothesis shaders :
  forall shader, preserves gatherer (SkShader_addToKey keyContext nullptr shader).

Let Gb (b : SkBlender) : Prop :=
  preserves gatherer (AddToKey_SkBlender_switch keyContext nullptr b).
Let Gf (f : SkColorFilter) : Prop :=
  preserves gatherer (AddToKey_SkColorFilter_switch keyContext nullptr f).
Let Gc (c : ChildPtr) : Prop :=
  preserves gatherer (AddToKey_ChildPtr keyContext nullptr c).

Ltac key_only_writers :=
  unfold add_to_key_SkBlendModeBlender, add_to_key_SkRuntimeBlender,
    add_to_key_SkBlendModeColorFilter, add_to_key_SkColorSpaceXformColorFilter,
    add_to_key_SkComposeColorFilter, add_to_key_SkGaussianColorFilter,
    add_to_key_SkMatrixColorFilter, add_to_key_SkRuntimeColorFilter,
    add_to_key_SkTableColorFilter, add_to_key_SkWorkingFormatColorFilter,
    AddColorBlendBlock, AddChildrenToKey,
    PriorOutputBlock_BeginBlock, SolidColorShaderBlock_BeginBlock,
    BlendShaderBlock_BeginBlock, BlendModeBlenderBlock_BeginBlock,
    CoeffBlenderBlock_BeginBlock, MatrixColorFilterBlock_BeginBlock,
    ComposeColorFilterBlock_BeginBlock, GaussianColorFilterBlock_BeginBlock,
    TableColorFilterBlock_BeginBlock, ColorSpaceTransformBlock_BeginBlock,
    RuntimeEffectBlock_BeginBlock, PriorOutputBlock_BeginBlock;
  cbv zeta; cbn [gatherer_present].

Lemma key_only_nullable (p : option SkColorFilter) :
  if_nonnull Gf p ->
  preserves gatherer (match p with
                      | None => ret tt
                      | Some f => AddToKey_SkColorFilter_switch keyContext nullptr f
                      end).
Proof. destruct p; intros H; [exact H | apply preserves_ret]. Qed.

Lemma key_only_children children :
  Forall Gc children ->
  preserves gatherer (for_each children (AddToKey_ChildPtr keyContext nullptr)).
Proof.
  induction 1 as [|c cs Hc _ IH]; [apply preserves_ret|].
  change (for_each (c :: cs) (AddToKey_ChildPtr keyContext nullptr))
    with (bind (AddToKey_ChildPtr keyContext nullptr c)
               (fun _ => for_each cs (AddToKey_ChildPtr keyContext nullptr))).
  apply preserves_bind; auto.
Qed.

Lemma SkBlender_key_only blender : Gb blender.
Proof.
  apply (SkBlender_induction Gb Gf Gc); unfold Gb, Gf, Gc;
    cbn [AddToKey_SkBlender_switch AddToKey_SkColorFilter_switch AddToKey_ChildPtr];
    intros; try apply shaders; try assumption;
    repeat match goal with
           | H : if_nonnull _ _ |- _ => apply key_only_nullable in H
           | H : Forall _ _ |- _ => apply key_only_children in H
           end;
    key_only_writers; prove_preserves.
Qed.

Lemma SkColorFilter_key_only filter : Gf filter.
Proof.
  apply (SkColorFilter_induction Gb Gf Gc); unfold Gb, Gf, Gc;
    cbn [AddToKey_SkBlender_switch AddToKey_SkColorFilter_switch AddToKey_ChildPtr];
    intros; try apply shaders; try assumption;
    repeat match goal with
           | H : if_nonnull _ _ |- _ => apply key_only_nullable in H
           | H : Forall _ _ |- _ => apply key_only_children in H
           end;
    key_only_writers; prove_preserves.
Qed.

End KeyOnly.

(* ================================================================== *)
(** ** Color filters without runtime effects, converted with a gatherer *)

Lemma extend_eq env bs gs ds bs' gs' ds' :
  bs = bs' -> gs = gs' -> ds = ds' -> extend env bs gs ds = extend env bs' gs' ds'.
Proof. now intros -> -> ->. Qed.

Section StaticFilters.
Context {collab : Collaborators}.
Variable keyContext : KeyContext.
Variable shader_blocks : SkShader -> list Block.

Let converts (f : SkColorFilter) : Prop :=
  no_runtime_effect f = true ->
  forall env,
    AddToKey_SkColorFilter_switch keyContext gatherer_ptr f env
    = Some (tt, extend env (block_calls (filter_key keyContext shader_blocks f))
                       (filter_uniforms keyContext f) []).

Lemma converts_nullable (p : option SkColorFilter) :
  if_nonnull converts p ->
  match p with Some f => no_runtime_effect f | None => true end = true ->
  forall env,
    match p with
    | None => ret tt
    | Some f => AddToKey_SkColorFilter_switch keyContext gatherer_ptr f
    end env
    = Some (tt, extend env
                  (forest_calls (nullable_key (filter_key keyContext shader_blocks) p))
                  (match p with Some f => filter_uniforms keyContext f | None => [] end) []).
Proof.
  destruct p as [f|]; cbn [if_nonnull nullable_key]; intros H E env.
  - rewrite forest_calls_one. now apply H.
  - unfold ret. now rewrite extend_nil.
Qed.

(** X3: with a gatherer, a color filter built without runtime effects is
    always converted, and the result is determined by the tree: the builder
    receives the calls of [filter_key], the gatherer the uniforms of
    [filter_uniforms] in the order of the blocks (for a compose filter the
    inner filter's before the outer's; for a working-format filter the
    transform to the working space, the child's, the transform back), and
    the runtime-effect dictionary is left alone. *)
Theorem static_filter_conversion filter env
    (Hstatic : no_runtime_effect filter = true) :
  AddToKey_SkColorFilter keyContext gatherer_ptr (Some filter) env
  = Some (tt, extend env (block_calls (filter_key keyContext shader_blocks filter))
                     (filter_uniforms keyContext filter) []).
Proof.
  cbn [AddToKey_SkColorFilter]. revert Hstatic env. change (converts filter).
  apply (SkColorFilter_induction (fun _ => True) converts (fun _ => True)); auto;
    unfold converts; cbn [AddToKey_SkColorFilter_switch filter_key filter_uniforms no_runtime_effect];
    cbv zeta.
  - intros _ env. unfold bind. rewrite PriorOutputBlock_extend, endBlock_extend.
    now rewrite extend_extend.
  - intros color mode _ env. unfold add_to_key_SkBlendModeColorFilter. cbv zeta.
    now rewrite AddColorBlendBlock_extend.
  - intros src dst _ env.
    unfold add_to_key_SkColorSpaceXformColorFilter, ColorSpaceTransformData_ctor. cbv zeta.
    unfold bind. rewrite ColorSpaceTransformBlock_extend, endBlock_extend.
    rewrite extend_extend. apply f_equal, f_equal, extend_eq; try reflexivity.
    cbn [when_gatherer gatherer_present fSteps]. now rewrite app_nil_r.
  - intros outer inner Ho Hi E env. apply andb_true_iff in E as [Eo Ei].
    pose proof (converts_nullable outer Ho Eo) as Co.
    pose proof (converts_nullable inner Hi Ei) as Ci.
    unfold add_to_key_SkComposeColorFilter, bind.
    rewrite ComposeColorFilterBlock_extend, Ci, Co, endBlock_extend.
    rewrite !extend_extend. apply f_equal, f_equal, extend_eq; try reflexivity.
    + fold (nullable_key (filter_key keyContext shader_blocks) inner).
      fold (nullable_key (filter_key keyContext shader_blocks) outer).
      rewrite block_calls_node, forest_calls_app, <- !app_assoc. reflexivity.
    + cbn [app]. now rewrite app_nil_r.
  - intros _ env.
    unfold add_to_key_SkGaussianColorFilter, GaussianColorFilterBlock_BeginBlock.
    run_emit. reflexivity.
  - intros matrix domain _ env.
    unfold add_to_key_SkMatrixColorFilter, MatrixColorFilterBlock_BeginBlock,
      add_matrix_colorfilter_uniform_data.
    run_emit. reflexivity.
  - intros effect uniforms children _ E. discriminate E.
  - intros bitmap _ env.
    unfold add_to_key_SkTableColorFilter, TableColorFilterBlock_BeginBlock,
      PriorOutputBlock_BeginBlock, add_table_colorfilter_uniform_data.
    cbv zeta. destruct (CreateCachedProxy (recorder keyContext) bitmap);
      cbn [table_fTextureProxy is_null]; run_emit; reflexivity.
  - intros child workingFormat Hc E env.
    pose proof (converts_nullable child Hc E) as Cc.
    unfold add_to_key_SkWorkingFormatColorFilter, ColorSpaceTransformData_ctor. cbv zeta.
    destruct (workingFormat _) as [workingCS workingAT]. cbn [fst snd].
    unfold bind.
    rewrite !ComposeColorFilterBlock_extend, ColorSpaceTransformBlock_extend, endBlock_extend,
      Cc, endBlock_extend, ColorSpaceTransformBlock_extend, !endBlock_extend.
    rewrite !extend_extend. apply f_equal, f_equal, extend_eq; try reflexivity.
    + fold (nullable_key (filter_key keyContext shader_blocks) child).
      rewrite !block_calls_node, !forest_calls_cons, !block_calls_node, <- !app_assoc.
      reflexivity.
    + cbn [when_gatherer gatherer_present fSteps app]. now rewrite !app_nil_r.
Qed.

End StaticFilters.

(* ================================================================== *)
(** ** Further properties of the dispatchers *)

Section DispatcherProperties.
Context {collab : Collaborators}.

(** X1: the key is a function of the effect tree.  Whatever the gatherer
    mode and the state the conversion starts from, the calls a completed
    [AddToKey] has issued on the key builder are those of [blender_key]
    (resp. [filter_key]) of the tree: one root block per non-null effect,
    nothing for a null one.  Shader children are emitted by the shader
    hierarchy, whose blocks [shader_blocks] are taken as given. *)
Theorem AddToKey_key_of_tree keyContext shader_blocks g blender filter env env1 env2
    (Hshaders : forall shader,
        emits_calls (SkShader_addToKey keyContext g shader)
                    (forest_calls (shader_blocks shader)))
    (Hblender : AddToKey_SkBlender keyContext g blender env = Some (tt, env1))
    (Hfilter : AddToKey_SkColorFilter keyContext g filter env = Some (tt, env2)) :
  builder env1
  = builder env
    ++ forest_calls (nullable_key (blender_key keyContext shader_blocks) blender) /\
  builder env2
  = builder env
    ++ forest_calls (nullable_key (filter_key keyContext shader_blocks) filter).
Proof.
  split.
  - destruct blender as [b|]; cbn [AddToKey_SkBlender nullable_key] in *.
    + rewrite forest_calls_one.
      exact (SkBlender_key keyContext shader_blocks g Hshaders b _ _ Hblender).
    + exact (emits_calls_ret _ _ Hblender).
  - destruct filter as [f|]; cbn [AddToKey_SkColorFilter nullable_key] in *.
    + rewrite forest_calls_one.
      exact (SkColorFilter_key keyContext shader_blocks g Hshaders f _ _ Hfilter).
    + exact (emits_calls_ret _ _ Hfilter).
Qed.

(** X2: key-only conversion never calls the gatherer.  With a null
    gatherer, a completed [AddToKey] on any blender or color filter leaves
    the gatherer's contents as they were, provided the shader hierarchy does
    so for shader children. *)
Theorem key_only_AddToKey_spares_gatherer keyContext blender filter env env1 env2
    (Hshaders : forall shader,
        preserves gatherer (SkShader_addToKey keyContext nullptr shader))
    (Hblender : AddToKey_SkBlender keyContext nullptr blender env = Some (tt, env1))
    (Hfilter : AddToKey_SkColorFilter keyContext nullptr filter env = Some (tt, env2)) :
  gatherer env1 = gatherer env /\ gatherer env2 = gatherer env.
Proof.
  split.
  - destruct blender as [b|]; cbn [AddToKey_SkBlender] in Hblender.
    + exact (SkBlender_key_only keyContext Hshaders b _ _ _ Hblender).
    + now inversion Hblender.
  - destruct filter as [f|]; cbn [AddToKey_SkColorFilter] in Hfilter.
    + exact (SkColorFilter_key_only keyContext Hshaders f _ _ _ Hfilter).
    + now inversion Hfilter.
Qed.

End DispatcherProperties.

(* ================================================================== *)
(** ** Runtime-effect uniforms *)

Section RuntimeUniforms.
Context {collab : Collaborators}.

(** The loop of [gather_runtime_effect_uniforms], started at index
    [length rtsDone]. *)
Lemma gather_loop (uniformBase : SkData) (rts : list RTUniform) :
  forall (us : list Uniform) rtsDone usDone env,
    length usDone = length rtsDone ->
    for_each (seq (length rtsDone) (length rts))
      (fun index =>
         bind (deref (nth_error (usDone ++ us) index)) (fun uniform =>
         bind (deref (nth_error (rtsDone ++ rts) index)) (fun r =>
         on_gatherer (write_uniform uniform (skipn (Z.to_nat (offset r)) uniformBase))))) env
    = if (length rts <=? length us)%nat
      then Some (tt, extend env [] (runtime_uniform_writes rts us uniformBase) [])
      else None.
Proof.
  induction rts as [|r rts IH]; intros us rtsDone usDone env Hlen.
  - cbn. unfold ret. destruct us; cbn; now rewrite extend_nil.
  - cbn [length seq].
    change (for_each (?x :: ?xs) ?body) with (bind (body x) (fun _ => for_each xs body)).
    unfold bind at 1. unfold bind at 1.
    rewrite <- Hlen at 1. rewrite nth_error_app2, Nat.sub_diag by lia.
    destruct us as [|u us]; [reflexivity|].
    cbn [nth_error deref ret]. unfold bind at 1.
    rewrite nth_error_app2, Nat.sub_diag by lia.
    cbn [nth_error deref ret]. rewrite on_gatherer_extend.
    specialize (IH us (rtsDone ++ [r]) (usDone ++ [u]) (extend env [] [write_uniform u (skipn (Z.to_nat (offset r)) uniformBase)] [])).
    rewrite !length_app in IH. cbn [length] in IH.
    rewrite !Nat.add_1_r, <- !app_assoc in IH. cbn [app] in IH.
    rewrite IH by lia. cbn [length Nat.leb].
    destruct (length rts <=? length us)%nat; [|reflexivity].
    now rewrite extend_extend.
Qed.

Lemma gather_runtime_effect_uniforms_run rtsUniforms graphiteUniforms uniformBase env :
  gather_runtime_effect_uniforms rtsUniforms graphiteUniforms (Some uniformBase) env
  = if (length rtsUniforms <=? length graphiteUniforms)%nat
    then Some (tt, extend env []
                     (runtime_uniform_writes rtsUniforms graphiteUniforms uniformBase) [])
    else None.
Proof.
  unfold gather_runtime_effect_uniforms. rewrite bind_deref_Some.
  exact (gather_loop uniformBase rtsUniforms graphiteUniforms [] [] env eq_refl).
Qed.

(** X4: [gather_runtime_effect_uniforms] dereferences the data and indexes
    the dictionary's uniform declarations by the effect's uniforms: it fails
    on null data and when the declarations are fewer than the effect's
    uniforms; otherwise it completes having issued exactly one write per
    effect uniform, in order, each typed by the declaration of the same
    index and reading the data from that uniform's offset.  The builder and
    the runtime-effect dictionary are not touched. *)
Theorem gather_runtime_effect_uniforms_spec rtsUniforms graphiteUniforms uniformData env :
  gather_runtime_effect_uniforms rtsUniforms graphiteUniforms uniformData env
  = match uniformData with
    | None => None
    | Some uniformBase =>
        if (length rtsUniforms <=? length graphiteUniforms)%nat
        then Some (tt, extend env []
                         (runtime_uniform_writes rtsUniforms graphiteUniforms uniformBase) [])
        else None
    end
  /\ (forall uniformBase,
        (length rtsUniforms <= length graphiteUniforms)%nat ->
        map call_shape (runtime_uniform_writes rtsUniforms graphiteUniforms uniformBase)
        = map shape_uniform (firstn (length rtsUniforms) graphiteUniforms)).
Proof.
  split.
  - destruct uniformData as [uniformBase|]; [|reflexivity].
    apply gather_runtime_effect_uniforms_run.
  - intros uniformBase. unfold runtime_uniform_writes.
    revert graphiteUniforms.
    induction rtsUniforms as [|r rts IH]; intros [|u us] Hlen; cbn in *; try reflexivity;
      try lia.
    f_equal. apply IH. lia.
Qed.

Lemma Uniform_eqb_refl u : Uniform_eqb u u = true.
Proof.
  unfold Uniform_eqb. rewrite Z.eqb_refl. now destruct (uniformType u).
Qed.

(** The writes of the runtime uniforms conform to the declarations exactly
    when there are as many declarations as effect uniforms. *)
Lemma conforms_runtime_uniform_writes uniformBase rtsUniforms :
  forall graphiteUniforms,
    (length rtsUniforms <= length graphiteUniforms)%nat ->
    conforms graphiteUniforms
      (runtime_uniform_writes rtsUniforms graphiteUniforms uniformBase)
    = (length rtsUniforms =? length graphiteUniforms)%nat.
Proof.
  unfold runtime_uniform_writes.
  induction rtsUniforms as [|r rts IH]; intros [|u us] Hlen; cbn in *; try reflexivity;
    try lia.
  rewrite Uniform_eqb_refl. apply IH. lia.
Qed.

Lemma UniformExpectationsValidator_run expected body env gs :
  body env = Some (tt, extend env [] gs []) ->
  UniformExpectationsValidator expected body env
  = if conforms expected gs then Some (tt, extend env [] gs []) else None.
Proof.
  intros H. unfold UniformExpectationsValidator. rewrite H.
  cbn [gatherer extend]. rewrite skipn_app, skipn_all, Nat.sub_diag. reflexivity.
Qed.

Lemma UniformExpectationsValidator_fails expected body env :
  body env = None -> UniformExpectationsValidator expected body env = None.
Proof. intros H. unfold UniformExpectationsValidator. now rewrite H. Qed.

Lemma RuntimeEffectBlock_run keyContext shaderData env :
  let id := findOrCreateRuntimeEffectSnippet (dict keyContext) (fEffect shaderData) in
  RuntimeEffectBlock_BeginBlock keyContext gatherer_ptr shaderData env
  = match getEntry (dict keyContext) id, fEffect shaderData, sd_fUniforms shaderData with
    | Some entry, Some effect, Some data =>
        if (length (rt_uniforms effect) =? length (fUniforms entry))%nat
        then Some (tt, extend env [beginBlock_call (RuntimeID id)]
                         (runtime_uniform_writes (rt_uniforms effect) (fUniforms entry) data)
                         [(id, fEffect shaderData)])
        else None
    | _, _, _ => None
    end.
Proof.
  intros id. unfold RuntimeEffectBlock_BeginBlock. cbv zeta. fold id.
  unfold if_gatherer. cbn [gatherer_present]. unfold bind at 1.
  rewrite rtEffectDict_set_extend. unfold bind at 1. unfold bind at 1.
  destruct (getEntry (dict keyContext) id) as [entry|]; [|reflexivity].
  cbn [deref ret].
  destruct (fEffect shaderData) as [effect|];
    [|rewrite UniformExpectationsValidator_fails by reflexivity; reflexivity].
  destruct (sd_fUniforms shaderData) as [data|];
    [|rewrite UniformExpectationsValidator_fails by reflexivity; reflexivity].
  destruct (Nat.leb_spec (length (rt_uniforms effect)) (length (fUniforms entry)))
    as [Hle|Hgt].
  - erewrite UniformExpectationsValidator_run.
    2:{ rewrite bind_deref_Some, gather_runtime_effect_uniforms_run.
        apply Nat.leb_le in Hle. rewrite Hle. reflexivity. }
    rewrite conforms_runtime_uniform_writes by exact Hle.
    destruct (length (rt_uniforms effect) =? length (fUniforms entry))%nat; [|reflexivity].
    rewrite beginBlock_extend, !extend_extend. cbn [app]. now rewrite app_nil_r.
  - rewrite UniformExpectationsValidator_fails.
    + destruct (Nat.eqb_spec (length (rt_uniforms effect)) (length (fUniforms entry)));
        [lia | reflexivity].
    + rewrite bind_deref_Some, gather_runtime_effect_uniforms_run.
      apply Nat.leb_gt in Hgt. now rewrite Hgt.
Qed.

(** X5: [RuntimeEffectBlock::BeginBlock] on a non-null effect sets the
    effect in the runtime-effect dictionary under the snippet identifier the
    code dictionary hands out, and begins the block of that identifier.
    Key-only it does nothing else.  With a gatherer, in a checked build, it
    completes exactly when the code dictionary has an entry for the
    identifier, the uniform data is non-null and the entry declares as many
    uniforms as the effect has (fewer break the indexing of the
    declarations, more break the uniform validator); the gatherer then
    receives one write per uniform and nothing else. *)
Theorem RuntimeEffectBlock_registers_effect keyContext effect uniforms env :
  let shaderData := {| fEffect := Some effect; sd_fUniforms := uniforms |} in
  let id := findOrCreateRuntimeEffectSnippet (dict keyContext) (Some effect) in
  RuntimeEffectBlock_BeginBlock keyContext nullptr shaderData env
  = Some (tt, extend env [beginBlock_call (RuntimeID id)] [] [(id, Some effect)])
  /\ RuntimeEffectBlock_BeginBlock keyContext gatherer_ptr shaderData env
     = match getEntry (dict keyContext) id, uniforms with
       | Some entry, Some data =>
           if (length (rt_uniforms effect) =? length (fUniforms entry))%nat
           then Some (tt, extend env [beginBlock_call (RuntimeID id)]
                            (runtime_uniform_writes (rt_uniforms effect) (fUniforms entry) data)
                            [(id, Some effect)])
           else None
       | _, _ => None
       end.
Proof.
  intros shaderData id. split.
  - unfold RuntimeEffectBlock_BeginBlock. cbv zeta. run_emit. reflexivity.
  - rewrite RuntimeEffectBlock_run. cbn [fEffect sd_fUniforms shaderData]. fold id.
    destruct (getEntry (dict keyContext) id); reflexivity.
Qed.

End RuntimeUniforms.

(* ================================================================== *)
(** ** Conversions that cannot complete *)

Lemma fails_bind_l {A B : Type} (m : Emit A) (k : A -> Emit B) : fails m -> fails (bind m k).
Proof. intros H env. unfold bind. now rewrite H. Qed.

Lemma fails_bind_r {A B : Type} (m : Emit A) (k : A -> Emit B) :
  (forall a, fails (k a)) -> fails (bind m k).
Proof. intros H env. unfold bind. destruct (m env) as [[a env1]|]; [apply H | reflexivity]. Qed.

Lemma fails_for_each {A : Type} (has : A -> bool) (body : A -> Emit unit) (xs : list A) :
  Forall (fun x => has x = true -> fails (body x)) xs ->
  existsb has xs = true -> fails (for_each xs body).
Proof.
  induction 1 as [|x xs Hx _ IH]; cbn [existsb]; intros E; [discriminate|].
  change (for_each (x :: xs) body) with (bind (body x) (fun _ => for_each xs body)).
  destruct (has x).
  - apply fails_bind_l. now apply Hx.
  - apply fails_bind_r. intros _. now apply IH.
Qed.

Ltac find_failure :=
  repeat lazymatch goal with
         | H : fails ?m |- fails (bind ?m _) => apply fails_bind_l; exact H
         | |- fails (bind _ _) => apply fails_bind_r; intros ?
         | |- fails (let '(_, _) := ?p in _) => destruct p
         end.

Section MatrixFilterKeyOnly.
Context {collab : Collaborators}.
Variable keyContext : KeyContext.

Let Nb (b : SkBlender) : Prop :=
  blender_has_matrix_filter b = true ->
  fails (AddToKey_SkBlender_switch keyContext nullptr b).
Let Nf (f : SkColorFilter) : Prop :=
  filter_has_matrix_filter f = true ->
  fails (AddToKey_SkColorFilter_switch keyContext nullptr f).
Let Nc (c : ChildPtr) : Prop :=
  child_has_matrix_filter c = true ->
  fails (AddToKey_ChildPtr keyContext nullptr c).

Lemma fails_nullable (p : option SkColorFilter) :
  if_nonnull Nf p ->
  match p with Some f => filter_has_matrix_filter f | None => false end = true ->
  fails (match p with
         | None => ret tt
         | Some f => AddToKey_SkColorFilter_switch keyContext nullptr f
         end).
Proof. destruct p; cbn [if_nonnull]; intros H E; [now apply H | discriminate]. Qed.

Lemma fails_children children childInfo :
  Forall Nc children ->
  existsb child_has_matrix_filter children = true ->
  fails (AddChildrenToKey (AddToKey_ChildPtr keyContext nullptr) children childInfo).
Proof. unfold AddChildrenToKey. apply fails_for_each. Qed.

Lemma fails_Compose outer inner :
  if_nonnull Nf outer -> if_nonnull Nf inner -> Nf (SkComposeColorFilter outer inner).
Proof.
  intros Ho Hi E. cbn [filter_has_matrix_filter] in E. apply orb_true_iff in E.
  cbn [AddToKey_SkColorFilter_switch]. cbv zeta. unfold add_to_key_SkComposeColorFilter.
  destruct E as [E|E]; [apply (fails_nullable _ Hi) in E | apply (fails_nullable _ Ho) in E];
    find_failure.
Qed.

Lemma fails_WorkingFormat child workingFormat :
  if_nonnull Nf child -> Nf (SkWorkingFormatColorFilter child workingFormat).
Proof.
  intros Hc E. cbn [filter_has_matrix_filter] in E. apply (fails_nullable _ Hc) in E.
  cbn [AddToKey_SkColorFilter_switch]. cbv zeta.
  unfold add_to_key_SkWorkingFormatColorFilter. cbv zeta. find_failure.
Qed.

Lemma fails_RuntimeBlender effect uniforms children :
  Forall Nc children -> Nb (SkRuntimeBlender effect uniforms children).
Proof.
  intros H E. cbn [blender_has_matrix_filter] in E.
  cbn [AddToKey_SkBlender_switch]. unfold add_to_key_SkRuntimeBlender.
  apply fails_bind_r. intros _. apply fails_bind_r. intros e. cbv zeta.
  pose proof (fails_children children (rt_children e) H E). find_failure.
Qed.

Lemma fails_Runtime effect uniforms children :
  Forall Nc children -> Nf (SkRuntimeColorFilter effect uniforms children).
Proof.
  intros H E. cbn [filter_has_matrix_filter] in E.
  cbn [AddToKey_SkColorFilter_switch]. unfold add_to_key_SkRuntimeColorFilter.
  apply fails_bind_r. intros e. cbv zeta.
  pose proof (fails_children children (rt_children e) H E). find_failure.
Qed.

Lemma fails_Matrix matrix domain : Nf (SkMatrixColorFilter matrix domain).
Proof. intros _ env. reflexivity. Qed.

Lemma SkBlender_with_matrix_filter blender : Nb blender.
Proof.
  apply (SkBlender_induction Nb Nf Nc);
    auto using fails_Compose, fails_WorkingFormat, fails_RuntimeBlender, fails_Runtime,
      fails_Matrix;
    try (intros; intros E; discriminate E).
Qed.

Lemma SkColorFilter_with_matrix_filter filter : Nf filter.
Proof.
  apply (SkColorFilter_induction Nb Nf Nc);
    auto using fails_Compose, fails_WorkingFormat, fails_RuntimeBlender, fails_Runtime,
      fails_Matrix;
    try (intros; intros E; discriminate E).
Qed.

(** X7: key-only conversion cannot go through a matrix color filter.
    [add_to_key] hands the matrix writer a payload whatever the gatherer,
    and the writer asserts that payload and gatherer are null together; so
    with a null gatherer the conversion of any blender or color filter from
    which a matrix color filter is reached (through compose and
    working-format filters and runtime-effect children) fails, from every
    state. *)
Theorem matrix_filter_blocks_key_only blender filter env
    (Hblender : blender_has_matrix_filter blender = true)
    (Hfilter : filter_has_matrix_filter filter = true) :
  AddToKey_SkBlender keyContext nullptr (Some blender) env = None /\
  AddToKey_SkColorFilter keyContext nullptr (Some filter) env = None.
Proof.
  split.
  - exact (SkBlender_with_matrix_filter blender Hblender env).
  - exact (SkColorFilter_with_matrix_filter filter Hfilter env).
Qed.

End MatrixFilterKeyOnly.

(* ================================================================== *)
(** ** Gradients built by the constructor *)

Lemma fold_array_set_spec {A : Type} (value : Z -> A) (l : list Z) :
  forall (a : array A) j,
    (In j l -> fold_left (fun offs i => array_set offs i (value i)) l a j = value j) /\
    (~ In j l -> fold_left (fun offs i => array_set offs i (value i)) l a j = a j).
Proof.
  induction l as [|i l IH]; intros a j; cbn [fold_left].
  - split; [intros [] | reflexivity].
  - destruct (IH (array_set a i (value i)) j) as [IHin IHout].
    destruct (in_dec Z.eq_dec j l) as [Hin|Hout].
    + split; [intros _; now apply IHin | intros H; exfalso; apply H; now right].
    + rewrite (IHout Hout). unfold array_set.
      destruct (Z.eqb_spec j i) as [->|Hne].
      * split; [reflexivity | intros H; exfalso; apply H; now left].
      * split; [intros [H|H]; [congruence | contradiction] | reflexivity].
Qed.

Lemma even_offsets_spec numStops offsets0 j :
  even_offsets numStops offsets0 j
  = if (0 <=? j) && (j <? numStops)
    then f32_div (SkIntToFloat j) (SkIntToFloat (numStops - 1))
    else offsets0 j.
Proof.
  unfold even_offsets.
  destruct (fold_array_set_spec
              (fun i => f32_div (SkIntToFloat i) (SkIntToFloat (numStops - 1)))
              (int_range 0 numStops) offsets0 j) as [Hin Hout].
  destruct (Z.leb_spec 0 j), (Z.ltb_spec j numStops); cbn [andb];
    first [ apply Hin; apply in_int_range; lia
          | apply Hout; rewrite in_int_range; lia ].
Qed.

Lemma even_offsets_ends numStops :
  2 <= numStops <= 8 ->
  f32_div (SkIntToFloat 0) (SkIntToFloat (numStops - 1)) = f32_0 /\
  f32_div (SkIntToFloat (numStops - 1)) (SkIntToFloat (numStops - 1)) = f32_1.
Proof.
  intros H.
  assert (E : numStops = 2 \/ numStops = 3 \/ numStops = 4 \/ numStops = 5 \/
              numStops = 6 \/ numStops = 7 \/ numStops = 8) by lia.
  repeat destruct E as [E|E]; subst numStops; split; vm_compute; reflexivity.
Qed.

Section ConstructedGradients.
Context {collab : Collaborators}.

(** What the constructor leaves in the inline arrays. *)
Lemma GradientData_ctor_inline
    raw_colors raw_offsets type point0 point1 radius0 radius1 bias scale tm
    numStops colors offsets proxy interp gradData :
  GradientData_ctor raw_colors raw_offsets type point0 point1 radius0 radius1
    bias scale tm numStops colors offsets proxy interp = Some gradData ->
  numStops <= kNumInternalStorageStops ->
  1 <= numStops <= Z.of_nat (length colors) /\
  fColorsAndOffsetsProxy gradData = None /\
  exists os,
    match offsets with
    | Some offs => numStops <= Z.of_nat (length offs) /\
                   os = array_memcpy raw_offsets offs numStops
    | None => os = even_offsets numStops raw_offsets
    end /\
    forall j,
      j < kNumInternalStorageStops ->
      fColors gradData j
      = array_memcpy raw_colors colors numStops (Z.min j (numStops - 1)) /\
      fOffsets gradData j = os (Z.min j (numStops - 1)).
Proof.
  intros Hctor H8. unfold GradientData_ctor in Hctor.
  destruct (Z.leb_spec 1 numStops) as [H1|H1]; [cbn [negb] in Hctor | discriminate].
  destruct (Z.leb_spec numStops kNumInternalStorageStops); [|lia].
  destruct (Z.ltb_spec (Z.of_nat (length colors)) numStops) as [Hc|Hc]; [discriminate|].
  split; [lia|].
  match type of Hctor with
  | match ?o with _ => _ end = _ => destruct o as [os|] eqn:Hos; [|discriminate]
  end.
  destruct (extend_stops numStops (array_memcpy raw_colors colors numStops, os))
    as [cs' os'] eqn:Hext.
  injection Hctor as <-. cbn [fColors fOffsets fColorsAndOffsetsProxy].
  split; [reflexivity|]. exists os. split.
  - destruct offsets as [offs|].
    + destruct (Z.ltb_spec (Z.of_nat (length offs)) numStops); [discriminate|].
      injection Hos as <-. split; [lia | reflexivity].
    + now injection Hos as <-.
  - intros j Hj. destruct (extend_stops_spec _ _ _ _ _ Hext j) as [Hhigh Hlow].
    destruct (Z.lt_ge_cases j numStops) as [Hlt|Hge].
    + rewrite Z.min_l by lia. now apply Hlow.
    + rewrite Z.min_r by lia. apply Hhigh. lia.
Qed.

(** The gradient writer on data that satisfies its assertions. *)
Lemma GradientShaderBlocks_run keyContext g gradData env :
  fType gradData <> GT_kNone ->
  (gatherer_present g = true -> 8 < fNumStops gradData ->
   fColorsAndOffsetsProxy gradData <> None) ->
  GradientShaderBlocks_BeginBlock keyContext g gradData env
  = Some (tt, extend env
                [beginBlock_call
                   (gradient_snippet (fType gradData) (stop_path (fNumStops gradData)))]
                (when_gatherer g (gradient_uniforms gradData)) []).
Proof.
  intros Hgradient Hproxy.
  unfold GradientShaderBlocks_BeginBlock, gradient_uniforms, stop_path, when_gatherer,
    gradient_geometry, gradient_trailer, kNumInternalStorageStops.
  unfold add_linear_gradient_uniform_data, add_radial_gradient_uniform_data,
    add_sweep_gradient_uniform_data, add_conical_gradient_uniform_data,
    add_gradient_preamble, add_gradient_postamble, kNumInternalStorageStops.
  assert (Hp : gatherer_present g = true -> (8 <? fNumStops gradData) = true ->
               is_null (fColorsAndOffsetsProxy gradData) = false).
  { intros Hg Hn. apply Z.ltb_lt in Hn.
    destruct (fColorsAndOffsetsProxy gradData); [reflexivity|].
    now destruct (Hproxy Hg Hn). }
  destruct (fType gradData); [congruence| | | |];
    destruct g; cbn [gatherer_present andb] in *;
    destruct (Z.leb_spec (fNumStops gradData) 4) as [H4|H4];
    destruct (Z.leb_spec (fNumStops gradData) 8) as [H8|H8]; try lia;
    destruct (Z.ltb_spec 8 (fNumStops gradData)) as [H9|H9]; try lia;
    try rewrite (Hp eq_refl eq_refl);
    cbv zeta; cbn [gradient_snippet]; run_emit; rewrite ?andb_false_r; run_emit;
    try reflexivity.
Qed.

(** X8: a gradient built without offsets gets evenly spaced ones.  When
    the constructor is handed a null [offsets] and at most 8 stops, the
    offset of stop [i] is [float(i) / float(numStops - 1)]; for two stops or
    more the first offset is 0 and every position from the last stop to the
    end of the array holds 1; for a single stop the division is 0 / 0 and
    all eight positions hold a NaN. *)
Theorem GradientData_even_offsets
    raw_colors raw_offsets type point0 point1 radius0 radius1 bias scale tm
    numStops colors proxy interp gradData
    (Hctor : GradientData_ctor raw_colors raw_offsets type point0 point1 radius0 radius1
               bias scale tm numStops colors None proxy interp = Some gradData)
    (Hinline : numStops <= kNumInternalStorageStops) :
  (forall i, 0 <= i < numStops ->
             fOffsets gradData i = f32_div (SkIntToFloat i) (SkIntToFloat (numStops - 1))) /\
  (2 <= numStops ->
   fOffsets gradData 0 = f32_0 /\
   forall i, numStops - 1 <= i < kNumInternalStorageStops -> fOffsets gradData i = f32_1) /\
  (numStops = 1 ->
   forall i, 0 <= i < kNumInternalStorageStops -> fOffsets gradData i = S754_nan).
Proof.
  destruct (GradientData_ctor_inline _ _ _ _ _ _ _ _ _ _ _ _ _ _ _ _ Hctor Hinline)
    as (Hn & _ & os & -> & Harr).
  unfold kNumInternalStorageStops in *.
  assert (Hoff : forall i, 0 <= i < 8 ->
            fOffsets gradData i
            = f32_div (SkIntToFloat (Z.min i (numStops - 1))) (SkIntToFloat (numStops - 1))).
  { intros i Hi. destruct (Harr i ltac:(lia)) as [_ ->]. rewrite even_offsets_spec.
    destruct (Z.leb_spec 0 (Z.min i (numStops - 1))),
             (Z.ltb_spec (Z.min i (numStops - 1)) numStops); try lia. reflexivity. }
  split; [|split].
  - intros i Hi. rewrite Hoff by lia. now rewrite Z.min_l by lia.
  - intros H2. destruct (even_offsets_ends numStops ltac:(lia)) as [E0 E1]. split.
    + rewrite Hoff by lia. now rewrite Z.min_l by lia.
    + intros i Hi. rewrite Hoff by lia. now rewrite Z.min_r by lia.
  - intros -> i Hi. rewrite Hoff by lia. rewrite Z.min_r by lia. reflexivity.
Qed.

(** X9: a gradient built by the constructor is always converted.  For a
    linear, radial, sweep or conical gradient that the full constructor
    returned, [BeginBlock] completes in either gatherer mode (the proxy
    assertion of the texture path holds by construction), beginning the
    snippet of the type and stop count and writing the uniforms of that
    path; on the inline paths the color array written holds the caller's
    colors followed by copies of the last one, and so does the offset array
    when the caller gave offsets. *)
Theorem constructed_gradient_converts keyContext g env default_color default_offset
    raw_colors raw_offsets type point0 point1 radius0 radius1 bias scale tm
    numStops colors offsets proxy interp gradData
    (Hctor : GradientData_ctor raw_colors raw_offsets type point0 point1 radius0 radius1
               bias scale tm numStops colors offsets proxy interp = Some gradData)
    (Htype : type <> GT_kNone) :
  GradientShaderBlocks_BeginBlock keyContext g gradData env
  = Some (tt, extend env
                [beginBlock_call (gradient_snippet type (stop_path numStops))]
                (when_gatherer g (gradient_uniforms gradData)) [])
  /\ (numStops <= kNumInternalStorageStops ->
      forall n, (n <= 8)%nat ->
        span (fColors gradData) n
        = map (fun i => nth (stop_at numStops i) colors default_color) (seq 0 n)
        /\ forall offs, offsets = Some offs ->
             span (fOffsets gradData) n
             = map (fun i => nth (stop_at numStops i) offs default_offset) (seq 0 n)).
Proof.
  assert (Hfields : fType gradData = type /\ fNumStops gradData = numStops /\
                    (8 < numStops -> fColorsAndOffsetsProxy gradData <> None)).
  { unfold GradientData_ctor, kNumInternalStorageStops in Hctor.
    destruct (negb (1 <=? numStops)); [discriminate|].
    destruct (Z.leb_spec numStops 8).
    - destruct (Z.of_nat (length colors) <? numStops); [discriminate|].
      match type of Hctor with
      | match ?o with _ => _ end = _ => destruct o as [os|]; [|discriminate]
      end.
      destruct (extend_stops _ _). injection Hctor as <-. cbn. repeat split. lia.
    - destruct proxy; [|discriminate]. injection Hctor as <-. cbn. repeat split.
      discriminate. }
  destruct Hfields as (Ht & Hn & Hp). split.
  - rewrite <- Ht, <- Hn. apply GradientShaderBlocks_run.
    + now rewrite Ht.
    + intros _. rewrite Hn. exact Hp.
  - intros Hinline n Hle.
    destruct (GradientData_ctor_inline _ _ _ _ _ _ _ _ _ _ _ _ _ _ _ _ Hctor Hinline)
      as (Hlen & _ & os & Hos & Harr).
    unfold kNumInternalStorageStops in *. split.
    + unfold span. apply map_ext_in. intros i Hi. apply in_seq in Hi.
      destruct (Harr (Z.of_nat i) ltac:(lia)) as [-> _].
      unfold array_memcpy, stop_at.
      destruct (Z.leb_spec 0 (Z.min (Z.of_nat i) (numStops - 1))),
               (Z.ltb_spec (Z.min (Z.of_nat i) (numStops - 1)) numStops); try lia.
      cbn [andb]. apply nth_indep. lia.
    + intros offs ->. destruct Hos as [Hlo ->].
      unfold span. apply map_ext_in. intros i Hi. apply in_seq in Hi.
      destruct (Harr (Z.of_nat i) ltac:(lia)) as [_ ->].
      unfold array_memcpy, stop_at.
      destruct (Z.leb_spec 0 (Z.min (Z.of_nat i) (numStops - 1))),
               (Z.ltb_spec (Z.min (Z.of_nat i) (numStops - 1)) numStops); try lia.
      cbn [andb]. apply nth_indep. lia.
Qed.

End ConstructedGradients.

(* ================================================================== *)
(** ** Further properties of the block writers *)

Section WriterProperties.
Context {collab : Collaborators}.

Lemma for_each_on_gatherer {A : Type} (xs : list A) (call : A -> GathererCall) env :
  for_each xs (fun x => on_gatherer (call x)) env
  = Some (tt, extend env [] (map call xs) []).
Proof.
  revert env. induction xs as [|x xs IH]; intros env.
  - cbn. unfold ret. now rewrite extend_nil.
  - change (for_each (x :: xs) (fun x => on_gatherer (call x)))
      with (bind (on_gatherer (call x)) (fun _ => for_each xs (fun x => on_gatherer (call x)))).
    unfold bind. rewrite on_gatherer_extend, IH, extend_extend. reflexivity.
Qed.

Lemma color_space_uniforms_shapes steps :
  map call_shape (color_space_uniforms steps) = color_space_shapes.
Proof.
  unfold color_space_uniforms, transfer_slot, gamut_slot.
  destruct (linearize (flags steps)), (encode (flags steps)); reflexivity.
Qed.

(** X10: the uniforms of an image shader have a fixed layout.  With a
    gatherer and a payload whose texture is there, [ImageShaderBlock]
    begins the image block, binds that one texture first, then writes the
    texture size, the subset, the two tile modes, the filter mode, the cubic
    flag, a half 4x4 matrix, the read swizzle and the six color-space
    uniforms: the same fifteen calls with the same shapes whether or not
    cubic sampling is on and whatever steps the color-space transform has. *)
Theorem image_shader_uniform_layout keyContext imgData proxy env
    (Hproxy : img_fTextureProxy imgData = Some proxy) :
  ImageShaderBlock_BeginBlock keyContext gatherer_ptr (Some imgData) env
  = Some (tt, extend env [beginBlock_call kImageShader] (image_uniforms imgData proxy) [])
  /\ map call_shape (image_uniforms imgData proxy)
     = shape_texture :: image_uniform_shapes ++ color_space_shapes.
Proof.
  split.
  - unfold ImageShaderBlock_BeginBlock, add_image_uniform_data, image_uniforms,
      sampling_uniforms.
    cbv zeta. run_emit. rewrite Hproxy. run_emit.
    destruct (useCubic (img_fSampling imgData)); run_emit;
      rewrite add_color_space_uniforms_extend; run_emit; now rewrite ?app_nil_r.
  - unfold image_uniforms, sampling_uniforms. rewrite !map_app, color_space_uniforms_shapes.
    reflexivity.
Qed.

(** X11: the uniforms of a YUV image shader have a fixed layout too.  With
    a gatherer and all four plane textures there, [YUVImageShaderBlock]
    begins the YUV block, binds the four planes in order, then writes the
    image size, the subset, the tile modes, the filter mode, the cubic flag,
    a half 4x4 matrix, the four channel selectors, the YUV-to-RGB matrix and
    translation, and the six color-space uniforms. *)
Theorem yuv_image_uniform_layout keyContext imgData env
    (Hplanes : forall i, 0 <= i < 4 -> yuv_fTextureProxies imgData i <> None) :
  YUVImageShaderBlock_BeginBlock keyContext gatherer_ptr (Some imgData) env
  = Some (tt, extend env [beginBlock_call kYUVImageShader] (yuv_image_uniforms imgData) [])
  /\ map call_shape (yuv_image_uniforms imgData)
     = repeat shape_texture 4 ++ yuv_uniform_shapes ++ color_space_shapes.
Proof.
  split.
  - assert (H : forall i, 0 <= i < 4 -> is_null (yuv_fTextureProxies imgData i) = false).
    { intros i Hi. specialize (Hplanes i Hi).
      now destruct (yuv_fTextureProxies imgData i). }
    unfold YUVImageShaderBlock_BeginBlock, add_yuv_image_uniform_data, yuv_image_uniforms,
      sampling_uniforms.
    cbv zeta. run_emit.
    rewrite (H 0), (H 1), (H 2), (H 3) by lia. cbn [orb].
    change (int_range 0 4) with [0; 1; 2; 3].
    run_emit. rewrite for_each_on_gatherer. run_emit.
    destruct (useCubic (yuv_fSampling imgData)); run_emit;
      rewrite for_each_on_gatherer; run_emit;
      rewrite add_color_space_uniforms_extend; run_emit; now rewrite ?app_nil_r.
  - unfold yuv_image_uniforms, sampling_uniforms.
    rewrite !map_app, color_space_uniforms_shapes. reflexivity.
Qed.

(** X12: a fallback leaves no partial data behind.  When a writer called
    with a gatherer puts a fallback block in place of its own (image or YUV
    image with a missing texture, dither shader or table filter without a
    LUT proxy), the builder receives the fallback snippet alone and the
    gatherer receives only what that fallback needs: the error color for the
    solid-color fallback, nothing for the prior-output one.  No texture is
    bound and none of the writer's own uniforms is written. *)
Theorem fallback_writes_no_partial_data keyContext w env env'
    (Hfallback : substitutes_fallback keyContext w = true)
    (Hrun : BeginBlock keyContext gatherer_ptr w env = Some (tt, env')) :
  env' = extend env [beginBlock_call (fallback_snippet w)] (fallback_data w) [].
Proof.
  destruct w; cbn [substitutes_fallback] in Hfallback; try discriminate Hfallback;
    cbn [BeginBlock fallback_snippet fallback_data] in *.
  - destruct imgData as [d|]; [|discriminate Hfallback].
    unfold ImageShaderBlock_BeginBlock in Hrun. revert Hrun. run_emit.
    rewrite Hfallback. rewrite SolidColorShaderBlock_extend. now intros [= <-].
  - destruct imgData as [d|]; [|discriminate Hfallback].
    unfold YUVImageShaderBlock_BeginBlock in Hrun. revert Hrun. run_emit.
    rewrite Hfallback. rewrite SolidColorShaderBlock_extend. now intros [= <-].
  - unfold DitherShaderBlock_BeginBlock in Hrun. revert Hrun.
    destruct ditherData as [d|]; run_emit; [|discriminate].
    rewrite Hfallback. rewrite PriorOutputBlock_extend. now intros [= <-].
  - unfold TableColorFilterBlock_BeginBlock in Hrun. revert Hrun. run_emit.
    rewrite Hfallback. rewrite PriorOutputBlock_extend. now intros [= <-].
Qed.

(** X13: when a block writer completes, in a checked build.  [BeginBlock]
    fails on the calls that break one of its assertions, dereference a null
    pointer or break the uniform validator of a runtime effect: a payload
    pointer that is not null exactly when the gatherer is (local matrix,
    image, YUV image, coordinate clamp, dither, Perlin noise, matrix color
    filter); a gradient of type none; and, with a gatherer, a texture-path
    gradient without its proxy, a null destination texture, blend
    coefficients that are not four, a null color-space payload, or a runtime
    effect whose dictionary entry, effect or uniform data is missing or whose
    entry does not declare as many uniforms as the effect has.  On every
    other call it completes, having begun exactly one block, the writer's
    own or its fallback; in particular the unreachable branch of the
    gradient preamble is never reached.  The uniform declarations of the
    built-in snippets belong to the code dictionary and are not modelled:
    the writers are taken to agree with them. *)
Theorem BeginBlock_completes_iff_accepted keyContext g w env :
  if accepts keyContext g w
  then exists gs ds,
         BeginBlock keyContext g w env
         = Some (tt, extend env [beginBlock_call (emitted_snippet keyContext g w)] gs ds)
  else BeginBlock keyContext g w env = None.
Proof.
  destruct w; cbn [accepts payload_is_null BeginBlock].
  all: try match goal with d : option _ |- _ => destruct d end.
  all: try (destruct g; cbn [gatherer_present negb Bool.eqb is_null orb andb];
            first [ reflexivity
                  | unfold PriorOutputBlock_BeginBlock, SolidColorShaderBlock_BeginBlock,
                      DstReadSampleBlock_BeginBlock, DstReadFetchBlock_BeginBlock,
                      LocalMatrixShaderBlock_BeginBlock, CoordClampShaderBlock_BeginBlock,
                      PerlinNoiseShaderBlock_BeginBlock, BlendShaderBlock_BeginBlock,
                      BlendModeBlenderBlock_BeginBlock, DstColorBlock_BeginBlock,
                      PrimitiveColorBlock_BeginBlock, ColorFilterShaderBlock_BeginBlock,
                      MatrixColorFilterBlock_BeginBlock, ComposeColorFilterBlock_BeginBlock,
                      GaussianColorFilterBlock_BeginBlock, ImageShaderBlock_BeginBlock,
                      YUVImageShaderBlock_BeginBlock, DitherShaderBlock_BeginBlock,
                      ColorSpaceTransformBlock_BeginBlock,
                      add_solid_uniform_data, add_dst_read_sample_uniform_data,
                      add_localmatrixshader_uniform_data, add_coordclamp_uniform_data,
                      add_perlin_noise_uniform_data, add_matrix_colorfilter_uniform_data,
                      add_color_space_xform_uniform_data;
                    run_emit; rewrite ?add_color_space_uniforms_extend; run_emit;
                    solve [eexists _, _; reflexivity] ]).
  - (* destination read by sampling *)
    unfold DstReadSampleBlock_BeginBlock, add_dst_read_sample_uniform_data.
    destruct g, dstTexture; cbn [gatherer_present negb is_null orb]; run_emit;
      first [reflexivity | eexists _, _; reflexivity].
  - (* gradients *)
    unfold emitted_snippet. cbn [substitutes_fallback]. rewrite andb_false_r.
    cbn [writer_snippet].
    destruct (match fType gradData with GT_kNone => false | _ => true end) eqn:Hkind;
      cbn [andb].
    + destruct (negb _ || negb _) eqn:Hok.
      * eexists _, _. apply GradientShaderBlocks_run.
        -- intros Htype. rewrite Htype in Hkind. discriminate Hkind.
        -- intros Hg Hn Hnull. rewrite Hg, Hnull in Hok.
           unfold kNumInternalStorageStops in Hok.
           apply Z.ltb_lt in Hn. rewrite Hn in Hok. discriminate Hok.
      * apply orb_false_iff in Hok as [Hpath Hnull]. apply negb_false_iff in Hpath, Hnull.
        unfold GradientShaderBlocks_BeginBlock. rewrite andb_comm, Hpath, Hnull.
        reflexivity.
    + unfold GradientShaderBlocks_BeginBlock.
      destruct (fType gradData); try discriminate Hkind.
      apply fails_bind_r. intros _. apply fails_bind_l. intros env0. reflexivity.
  - (* image *)
    destruct g; cbn [gatherer_present negb Bool.eqb is_null]; [reflexivity|].
    unfold emitted_snippet, ImageShaderBlock_BeginBlock, SolidColorShaderBlock_BeginBlock,
      add_solid_uniform_data, add_image_uniform_data.
    cbn [substitutes_fallback gatherer_present andb]. cbv zeta.
    simpl_emit.
    destruct (img_fTextureProxy i); run_emit; [|eexists _, _; reflexivity].
    destruct (useCubic (img_fSampling i)); run_emit;
      rewrite add_color_space_uniforms_extend; run_emit; eexists _, _; reflexivity.
  - (* YUV image *)
    destruct g; cbn [gatherer_present negb Bool.eqb is_null]; [reflexivity|].
    unfold emitted_snippet, YUVImageShaderBlock_BeginBlock, SolidColorShaderBlock_BeginBlock,
      add_solid_uniform_data, add_yuv_image_uniform_data.
    cbn [substitutes_fallback gatherer_present andb]. cbv zeta.
    change (int_range 0 4) with [0; 1; 2; 3]. simpl_emit.
    destruct (yuv_fTextureProxies y 0), (yuv_fTextureProxies y 1),
      (yuv_fTextureProxies y 2), (yuv_fTextureProxies y 3);
      run_emit; try (eexists _, _; reflexivity).
    rewrite for_each_on_gatherer. run_emit.
    destruct (useCubic (yuv_fSampling y)); run_emit;
      rewrite for_each_on_gatherer; run_emit;
      rewrite add_color_space_uniforms_extend; run_emit; eexists _, _; reflexivity.
  - (* dither *)
    destruct g; cbn [gatherer_present negb Bool.eqb is_null]; [reflexivity|].
    unfold emitted_snippet, DitherShaderBlock_BeginBlock, PriorOutputBlock_BeginBlock,
      add_dither_uniform_data.
    cbn [substitutes_fallback gatherer_present andb]. cbv zeta.
    simpl_emit.
    destruct (CreateCachedProxy (recorder keyContext) MakeDitherLUT);
      run_emit; eexists _, _; reflexivity.
  - (* blend coefficients *)
    unfold CoeffBlenderBlock_BeginBlock.
    destruct g; cbn [gatherer_present negb orb]; [run_emit; eexists _, _; reflexivity|].
    destruct (Nat.eqb (length coeffs) 4); run_emit;
      first [reflexivity | eexists _, _; reflexivity].
  - (* table color filter *)
    unfold emitted_snippet, TableColorFilterBlock_BeginBlock, PriorOutputBlock_BeginBlock,
      add_table_colorfilter_uniform_data.
    cbn [substitutes_fallback].
    destruct g, (table_fTextureProxy data); cbn [gatherer_present andb is_null];
      run_emit; eexists _, _; reflexivity.
  - (* runtime effects *)
    destruct g; cbn [gatherer_present negb orb].
    + unfold RuntimeEffectBlock_BeginBlock. run_emit. eexists _, _. reflexivity.
    + rewrite RuntimeEffectBlock_run.
      destruct (getEntry _ _); [|reflexivity].
      destruct (fEffect shaderData) eqn:He; [|reflexivity].
      destruct (sd_fUniforms shaderData); [|reflexivity].
      destruct (_ =? _)%nat; [|reflexivity].
      unfold emitted_snippet. cbn [substitutes_fallback andb writer_snippet gatherer_present].
      rewrite He. eexists _, _. reflexivity.
Qed.


End WriterProperties.

(* ================================================================== *)
(** ** The runtime-effect dictionary *)

Lemma preserves_dict_beginBlock id : preserves rtEffectDict (beginBlock id).
Proof. intros env a env' H. now inversion H. Qed.

Lemma preserves_dict_endBlock : preserves rtEffectDict endBlock.
Proof. intros env a env' H. now inversion H. Qed.

Lemma preserves_dict_on_gatherer c : preserves rtEffectDict (on_gatherer c).
Proof. intros env a env' H. now inversion H. Qed.

#[local] Hint Resolve preserves_dict_beginBlock preserves_dict_endBlock
  preserves_dict_on_gatherer : preserves.

Lemma registers_ret : registers (ret tt) [].
Proof. intros env env' H. now inversion H. Qed.

Lemma registers_nothing m : preserves rtEffectDict m -> registers m [].
Proof. intros H env env' Hrun. exact (H _ _ _ Hrun). Qed.

Lemma registers_bind m k a b :
  registers m a -> registers k b -> registers (bind m (fun _ => k)) (a ++ b).
Proof.
  intros Hm Hk env env' H.
  apply bind_inv in H as ([] & env1 & H1 & H2).
  rewrite (Hk _ _ H2), (Hm _ _ H1), rev_app_distr.
  unfold RuntimeEffectDictionary_sets. now rewrite fold_right_app.
Qed.

Lemma registers_set id effect : registers (rtEffectDict_set id effect) [(id, effect)].
Proof. intros env env' H. rewrite rtEffectDict_set_extend in H. now inversion H. Qed.

(** Reading the dictionary after a set, and after a sequence of sets. *)
Lemma RuntimeEffectDictionary_find_filter id k d :
  (k =? id) = false ->
  RuntimeEffectDictionary_find id (List.filter (fun entry => negb (fst entry =? k)) d)
  = RuntimeEffectDictionary_find id d.
Proof.
  intros Hk. induction d as [|[k' e] d IH]; [reflexivity|].
  cbn [List.filter fst RuntimeEffectDictionary_find].
  destruct (Z.eqb_spec k' k) as [->|Hne]; cbn [negb RuntimeEffectDictionary_find].
  - now rewrite Hk.
  - now rewrite IH.
Qed.

Lemma RuntimeEffectDictionary_find_set id k effect d :
  RuntimeEffectDictionary_find id (RuntimeEffectDictionary_set k effect d)
  = if k =? id then Some effect else RuntimeEffectDictionary_find id d.
Proof.
  unfold RuntimeEffectDictionary_set. cbn [RuntimeEffectDictionary_find].
  destruct (k =? id) eqn:Hk; [reflexivity|].
  now apply RuntimeEffectDictionary_find_filter.
Qed.

Lemma RuntimeEffectDictionary_find_sets id ds d :
  RuntimeEffectDictionary_find id (RuntimeEffectDictionary_sets ds d)
  = match RuntimeEffectDictionary_find id ds with
    | Some effect => Some effect
    | None => RuntimeEffectDictionary_find id d
    end.
Proof.
  induction ds as [|[k e] ds IH]; [reflexivity|].
  cbn [RuntimeEffectDictionary_sets fold_right fst snd RuntimeEffectDictionary_find].
  rewrite RuntimeEffectDictionary_find_set.
  destruct (k =? id); [reflexivity | exact IH].
Qed.

Lemma registers_skip {A : Type} (m : Emit A) (k : A -> Emit unit) entries :
  preserves rtEffectDict m -> (forall a, registers (k a) entries) ->
  registers (bind m k) entries.
Proof.
  intros Hm Hk env env' H.
  apply bind_inv in H as (a & env1 & H1 & H2).
  rewrite (Hk _ _ _ H2). now rewrite (Hm _ _ _ H1).
Qed.

Lemma registers_then m k entries :
  registers m entries -> preserves rtEffectDict k -> registers (bind m (fun _ => k)) entries.
Proof.
  intros Hm Hk. rewrite <- (app_nil_r entries).
  apply registers_bind; [exact Hm | now apply registers_nothing].
Qed.

Lemma registers_for_each {A : Type} (xs : list A) (body : A -> Emit unit)
    (effects : A -> list (Z * sk_sp SkRuntimeEffect)) :
  Forall (fun x => registers (body x) (effects x)) xs ->
  registers (for_each xs body) (flat_map effects xs).
Proof.
  induction 1 as [|x xs Hx _ IH].
  - apply registers_ret.
  - change (for_each (x :: xs) body) with (bind (body x) (fun _ => for_each xs body)).
    cbn [flat_map]. now apply registers_bind.
Qed.

Section Dictionary.
Context {collab : Collaborators}.
Variable keyContext : KeyContext.
Variable shader_effects : SkShader -> list (Z * sk_sp SkRuntimeEffect).
Variable g : GathererPtr.

Hypothesis shaders :
  forall shader, registers (SkShader_addToKey keyContext g shader) (shader_effects shader).

Let Rb (b : SkBlender) : Prop :=
  registers (AddToKey_SkBlender_switch keyContext g b)
            (blender_effects keyContext shader_effects b).
Let Rf (f : SkColorFilter) : Prop :=
  registers (AddToKey_SkColorFilter_switch keyContext g f)
            (filter_effects keyContext shader_effects f).
Let Rc (c : ChildPtr) : Prop :=
  registers (AddToKey_ChildPtr keyContext g c)
            (child_effects keyContext shader_effects c).

Lemma preserves_dict_add_color_space_uniforms steps :
  preserves rtEffectDict (add_color_space_uniforms steps).
Proof. unfold add_color_space_uniforms. prove_preserves. Qed.

Lemma preserves_dict_gather rts us data :
  preserves rtEffectDict (gather_runtime_effect_uniforms rts us data).
Proof. unfold gather_runtime_effect_uniforms. prove_preserves. Qed.

#[local] Hint Resolve preserves_dict_add_color_space_uniforms preserves_dict_gather
  : preserves.

Ltac dict_writers :=
  unfold add_to_key_SkBlendModeBlender, add_to_key_SkBlendModeColorFilter,
    add_to_key_SkColorSpaceXformColorFilter, add_to_key_SkGaussianColorFilter,
    add_to_key_SkMatrixColorFilter, add_to_key_SkTableColorFilter,
    AddColorBlendBlock,
    PriorOutputBlock_BeginBlock, SolidColorShaderBlock_BeginBlock,
    BlendShaderBlock_BeginBlock, BlendModeBlenderBlock_BeginBlock,
    CoeffBlenderBlock_BeginBlock, MatrixColorFilterBlock_BeginBlock,
    ComposeColorFilterBlock_BeginBlock, GaussianColorFilterBlock_BeginBlock,
    TableColorFilterBlock_BeginBlock, ColorSpaceTransformBlock_BeginBlock,
    PriorOutputBlock_BeginBlock, add_solid_uniform_data,
    add_matrix_colorfilter_uniform_data, add_table_colorfilter_uniform_data,
    add_color_space_xform_uniform_data;
  cbv zeta.

Lemma RuntimeEffectBlock_registers shaderData :
  registers (RuntimeEffectBlock_BeginBlock keyContext g shaderData)
            [(findOrCreateRuntimeEffectSnippet (dict keyContext) (fEffect shaderData),
              fEffect shaderData)].
Proof.
  unfold RuntimeEffectBlock_BeginBlock. cbv zeta.
  apply registers_then; [apply registers_set | destruct g; prove_preserves].
Qed.

Lemma dict_nullable (p : option SkColorFilter) :
  if_nonnull Rf p ->
  registers (match p with
             | None => ret tt
             | Some f => AddToKey_SkColorFilter_switch keyContext g f
             end)
            (nullable_effects (filter_effects keyContext shader_effects) p).
Proof. destruct p; intros H; [exact H | apply registers_ret]. Qed.

Lemma dict_children children childInfo :
  Forall Rc children ->
  registers (AddChildrenToKey (AddToKey_ChildPtr keyContext g) children childInfo)
            (flat_map (child_effects keyContext shader_effects) children).
Proof. intros H. unfold AddChildrenToKey. now apply registers_for_each. Qed.

Lemma dict_RuntimeBlender effect uniforms children :
  Forall Rc children -> Rb (SkRuntimeBlender effect uniforms children).
Proof.
  intros H. pose proof (fun info => dict_children children info H) as Hc.
  unfold Rb. cbn [AddToKey_SkBlender_switch blender_effects].
  unfold add_to_key_SkRuntimeBlender.
  apply registers_skip; [prove_preserves | intros _].
  apply registers_skip; [prove_preserves | intros e]. cbv zeta.
  apply registers_skip; [prove_preserves | intros _].
  match goal with |- registers _ (?x :: ?l) => change (x :: l) with ([x] ++ l) end.
  apply registers_bind; [exact (RuntimeEffectBlock_registers _)|].
  apply registers_then; [apply Hc | auto with preserves].
Qed.

Lemma dict_Runtime effect uniforms children :
  Forall Rc children -> Rf (SkRuntimeColorFilter effect uniforms children).
Proof.
  intros H. pose proof (fun info => dict_children children info H) as Hc.
  unfold Rf. cbn [AddToKey_SkColorFilter_switch filter_effects]. cbv zeta.
  unfold add_to_key_SkRuntimeColorFilter.
  apply registers_skip; [prove_preserves | intros e]. cbv zeta.
  apply registers_skip; [prove_preserves | intros _].
  match goal with |- registers _ (?x :: ?l) => change (x :: l) with ([x] ++ l) end.
  apply registers_bind; [exact (RuntimeEffectBlock_registers _)|].
  apply registers_then; [apply Hc | auto with preserves].
Qed.

Lemma dict_Compose outer inner :
  if_nonnull Rf outer -> if_nonnull Rf inner -> Rf (SkComposeColorFilter outer inner).
Proof.
  intros Ho Hi. apply dict_nullable in Ho, Hi.
  unfold Rf. cbn [AddToKey_SkColorFilter_switch filter_effects]. cbv zeta.
  unfold add_to_key_SkComposeColorFilter, ComposeColorFilterBlock_BeginBlock.
  apply registers_skip; [prove_preserves | intros _].
  apply registers_bind; [exact Hi|].
  apply registers_then; [exact Ho | auto with preserves].
Qed.

Lemma dict_WorkingFormat child workingFormat :
  if_nonnull Rf child -> Rf (SkWorkingFormatColorFilter child workingFormat).
Proof.
  intros Hc. apply dict_nullable in Hc.
  unfold Rf. cbn [AddToKey_SkColorFilter_switch filter_effects]. cbv zeta.
  unfold add_to_key_SkWorkingFormatColorFilter. cbv zeta.
  destruct (workingFormat _) as [workingCS workingAT].
  unfold ComposeColorFilterBlock_BeginBlock, ColorSpaceTransformBlock_BeginBlock,
    add_color_space_xform_uniform_data.
  do 4 (apply registers_skip; [destruct g; prove_preserves | intros _]).
  apply registers_then; [exact Hc | destruct g; prove_preserves].
Qed.

Lemma SkBlender_dict blender : Rb blender.
Proof.
  apply (SkBlender_induction Rb Rf Rc);
    auto using dict_RuntimeBlender, dict_Runtime, dict_Compose, dict_WorkingFormat,
      registers_ret;
    unfold Rb, Rf, Rc;
    cbn [AddToKey_SkBlender_switch AddToKey_SkColorFilter_switch AddToKey_ChildPtr
           blender_effects filter_effects child_effects];
    intros; try apply shaders;
    apply registers_nothing; dict_writers; destruct g; prove_preserves.
Qed.

Lemma SkColorFilter_dict filter : Rf filter.
Proof.
  apply (SkColorFilter_induction Rb Rf Rc);
    auto using dict_RuntimeBlender, dict_Runtime, dict_Compose, dict_WorkingFormat,
      registers_ret;
    unfold Rb, Rf, Rc;
    cbn [AddToKey_SkBlender_switch AddToKey_SkColorFilter_switch AddToKey_ChildPtr
           blender_effects filter_effects child_effects];
    intros; try apply shaders;
    apply registers_nothing; dict_writers; destruct g; prove_preserves.
Qed.

End Dictionary.

Section DictionaryProperties.
Context {collab : Collaborators}.

(** X14: the conversion sets the runtime effects of the tree in the
    runtime-effect dictionary, and nothing else.  After a completed
    [AddToKey], in either gatherer mode, the dictionary is the one it was
    with each runtime blender and runtime color filter of the tree set
    under its snippet identifier, in the order the conversion meets them (a
    node before its children, the children in order, an inner filter before
    the outer one).  Read by identifier: the identifier of a runtime node
    maps to the effect of the node met last under it, an effect used twice
    leaving one entry; every other identifier maps to what it mapped
    before.  Shader children set what the shader hierarchy sets for them. *)
Theorem AddToKey_registers_runtime_effects keyContext shader_effects g blender filter
    env env1 env2
    (Hshaders : forall shader,
        registers (SkShader_addToKey keyContext g shader) (shader_effects shader))
    (Hblender : AddToKey_SkBlender keyContext g blender env = Some (tt, env1))
    (Hfilter : AddToKey_SkColorFilter keyContext g filter env = Some (tt, env2)) :
  rtEffectDict env1
  = RuntimeEffectDictionary_sets
      (rev (nullable_effects (blender_effects keyContext shader_effects) blender))
      (rtEffectDict env) /\
  rtEffectDict env2
  = RuntimeEffectDictionary_sets
      (rev (nullable_effects (filter_effects keyContext shader_effects) filter))
      (rtEffectDict env) /\
  (forall id,
      RuntimeEffectDictionary_find id (rtEffectDict env1)
      = match RuntimeEffectDictionary_find id
                (rev (nullable_effects (blender_effects keyContext shader_effects) blender))
        with
        | Some effect => Some effect
        | None => RuntimeEffectDictionary_find id (rtEffectDict env)
        end) /\
  (forall id,
      RuntimeEffectDictionary_find id (rtEffectDict env2)
      = match RuntimeEffectDictionary_find id
                (rev (nullable_effects (filter_effects keyContext shader_effects) filter))
        with
        | Some effect => Some effect
        | None => RuntimeEffectDictionary_find id (rtEffectDict env)
        end).
Proof.
  assert (Hb : rtEffectDict env1
               = RuntimeEffectDictionary_sets
                   (rev (nullable_effects (blender_effects keyContext shader_effects) blender))
                   (rtEffectDict env)).
  { destruct blender as [b|]; cbn [AddToKey_SkBlender nullable_effects] in *.
    - exact (SkBlender_dict keyContext shader_effects g Hshaders b _ _ Hblender).
    - exact (registers_ret _ _ Hblender). }
  assert (Hf : rtEffectDict env2
               = RuntimeEffectDictionary_sets
                   (rev (nullable_effects (filter_effects keyContext shader_effects) filter))
                   (rtEffectDict env)).
  { destruct filter as [f|]; cbn [AddToKey_SkColorFilter nullable_effects] in *.
    - exact (SkColorFilter_dict keyContext shader_effects g Hshaders f _ _ Hfilter).
    - exact (registers_ret _ _ Hfilter). }
  split; [exact Hb|]. split; [exact Hf|].
  split; intros id; [rewrite Hb | rewrite Hf]; apply RuntimeEffectDictionary_find_sets.
Qed.

End DictionaryProperties.

(* ================================================================== *)
(** ** The further properties on the sample inputs *)

Section MoreSamples.
#[local] Existing Instance sample_collaborators.

Lemma sample_shader_blocks_emitted keyContext g shader :
  emits_calls (SkShader_addToKey keyContext g shader)
              (forest_calls (sample_shader_blocks shader)).
Proof.
  intros env env' H. cbn [SkShader_addToKey sample_collaborators] in H.
  unfold bind in H. rewrite SolidColorShaderBlock_extend, endBlock_extend in H.
  injection H as <-. unfold built. cbn. now rewrite <- app_assoc.
Qed.

Lemma sample_shaders_spare_gatherer keyContext shader :
  preserves gatherer (SkShader_addToKey keyContext nullptr shader).
Proof.
  intros env a env' H. cbn [SkShader_addToKey sample_collaborators] in H.
  unfold bind in H. rewrite SolidColorShaderBlock_extend, endBlock_extend in H.
  apply (f_equal (fun r => match r with Some (_, e) => gatherer e | None => [] end)) in H.
  cbn in H. rewrite ?app_nil_r in H. now rewrite <- H.
Qed.

(** The runtime blender with four children and the working-format filter:
    their keys, read off the trees. *)
Lemma AddToKey_key_of_tree_witness :
  builder (run_env (AddToKey_SkBlender sample_keyContext gatherer_ptr (Some sample_blender)))
  = forest_calls [blender_key sample_keyContext sample_shader_blocks sample_blender] /\
  builder (run_env (AddToKey_SkColorFilter sample_keyContext gatherer_ptr
                      (Some sample_filter)))
  = forest_calls [filter_key sample_keyContext sample_shader_blocks sample_filter].
Proof.
  assert (H1 : AddToKey_SkBlender sample_keyContext gatherer_ptr (Some sample_blender)
                 empty_env
               = Some (tt, run_env (AddToKey_SkBlender sample_keyContext gatherer_ptr
                                      (Some sample_blender))))
    by (vm_compute; reflexivity).
  assert (H2 : AddToKey_SkColorFilter sample_keyContext gatherer_ptr (Some sample_filter)
                 empty_env
               = Some (tt, run_env (AddToKey_SkColorFilter sample_keyContext gatherer_ptr
                                      (Some sample_filter))))
    by (vm_compute; reflexivity).
  exact (AddToKey_key_of_tree sample_keyContext sample_shader_blocks gatherer_ptr
           (Some sample_blender) (Some sample_filter) empty_env _ _
           (sample_shader_blocks_emitted sample_keyContext gatherer_ptr) H1 H2).
Defined.

(** A key-only conversion that completes. *)
Lemma key_only_AddToKey_spares_gatherer_witness :
  AddToKey_SkBlender sample_keyContext nullptr (Some sample_key_only_blender) empty_env
  = Some (tt, run_env (AddToKey_SkBlender sample_keyContext nullptr
                         (Some sample_key_only_blender))) /\
  AddToKey_SkColorFilter sample_keyContext nullptr (Some sample_key_only_filter) empty_env
  = Some (tt, run_env (AddToKey_SkColorFilter sample_keyContext nullptr
                         (Some sample_key_only_filter))) /\
  gatherer (run_env (AddToKey_SkBlender sample_keyContext nullptr
                       (Some sample_key_only_blender))) = [] /\
  gatherer (run_env (AddToKey_SkColorFilter sample_keyContext nullptr
                       (Some sample_key_only_filter))) = [].
Proof.
  assert (H1 : AddToKey_SkBlender sample_keyContext nullptr (Some sample_key_only_blender)
                 empty_env
               = Some (tt, run_env (AddToKey_SkBlender sample_keyContext nullptr
                                      (Some sample_key_only_blender))))
    by (vm_compute; reflexivity).
  assert (H2 : AddToKey_SkColorFilter sample_keyContext nullptr (Some sample_key_only_filter)
                 empty_env
               = Some (tt, run_env (AddToKey_SkColorFilter sample_keyContext nullptr
                                      (Some sample_key_only_filter))))
    by (vm_compute; reflexivity).
  split; [exact H1|]. split; [exact H2|].
  exact (key_only_AddToKey_spares_gatherer sample_keyContext
           (Some sample_key_only_blender) (Some sample_key_only_filter) empty_env _ _
           (sample_shaders_spare_gatherer sample_keyContext) H1 H2).
Defined.

(** The working-format filter around a matrix and a table filter. *)
Lemma static_filter_conversion_witness :
  no_runtime_effect sample_filter = true /\
  AddToKey_SkColorFilter sample_keyContext gatherer_ptr (Some sample_filter) empty_env
  = Some (tt, extend empty_env
                (block_calls (filter_key sample_keyContext sample_shader_blocks sample_filter))
                (filter_uniforms sample_keyContext sample_filter) []).
Proof.
  assert (H : no_runtime_effect sample_filter = true) by reflexivity.
  split; [exact H|].
  exact (static_filter_conversion sample_keyContext sample_shader_blocks sample_filter
           empty_env H).
Defined.

(** The same blender and filter cannot be converted key-only. *)
Lemma matrix_filter_blocks_key_only_witness :
  blender_has_matrix_filter sample_blender = true /\
  filter_has_matrix_filter sample_filter = true /\
  AddToKey_SkBlender sample_keyContext nullptr (Some sample_blender) empty_env = None /\
  AddToKey_SkColorFilter sample_keyContext nullptr (Some sample_filter) empty_env = None.
Proof.
  assert (H1 : blender_has_matrix_filter sample_blender = true) by reflexivity.
  assert (H2 : filter_has_matrix_filter sample_filter = true) by reflexivity.
  split; [exact H1|]. split; [exact H2|].
  exact (matrix_filter_blocks_key_only sample_keyContext sample_blender sample_filter
           empty_env H1 H2).
Defined.

(** Three stops without offsets: 0, 1/2, 1, then 1 to the end. *)
Lemma GradientData_even_offsets_witness :
  sample_ctor = Some sample_inline_gradient /\
  3 <= kNumInternalStorageStops /\
  fOffsets sample_inline_gradient 0 = f32_0 /\
  (forall i, 2 <= i < kNumInternalStorageStops -> fOffsets sample_inline_gradient i = f32_1).
Proof.
  assert (H : sample_ctor = Some sample_inline_gradient) by (vm_compute; reflexivity).
  assert (H8 : 3 <= kNumInternalStorageStops) by (unfold kNumInternalStorageStops; lia).
  split; [exact H|]. split; [exact H8|].
  exact (proj1 (proj2 (GradientData_even_offsets _ _ _ _ _ _ _ _ _ _ _ _ _ _ _ H H8))
           ltac:(lia)).
Defined.

(** The same gradient is converted, its colors padded with the third. *)
Lemma constructed_gradient_converts_witness :
  sample_ctor = Some sample_inline_gradient /\
  GT_kLinear <> GT_kNone /\
  GradientShaderBlocks_BeginBlock sample_keyContext gatherer_ptr sample_inline_gradient
    empty_env
  = Some (tt, extend empty_env [beginBlock_call kLinearGradientShader4]
                (gradient_uniforms sample_inline_gradient) []) /\
  span (fColors sample_inline_gradient) 4
  = [kErrorColor; SkPMColor4f_zero; kErrorColor; kErrorColor].
Proof.
  assert (H : sample_ctor = Some sample_inline_gradient) by (vm_compute; reflexivity).
  assert (Ht : GT_kLinear <> GT_kNone) by discriminate.
  split; [exact H|]. split; [exact Ht|].
  pose proof (constructed_gradient_converts sample_keyContext gatherer_ptr empty_env
                SkPMColor4f_zero f32_0 _ _ _ _ _ _ _ _ _ _ _ _ _ _ _ _ H Ht) as [Hrun Hpad].
  split; [exact Hrun|].
  exact (proj1 (Hpad ltac:(unfold kNumInternalStorageStops; lia) 4%nat ltac:(lia))).
Defined.

(** An image with its texture. *)
Lemma image_shader_uniform_layout_witness :
  img_fTextureProxy sample_textured_image = Some sample_proxy /\
  ImageShaderBlock_BeginBlock sample_keyContext gatherer_ptr (Some sample_textured_image)
    empty_env
  = Some (tt, extend empty_env [beginBlock_call kImageShader]
                (image_uniforms sample_textured_image sample_proxy) []).
Proof.
  assert (H : img_fTextureProxy sample_textured_image = Some sample_proxy) by reflexivity.
  split; [exact H|].
  exact (proj1 (image_shader_uniform_layout sample_keyContext sample_textured_image
                  sample_proxy empty_env H)).
Defined.

(** A YUV image with its four planes. *)
Lemma yuv_image_uniform_layout_witness :
  (forall i, 0 <= i < 4 -> yuv_fTextureProxies sample_yuv_image i <> None) /\
  YUVImageShaderBlock_BeginBlock sample_keyContext gatherer_ptr (Some sample_yuv_image)
    empty_env
  = Some (tt, extend empty_env [beginBlock_call kYUVImageShader]
                (yuv_image_uniforms sample_yuv_image) []).
Proof.
  assert (H : forall i, 0 <= i < 4 -> yuv_fTextureProxies sample_yuv_image i <> None)
    by (intros i _; discriminate).
  split; [exact H|].
  exact (proj1 (yuv_image_uniform_layout sample_keyContext sample_yuv_image empty_env H)).
Defined.

(** The image without a texture leaves the error color and nothing else. *)
Lemma fallback_writes_no_partial_data_witness :
  substitutes_fallback sample_keyContext (ImageShaderBlock (Some sample_image)) = true /\
  BeginBlock sample_keyContext gatherer_ptr (ImageShaderBlock (Some sample_image)) empty_env
  = Some (tt, run_env (BeginBlock sample_keyContext gatherer_ptr
                         (ImageShaderBlock (Some sample_image)))) /\
  run_env (BeginBlock sample_keyContext gatherer_ptr (ImageShaderBlock (Some sample_image)))
  = extend empty_env [beginBlock_call kSolidColorShader] [write_SkPMColor4f kErrorColor] [].
Proof.
  assert (H1 : substitutes_fallback sample_keyContext (ImageShaderBlock (Some sample_image))
               = true) by reflexivity.
  assert (H2 : BeginBlock sample_keyContext gatherer_ptr (ImageShaderBlock (Some sample_image))
                 empty_env
               = Some (tt, run_env (BeginBlock sample_keyContext gatherer_ptr
                                      (ImageShaderBlock (Some sample_image)))))
    by (vm_compute; reflexivity).
  split; [exact H1|]. split; [exact H2|].
  exact (fallback_writes_no_partial_data sample_keyContext
           (ImageShaderBlock (Some sample_image)) empty_env _ H1 H2).
Defined.

Lemma sample_shaders_register_nothing keyContext g shader :
  registers (SkShader_addToKey keyContext g shader) (sample_shader_effects shader).
Proof.
  intros env env' H. cbn [SkShader_addToKey sample_collaborators] in H.
  unfold bind in H. rewrite SolidColorShaderBlock_extend, endBlock_extend in H.
  apply (f_equal (fun r => match r with Some (_, e) => rtEffectDict e | None => [] end)) in H.
  cbn in H. now rewrite <- H.
Qed.

(** The tree of four runtime effects: the sets are 1001, 1002, 1003 and
    1001 again, which leaves three entries, the one of 1001 most recent; the
    working-format filter, which holds no runtime effect, sets nothing. *)
Lemma AddToKey_registers_runtime_effects_witness :
  rtEffectDict (run_env (AddToKey_SkBlender sample_keyContext gatherer_ptr
                           (Some sample_runtime_blender)))
  = [(1001, Some sample_effect); (1003, Some sample_effect_other);
     (1002, Some sample_effect_inner)] /\
  rtEffectDict (run_env (AddToKey_SkColorFilter sample_keyContext gatherer_ptr
                           (Some sample_filter)))
  = [] /\
  RuntimeEffectDictionary_find 1003
    (rtEffectDict (run_env (AddToKey_SkBlender sample_keyContext gatherer_ptr
                              (Some sample_runtime_blender))))
  = Some (Some sample_effect_other) /\
  RuntimeEffectDictionary_find 1004
    (rtEffectDict (run_env (AddToKey_SkBlender sample_keyContext gatherer_ptr
                              (Some sample_runtime_blender))))
  = None.
Proof.
  assert (H1 : AddToKey_SkBlender sample_keyContext gatherer_ptr
                 (Some sample_runtime_blender) empty_env
               = Some (tt, run_env (AddToKey_SkBlender sample_keyContext gatherer_ptr
                                      (Some sample_runtime_blender))))
    by (vm_compute; reflexivity).
  assert (H2 : AddToKey_SkColorFilter sample_keyContext gatherer_ptr (Some sample_filter)
                 empty_env
               = Some (tt, run_env (AddToKey_SkColorFilter sample_keyContext gatherer_ptr
                                      (Some sample_filter))))
    by (vm_compute; reflexivity).
  pose proof (AddToKey_registers_runtime_effects sample_keyContext sample_shader_effects
                gatherer_ptr (Some sample_runtime_blender) (Some sample_filter) empty_env _ _
                (sample_shaders_register_nothing sample_keyContext gatherer_ptr) H1 H2)
    as (Hb & Hf & Hfind & _).
  split; [exact Hb|]. split; [exact Hf|]. split; [exact (Hfind 1003) | exact (Hfind 1004)].
Defined.

End MoreSamples.
